(** * CLAN log decoder: a shallow embedding of [log_parser.py]

    The development follows [parse_log_file] of [src/log_parser.py]: the
    helpers nested in it ([parse_timestamp], [safe_clean_value],
    [convert_boolean_to_numeric], [parse_list_values], [parse_cpu_info],
    [is_error_message], [append_to_error_log]) and the per-line loop with its
    chain of category decoders.

    Modelling conventions.
    - Text is [string]; a character is a code point below 256, classified
      and case-mapped the way Python does below 256 (the controller writes
      ASCII logs, with a degree sign in the CPU lines).  The two letters
      whose capitals lie above 255, U+00B5 and U+00FF, are left alone by
      [upper].
    - A Python [float] is a binary64 value of [SpecFloat]; [float(text)] is
      the correctly rounded value of the decimal literal.
    - A [datetime] is the number of microseconds since 0001-01-01 00:00:00;
      adding a [timedelta] raises [OverflowError] outside years 1..9999.
    - [datetime.now()] is read from a clock indexed by the line number.
    - [log_data], a dict from category name to a list of records, is a
      [gmap]; a record, a dict built field by field, is an association list
      in insertion order.
    - Diagnostics written with [print] or to the logger do not reach the
      record store; only [safe_clean_value_w] keeps them, as a list.
    - The input is the list of the lines of the file; the result is
      [log_data] restricted to the categories that hold data, the rows from
      which the data frames are built. *)

From Stdlib Require Import ZArith List String Ascii Bool Lia.
From Stdlib Require Import Floats.SpecFloat.
From Stdlib Require DecimalString.
From stdpp Require Import gmap strings.
Import ListNotations.

Local Open Scope string_scope.
Local Open Scope list_scope.

(** ** Python [str] operations *)

Module PyStr.

(** [str.isspace] below code point 256, which [strip], [split] and the
    regex class [\s] share: TAB, LF, VT, FF, CR, FS, GS, RS, US, the space,
    NEL (U+0085) and the no-break space (U+00A0). *)
Definition isspace (c : ascii) : bool :=
  let n := nat_of_ascii c in
  (((9 <=? n) && (n <=? 13)) || ((28 <=? n) && (n <=? 32))
   || (n =? 133) || (n =? 160))%nat.

(** The blanks that [float()] and [int()] accept around a number: those of
    C [isspace], and the blanks above the ASCII range, which the
    interpreter turns into spaces first. *)
Definition c_isspace (c : ascii) : bool :=
  let n := nat_of_ascii c in
  (((9 <=? n) && (n <=? 13)) || (n =? 32) || (n =? 133) || (n =? 160))%nat.

Definition isdigit (c : ascii) : bool :=
  let n := nat_of_ascii c in ((48 <=? n) && (n <=? 57))%nat.

Definition digit_val (c : ascii) : Z := Z.of_nat (nat_of_ascii c) - 48.

Definition isupper (c : ascii) : bool :=
  let n := nat_of_ascii c in ((65 <=? n) && (n <=? 90))%nat.

Definition islower (c : ascii) : bool :=
  let n := nat_of_ascii c in ((97 <=? n) && (n <=? 122))%nat.

(** The capital and the small letters of the Latin-1 range that have a
    counterpart in it. *)
Definition isupper_latin1 (c : ascii) : bool :=
  let n := nat_of_ascii c in
  (((192 <=? n) && (n <=? 214)) || ((216 <=? n) && (n <=? 222)))%nat.

Definition islower_latin1 (c : ascii) : bool :=
  let n := nat_of_ascii c in
  (((224 <=? n) && (n <=? 246)) || ((248 <=? n) && (n <=? 254)))%nat.

(** [\w] below code point 256: the ASCII letters and digits, the
    underscore, and the letters and numbers of the Latin-1 range. *)
Definition isword (c : ascii) : bool :=
  let n := nat_of_ascii c in
  isdigit c || isupper c || islower c || Ascii.eqb c "_"
  || ((n =? 170) || (n =? 178) || (n =? 179) || (n =? 181) || (n =? 185)
      || (n =? 186) || ((188 <=? n) && (n <=? 190))
      || ((192 <=? n) && (n <=? 214)) || ((216 <=? n) && (n <=? 246))
      || (248 <=? n))%nat.

Definition lower_chr (c : ascii) : ascii :=
  if isupper c || isupper_latin1 c
  then ascii_of_nat (nat_of_ascii c + 32) else c.

Definition upper_chr (c : ascii) : ascii :=
  if islower c || islower_latin1 c
  then ascii_of_nat (nat_of_ascii c - 32) else c.

Fixpoint map_str (f : ascii -> ascii) (s : string) : string :=
  match s with
  | EmptyString => EmptyString
  | String c s' => String (f c) (map_str f s')
  end.

Definition lower : string -> string := map_str lower_chr.

(** [s.upper()]; the sharp s (U+00DF) becomes [SS]. *)
Fixpoint upper (s : string) : string :=
  match s with
  | EmptyString => EmptyString
  | String c s' =>
      if (nat_of_ascii c =? 223)%nat then String "S" (String "S" (upper s'))
      else String (upper_chr c) (upper s')
  end.

Fixpoint rev_onto (s acc : string) : string :=
  match s with
  | EmptyString => acc
  | String c s' => rev_onto s' (String c acc)
  end.

Definition rev (s : string) : string := rev_onto s EmptyString.

Definition is_empty (s : string) : bool :=
  match s with EmptyString => true | _ => false end.

(** [s.startswith(pre)], [s.endswith(suf)], [pat in s]. *)
Definition startswith (pre s : string) : bool := String.prefix pre s.

Definition endswith (suf s : string) : bool :=
  String.prefix (rev suf) (rev s).

Fixpoint contains (pat s : string) : bool :=
  String.prefix pat s
  || match s with
     | EmptyString => false
     | String _ s' => contains pat s'
     end.

(** [s[n:]] and [s[:n]] for [0 <= n]. *)
Fixpoint drop (n : nat) (s : string) : string :=
  match n, s with
  | O, _ => s
  | S _, EmptyString => EmptyString
  | S n', String _ s' => drop n' s'
  end.

Fixpoint take (n : nat) (s : string) : string :=
  match n, s with
  | O, _ => EmptyString
  | S _, EmptyString => EmptyString
  | S n', String c s' => String c (take n' s')
  end.

(** [s[1:-1]]. *)
Definition slice_1_m1 (s : string) : string :=
  take (String.length s - 2) (drop 1 s).

(** [s.find(pat)] and [s.rfind(pat)]; [None] stands for -1. *)
Fixpoint find (pat s : string) : option nat :=
  if String.prefix pat s then Some O
  else match s with
       | EmptyString => None
       | String _ s' => option_map S (find pat s')
       end.

Fixpoint rfind (pat s : string) : option nat :=
  match s with
  | EmptyString => if String.prefix pat s then Some O else None
  | String _ s' =>
      match rfind pat s' with
      | Some i => Some (S i)
      | None => if String.prefix pat s then Some O else None
      end
  end.

(** [s.lstrip()], [s.rstrip()], [s.strip()]. *)
Fixpoint lstrip_by (sp : ascii -> bool) (s : string) : string :=
  match s with
  | EmptyString => EmptyString
  | String c s' => if sp c then lstrip_by sp s' else s
  end.

Fixpoint rstrip_by (sp : ascii -> bool) (s : string) : string :=
  match s with
  | EmptyString => EmptyString
  | String c s' =>
      match rstrip_by sp s' with
      | EmptyString => if sp c then EmptyString else String c EmptyString
      | r => String c r
      end
  end.

Definition strip_by (sp : ascii -> bool) (s : string) : string :=
  rstrip_by sp (lstrip_by sp s).

Definition strip : string -> string := strip_by isspace.

(** [s.split(sep)] and [s.split(sep, maxsplit)] for a non-empty [sep]:
    the text is scanned from the left and cut at each occurrence of [sep]
    that does not overlap the previous one, at most [maxsplit] times. *)
Definition cons_head (c : ascii) (l : list string) : list string :=
  match l with
  | p :: ps => String c p :: ps
  | [] => [String c EmptyString]
  end.

Definition may_split (k : option nat) : bool :=
  match k with Some O => false | _ => true end.

Definition one_less (k : option nat) : option nat :=
  match k with Some (S j) => Some j | _ => k end.

Fixpoint split_go (sep : string) (k : option nat) (skip : nat) (s : string)
  : list string :=
  match s with
  | EmptyString => [EmptyString]
  | String c s' =>
      match skip with
      | S j => split_go sep k j s'
      | O =>
          if may_split k && String.prefix sep s
          then EmptyString :: split_go sep (one_less k) (String.length sep - 1) s'
          else cons_head c (split_go sep k O s')
      end
  end.

Definition split (sep s : string) : list string := split_go sep None O s.

Definition splitn (sep : string) (maxsplit : nat) (s : string) : list string :=
  split_go sep (Some maxsplit) O s.

(** [s.split()]: the maximal runs of non-blank characters. *)
Fixpoint split_ws_go (s : string) (cur : string) : list string :=
  match s with
  | EmptyString => if is_empty cur then [] else [rev cur]
  | String c s' =>
      if isspace c
      then (if is_empty cur then split_ws_go s' EmptyString
            else rev cur :: split_ws_go s' EmptyString)
      else split_ws_go s' (String c cur)
  end.

Definition split_ws (s : string) : list string := split_ws_go s EmptyString.

(** [sep.join(parts)]. *)
Definition join (sep : string) (parts : list string) : string :=
  String.concat sep parts.

(** The longest prefix of [s] made of characters in [cls], and the rest. *)
Fixpoint span (cls : ascii -> bool) (s : string) : string * string :=
  match s with
  | EmptyString => (EmptyString, EmptyString)
  | String c s' =>
      if cls c then let '(a, b) := span cls s' in (String c a, b)
      else (EmptyString, s)
  end.

(** [str(n)] for an [int]. *)
Definition str_of_Z (z : Z) : string :=
  DecimalString.NilZero.string_of_int (Z.to_int z).

End PyStr.

(** ** Python [int()] and [float()] on text

    [int()] has the interpreter's default limit of 4300 digits on a decimal
    text; [float()] has none. *)

Module PyNum.
Import PyStr.
Local Open Scope Z_scope.

(** Underscores may stand between two digits only; they are removed. *)
Fixpoint drop_underscores (prev : option ascii) (s : string) : option string :=
  match s with
  | EmptyString =>
      match prev with
      | Some "_"%char => None
      | _ => Some EmptyString
      end
  | String c s' =>
      if Ascii.eqb c "_"
      then match prev with
           | Some p => if isdigit p then drop_underscores (Some c) s' else None
           | None => None
           end
      else match prev with
           | Some "_"%char =>
               if isdigit c
               then option_map (String c) (drop_underscores (Some c) s')
               else None
           | _ => option_map (String c) (drop_underscores (Some c) s')
           end
  end.

(** An optional sign; [true] is a minus. *)
Definition read_sign (s : string) : bool * string :=
  match s with
  | String "-"%char s' => (true, s')
  | String "+"%char s' => (false, s')
  | _ => (false, s)
  end.

Fixpoint all_digits (s : string) : bool :=
  match s with
  | EmptyString => true
  | String c s' => isdigit c && all_digits s'
  end.

Fixpoint digits_value (acc : Z) (s : string) : Z :=
  match s with
  | EmptyString => acc
  | String c s' => digits_value (10 * acc + digit_val c) s'
  end.

(** The default of [sys.get_int_max_str_digits()]. *)
Definition int_max_str_digits : nat := 4300.

(** [int(text)]; [None] is [ValueError], which a text of more digits than
    the limit raises too (the sign and the underscores do not count). *)
Definition int_of_string (text : string) : option Z :=
  match drop_underscores None (strip_by c_isspace text) with
  | None => None
  | Some t =>
      let '(neg, body) := read_sign t in
      if negb (is_empty body) && all_digits body
         && (String.length body <=? int_max_str_digits)%nat
      then Some (if neg then - digits_value 0 body else digits_value 0 body)
      else None
  end.

Definition float64_round (neg : bool) (m : positive) (e : Z) : spec_float :=
  binary_round 53 1024 neg m e.

Definition float64_div (x y : spec_float) : spec_float := SFdiv 53 1024 x y.

(** The binary64 value nearest to [m * 10 ^ e], ties to even. *)
Definition float_of_decimal (neg : bool) (m e : Z) : spec_float :=
  match m with
  | Zpos p =>
      if 0 <=? e
      then float64_round neg (p * Z.to_pos (10 ^ e)) 0
      else float64_div (S754_finite neg p 0)
                       (S754_finite false (Z.to_pos (10 ^ (- e))) 0)
  | _ => S754_zero neg
  end.

(** The exponent part [e[+-]digits], which must reach the end of the text. *)
Definition read_exponent (s : string) : option Z :=
  match s with
  | EmptyString => Some 0
  | String c s' =>
      if Ascii.eqb c "e" || Ascii.eqb c "E"
      then let '(neg, ds) := read_sign s' in
           if negb (is_empty ds) && all_digits ds
           then Some (if neg then - digits_value 0 ds else digits_value 0 ds)
           else None
      else None
  end.

(** [float(text)]; [None] is [ValueError]. *)
Definition float_of_string (text : string) : option spec_float :=
  match drop_underscores None (strip_by c_isspace text) with
  | None => None
  | Some t =>
      let '(neg, body) := read_sign t in
      let low := lower body in
      if String.eqb low "inf" || String.eqb low "infinity"
      then Some (S754_infinity neg)
      else if String.eqb low "nan" then Some S754_nan
      else
        let '(ip, r1) := span isdigit body in
        let '(fp, r2) :=
          match r1 with
          | String "."%char r => span isdigit r
          | _ => (EmptyString, r1)
          end in
        if is_empty ip && is_empty fp then None
        else match read_exponent r2 with
             | None => None
             | Some ex =>
                 Some (float_of_decimal neg
                         (digits_value 0 (ip ++ fp))
                         (ex - Z.of_nat (String.length fp)))
             end
  end.

(** [x.is_integer()] and [int(x)] for a float. *)
Definition is_integer (x : spec_float) : bool :=
  match x with
  | S754_zero _ => true
  | S754_finite _ m e =>
      if 0 <=? e then true else (Zpos m mod 2 ^ (- e) =? 0)
  | _ => false
  end.

Definition int_of_float (x : spec_float) : option Z :=
  match x with
  | S754_zero _ => Some 0
  | S754_finite s m e =>
      let q := if 0 <=? e then Zpos m * 2 ^ e else Zpos m / 2 ^ (- e) in
      Some (if s then - q else q)
  | _ => None
  end.

End PyNum.

(** ** [datetime] and [strptime] *)

Module Datetime.
Import PyStr.
Local Open Scope Z_scope.

Definition is_leap (y : Z) : bool :=
  (y mod 4 =? 0) && (negb (y mod 100 =? 0) || (y mod 400 =? 0)).

Definition days_in_month (y m : Z) : Z :=
  if m =? 2 then (if is_leap y then 29 else 28)
  else if (m =? 4) || (m =? 6) || (m =? 9) || (m =? 11) then 30
  else 31.

Definition days_before_year (y : Z) : Z :=
  let p := y - 1 in p * 365 + p / 4 - p / 100 + p / 400.

Fixpoint days_before_month_go (y : Z) (n : nat) : Z :=
  match n with
  | O => 0
  | S k => days_before_month_go y k + days_in_month y (Z.of_nat n)
  end.

Definition days_before_month (y m : Z) : Z :=
  days_before_month_go y (Z.to_nat (m - 1)).

(** The proleptic Gregorian ordinal; 0001-01-01 is day 1. *)
Definition ymd2ord (y m d : Z) : Z :=
  days_before_year y + days_before_month y m + d.

Definition micro_per_day : Z := 86400 * 1000000.

(** One past 9999-12-31 23:59:59.999999. *)
Definition max_micro : Z := 3652059 * micro_per_day.

Definition in_range (t : Z) : bool := (0 <=? t) && (t <? max_micro).

(** [datetime(y, mo, d, h, mi, s, us)]; [None] is [ValueError]. *)
Definition make (y mo d h mi s us : Z) : option Z :=
  if (1 <=? y) && (y <=? 9999) && (1 <=? mo) && (mo <=? 12)
     && (1 <=? d) && (d <=? days_in_month y mo)
     && (0 <=? h) && (h <=? 23) && (0 <=? mi) && (mi <=? 59)
     && (0 <=? s) && (s <=? 59) && (0 <=? us) && (us <=? 999999)
  then Some ((ymd2ord y mo d - 1) * micro_per_day
             + ((h * 60 + mi) * 60 + s) * 1000000 + us)
  else None.

(** [t + delta]; [None] is [OverflowError]. *)
Definition add (t delta : Z) : option Z :=
  if in_range (t + delta) then Some (t + delta) else None.

(** [timedelta(hours=h, minutes=m)] in microseconds. *)
Definition timedelta_hm (h m : Z) : Z := (h * 60 + m) * 60 * 1000000.

(** *** The directives of [_strptime]

    A directive is a regular expression with ordered alternatives; it
    yields its matches in the order in which the regex engine tries them. *)
Definition directive (A : Type) : Type := string -> list (A * string).

Definition ret {A} (a : A) : directive A := fun s => [(a, s)].

Definition bind {A B} (p : directive A) (f : A -> directive B) : directive B :=
  fun s => flat_map (fun '(a, r) => f a r) (p s).

Definition orelse {A} (p q : directive A) : directive A :=
  fun s => p s ++ q s.

Definition chr_in (lo hi : ascii) : directive Z :=
  fun s =>
    match s with
    | String c r =>
        if (nat_of_ascii lo <=? nat_of_ascii c)%nat
           && (nat_of_ascii c <=? nat_of_ascii hi)%nat
        then [(digit_val c, r)] else []
    | EmptyString => []
    end.

Definition lit (c : ascii) : directive unit :=
  fun s =>
    match s with
    | String c' r => if Ascii.eqb c c' then [(tt, r)] else []
    | EmptyString => []
    end.

Definition two (lo1 hi1 lo2 hi2 : ascii) : directive Z :=
  bind (chr_in lo1 hi1) (fun a => bind (chr_in lo2 hi2) (fun b => ret (10 * a + b))).

Definition dir_Y : directive Z :=
  bind (chr_in "0" "9") (fun a => bind (chr_in "0" "9") (fun b =>
  bind (chr_in "0" "9") (fun c => bind (chr_in "0" "9") (fun d =>
  ret (((a * 10 + b) * 10 + c) * 10 + d))))).

(** [1[0-2]|0[1-9]|[1-9]] *)
Definition dir_m : directive Z :=
  orelse (two "1" "1" "0" "2") (orelse (two "0" "0" "1" "9") (chr_in "1" "9")).

(** [3[0-1]|[1-2]\d|0[1-9]|[1-9]| [1-9]] *)
Definition dir_d : directive Z :=
  orelse (two "3" "3" "0" "1") (orelse (two "1" "2" "0" "9")
    (orelse (two "0" "0" "1" "9") (orelse (chr_in "1" "9")
       (bind (lit " ") (fun _ => chr_in "1" "9"))))).

(** [2[0-3]|[0-1]\d|\d] *)
Definition dir_H : directive Z :=
  orelse (two "2" "2" "0" "3") (orelse (two "0" "1" "0" "9") (chr_in "0" "9")).

(** [[0-5]\d|\d] *)
Definition dir_M : directive Z :=
  orelse (two "0" "5" "0" "9") (chr_in "0" "9").

(** [6[0-1]|[0-5]\d|\d] *)
Definition dir_S : directive Z :=
  orelse (two "6" "6" "0" "1") (orelse (two "0" "5" "0" "9") (chr_in "0" "9")).

(** [[0-9]{1,6}], longest first; the digits are padded to microseconds. *)
Fixpoint dir_f_go (n : nat) (acc : Z) (scale : Z) : directive Z :=
  fun s =>
    match n with
    | O => []
    | S k =>
        match s with
        | String c r =>
            if isdigit c
            then let v := 10 * acc + digit_val c in
                 dir_f_go k v (scale / 10) r ++ [(v * (scale / 10), r)]
            else []
        | EmptyString => []
        end
    end.

Definition dir_f : directive Z := dir_f_go 6 0 1000000.

(** [\s+], which a blank of the format stands for; longest first. *)
Fixpoint dir_blank (s : string) : list (unit * string) :=
  match s with
  | String c r => if isspace c then dir_blank r ++ [(tt, r)] else []
  | EmptyString => []
  end.

(** [%Y-%m-%d %H:%M:%S], the part the two formats share. *)
Definition dir_seconds : directive (Z * Z * Z * Z * Z * Z) :=
  bind dir_Y (fun y => bind (lit "-") (fun _ =>
  bind dir_m (fun mo => bind (lit "-") (fun _ =>
  bind dir_d (fun d => bind dir_blank (fun _ =>
  bind dir_H (fun h => bind (lit ":") (fun _ =>
  bind dir_M (fun mi => bind (lit ":") (fun _ =>
  bind dir_S (fun s => ret (y, mo, d, h, mi, s)))))))))))).

(** The first match of the format's regex must end the text; then the
    fields must form a [datetime]. *)
Definition finish (ms : list (Z * Z * Z * Z * Z * Z * Z * string)) : option Z :=
  match ms with
  | (y, mo, d, h, mi, s, us, EmptyString) :: _ => make y mo d h mi s us
  | _ => None
  end.

(** [datetime.strptime(text, '%Y-%m-%d %H:%M:%S.%f')] *)
Definition strptime_micro (text : string) : option Z :=
  finish
    (bind dir_seconds (fun '(y, mo, d, h, mi, s) =>
     bind (lit ".") (fun _ =>
     bind dir_f (fun us => ret (y, mo, d, h, mi, s, us)))) text).

(** [datetime.strptime(text, '%Y-%m-%d %H:%M:%S')] *)
Definition strptime_seconds (text : string) : option Z :=
  finish
    (bind dir_seconds (fun '(y, mo, d, h, mi, s) =>
       ret (y, mo, d, h, mi, s, 0)) text).

End Datetime.

(** ** The regular expressions of the decoder *)

Module Re.
Import PyStr.

(** A fixed-width shape: one character class per position. *)
Fixpoint match_shape (shape : list (ascii -> bool)) (s : string) : option string :=
  match shape, s with
  | [], _ => Some s
  | p :: ps, String c r => if p c then match_shape ps r else None
  | _ :: _, EmptyString => None
  end.

Definition is_chr (a : ascii) : ascii -> bool := Ascii.eqb a.

(** [\d{4}-\d{2}-\d{2} \d{2}:\d{2}:\d{2}\.\d{3}] *)
Definition timestamp_shape : list (ascii -> bool) :=
  [isdigit; isdigit; isdigit; isdigit; is_chr "-"; isdigit; isdigit; is_chr "-";
   isdigit; isdigit; is_chr " "; isdigit; isdigit; is_chr ":"; isdigit; isdigit;
   is_chr ":"; isdigit; isdigit; is_chr "."; isdigit; isdigit; isdigit].

(** [re.match(r'^(\d{4}-\d{2}-\d{2} \d{2}:\d{2}:\d{2}\.\d{3})', line)]:
    group 1 and the text from [end()] on. *)
Definition match_timestamp (line : string) : option (string * string) :=
  match match_shape timestamp_shape line with
  | Some rest => Some (take (List.length timestamp_shape) line, rest)
  | None => None
  end.

(** [re.search] for a literal [pre], a group [(cls+)] and a literal
    [post] whose first character is outside [cls]: group 1 of the leftmost
    match. *)
Fixpoint search_run (pre : string) (cls : ascii -> bool) (post : string)
  (s : string) : option string :=
  let here :=
    if String.prefix pre s
    then let '(run, rest) := span cls (drop (String.length pre) s) in
         if negb (is_empty run) && String.prefix post rest
         then Some run else None
    else None in
  match here with
  | Some g => Some g
  | None =>
      match s with
      | EmptyString => None
      | String _ s' => search_run pre cls post s'
      end
  end.

Definition digit_or_dot (c : ascii) : bool := isdigit c || Ascii.eqb c ".".
Definition load_chr (c : ascii) : bool :=
  isdigit c || Ascii.eqb c "." || Ascii.eqb c "," || Ascii.eqb c " ".
Definition not_chr (a : ascii) (c : ascii) : bool := negb (Ascii.eqb a c).

Definition newline : ascii := ascii_of_nat 10.

(** The text up to the first [close], when no newline comes before it. *)
Fixpoint until_close (close : ascii) (s : string) : option string :=
  match s with
  | EmptyString => None
  | String c r =>
      if Ascii.eqb c close then Some EmptyString
      else if Ascii.eqb c newline then None
      else option_map (String c) (until_close close r)
  end.

(** [re.search(r'\[(.*?)\]', s)], group 1. *)
Fixpoint search_bracket (s : string) : option string :=
  match s with
  | EmptyString => None
  | String c r =>
      if Ascii.eqb c "["
      then match until_close "]" r with
           | Some g => Some g
           | None => search_bracket r
           end
      else search_bracket r
  end.

(** [.+] from the start of [s]: the text up to a newline, if not empty. *)
Definition dot_plus (s : string) : option string :=
  let '(g, _) := span (not_chr newline) s in
  if is_empty g then None else Some g.

(** [\s+(.+)] on a run [ws] of blanks followed by [rest]: the run gives
    back characters from its end until [.+] can match. *)
Fixpoint blank_then_rest (ws rest : string) : option string :=
  match ws with
  | EmptyString => None
  | String c ws' =>
      match blank_then_rest ws' rest with
      | Some g => Some g
      | None => dot_plus (ws' ++ rest)
      end
  end.

(** [re.match(r'T(\d+)\s+(.+)', s)], groups 1 and 2. *)
Definition match_thread (s : string) : option (string * string) :=
  match s with
  | String "T"%char r =>
      let '(ds, r1) := span isdigit r in
      if is_empty ds then None
      else let '(ws, r2) := span isspace r1 in
           match blank_then_rest ws r2 with
           | Some g => Some (ds, g)
           | None => None
           end
  | _ => None
  end.

End Re.

(** ** Values, records and the record store *)

#[warnings="-register-all"]
Inductive pyval : Type :=
| VNone
| VBool (b : bool)
| VInt (z : Z)
| VFloat (x : spec_float)
| VStr (s : string)
| VTime (t : Z)
| VList (l : list pyval).

(** A record is a dict from field name to value, in insertion order. *)
Definition record : Type := list (string * pyval).

Fixpoint dict_set (k : string) (v : pyval) (d : record) : record :=
  match d with
  | [] => [(k, v)]
  | (k', v') :: d' =>
      if String.eqb k k' then (k, v) :: d' else (k', v') :: dict_set k v d'
  end.

Fixpoint dict_get (k : string) (d : record) : option pyval :=
  match d with
  | [] => None
  | (k', v') :: d' => if String.eqb k k' then Some v' else dict_get k d'
  end.

(** [d.update(e)] *)
Definition dict_update (d e : record) : record :=
  fold_left (fun acc '(k, v) => dict_set k v acc) e d.

(** The categories [log_data] is created with, in the order of the source. *)
Definition categories : list string :=
  [ "MISSION_INFO"; "MISSION_STATE_CHANGED"; "RC_CHANNELS"; "SERIAL_TCP_CON";
    "CC_PARAMETER"; "CC_PARAMETER_SHELVE"; "CC_PARAMETER_TINY"; "AP_PARAMETER";
    "AP_PARAMETER_TINY"; "MAVLINK_INFO"; "GA_SET_PARAM"; "GA_GET_PARAM";
    "GA_PARAM"; "MAX_SPEED_ESTI"; "MAVLINK_ACTIVE_PORT"; "CPU"; "VERSION";
    "BOUNDARY_INTR"; "VEHICLE_COMMAND"; "GUIDED_MISSION"; "RESUME_MISSION";
    "RESUME_STATE"; "CC_PARAMETER_PERF"; "CC_PARAMETER_DB_PERF";
    "SnA_RECEIVING_DATA"; "SnA_LOGGING"; "SnA_INFO"; "SPRAY_INFO";
    "SCHEDULERTASK"; "FLOWMETER"; "FLOWMETER_INFO"; "PUMP"; "NOZZLE"; "ERROR";
    "OTHER" ].

Definition empty_log_data : gmap string (list record) :=
  list_to_map (map (fun c => (c, @nil record)) categories).

(** [log_data[category]] *)
Definition records (category : string) (log_data : gmap string (list record))
  : list record :=
  log_data !!! category.

(** [log_data[category].append(r)] *)
Definition append_record (category : string) (r : record)
  (log_data : gmap string (list record)) : gmap string (list record) :=
  <[category := records category log_data ++ [r]]> log_data.

(** ** The helpers nested in [parse_log_file] *)

(** [parse_timestamp(ts_str, offset)]; [now] is what [datetime.now()] would
    return, and [None] is the [OverflowError] of the addition. *)
Definition parse_timestamp (now : Z) (ts_str : string) (offset : Z) : option Z :=
  let base_timestamp :=
    match Datetime.strptime_micro ts_str with
    | Some t => t
    | None =>
        match Datetime.strptime_seconds ts_str with
        | Some t => t
        | None => now
        end
    end in
  Datetime.add base_timestamp offset.

Definition null_text (value : string) : bool :=
  String.eqb value "" || String.eqb value "None" || String.eqb value "None,".

(** [safe_clean_value(value, target_type, convert_bool_to_numeric)] with the
    warnings it hands to the logger.  The annotation makes [value] a [str];
    a [None] argument would return at the first test like the empty text. *)
Definition safe_clean_value_w (value : string) (target_type : string)
  (convert_bool_to_numeric : bool) : pyval * list string :=
  if String.eqb value "" then (VNone, [])
  else
    let value := PyStr.strip value in
    if null_text value then (VNone, [])
    else if String.eqb target_type "string" then (VStr value, [])
    else if String.eqb target_type "float" then
      match PyNum.float_of_string value with
      | Some x => (VFloat x, [])
      | None => (VNone, [("Failed to convert '" ++ value ++ "' to float")%string])
      end
    else if String.eqb target_type "int" then
      match PyNum.int_of_string value with
      | Some z => (VInt z, [])
      | None => (VNone, [("Failed to convert '" ++ value ++ "' to int")%string])
      end
    else if String.eqb target_type "bool_numeric" then
      if String.eqb (PyStr.lower value) "true" then (VInt 1, [])
      else if String.eqb (PyStr.lower value) "false" then (VInt 0, [])
      else (VNone, [("Unexpected boolean value: '" ++ value ++ "'")%string])
    else
      if String.eqb value "True" || String.eqb value "False" then
        if convert_bool_to_numeric
        then (VInt (if String.eqb value "True" then 1 else 0), [])
        else (VBool (String.eqb value "True"), [])
      else if PyStr.contains "." value then
        match PyNum.float_of_string value with
        | Some x => (VFloat x, [])
        | None => (VStr value, [])
        end
      else
        match PyNum.int_of_string value with
        | Some z => (VInt z, [])
        | None => (VStr value, [])
        end.

(** The value alone, as the decoders use it. *)
Definition safe_clean_value (value : string) (target_type : string) : pyval :=
  fst (safe_clean_value_w value target_type false).

(** [convert_boolean_to_numeric(value)] *)
Definition convert_boolean_to_numeric (value : string) : pyval :=
  if String.eqb value "" then VNone
  else
    let value := PyStr.strip value in
    if String.eqb (PyStr.lower value) "true" then VInt 1
    else if String.eqb (PyStr.lower value) "false" then VInt 0
    else VNone.

(** One element of [parse_list_values]: [float], else [int], else the text. *)
Definition list_element (part : string) : pyval :=
  match PyNum.float_of_string part with
  | Some x => VFloat x
  | None =>
      match PyNum.int_of_string part with
      | Some z => VInt z
      | None => VStr part
      end
  end.

(** [[p.strip() for p in cleaned.split(',') if p.strip()]] *)
Definition list_parts (cleaned : string) : list string :=
  map PyStr.strip
    (List.filter (fun p => negb (PyStr.is_empty (PyStr.strip p)))
       (PyStr.split "," cleaned)).

(** [parse_list_values(value_str)] *)
Definition parse_list_values (value_str : string) : list pyval :=
  if PyStr.is_empty value_str || String.eqb (PyStr.strip value_str) "" then []
  else
    let cleaned := PyStr.strip value_str in
    let cleaned :=
      if PyStr.startswith "[" cleaned && PyStr.endswith "]" cleaned
      then PyStr.slice_1_m1 cleaned else cleaned in
    map list_element (list_parts cleaned).

(** [is_error_message(log_content)] *)
Definition error_keywords : list string :=
  [ "error"; "warning"; "exception"; "failed"; "failure"; "fault";
    "critical"; "timeout"; "crash"; "abort"; "denied"; "refuse";
    "invalid"; "corrupt"; "missing"; "not found"; "unable";
    "disconnect"; "lost"; "broken"; "malfunction"; "alert";
    "emergency"; "panic"; "fatal"; "severe"; "bad"; "wrong" ].

Definition is_error_message (log_content : string) : bool :=
  let log_lower := PyStr.lower log_content in
  existsb (fun keyword => PyStr.contains keyword log_lower) error_keywords.

(** [append_to_error_log(timestamp, log_content)] *)
Definition error_header : record :=
  [ ("timestamp", VNone);
    ("log_content", VStr "::  This is a list of ERROR/FAILURE items extracted from logs  ::") ].

Definition error_separator : record :=
  [ ("timestamp", VNone);
    ("log_content", VStr "---------------------------------------------------------------------------------") ].

Definition error_entry (timestamp : Z) (log_content : string) : record :=
  [ ("timestamp", VTime timestamp); ("log_content", VStr log_content) ].

Definition append_to_error_log (timestamp : Z) (log_content : string)
  (log_data : gmap string (list record)) : gmap string (list record) :=
  let log_data :=
    if (List.length (records "ERROR" log_data) =? 0)%nat
    then append_record "ERROR" error_separator
           (append_record "ERROR" error_header log_data)
    else log_data in
  append_record "ERROR" (error_entry timestamp log_content) log_data.

(** ** The category decoders

    Each decoder is the body of one branch of the [if]/[elif] chain.  It
    returns the record the branch appends, or [None] when the branch appends
    nothing: a header line ([continue]), too few fields, or an exception
    that the [except] clause of the loop catches. *)

Module Decoders.
Import PyStr.

Definition at_ (i : nat) (l : list string) : string := nth i l "".

(** [log_content.split(',')[1:]] with every part stripped. *)
Definition fields_after_tag (log_content : string) : list string :=
  map strip (tl (split "," log_content)).

(** [log_content.split(',', n)[1:]] with every part stripped. *)
Definition fields_after_tag_n (n : nat) (log_content : string) : list string :=
  map strip (tl (splitn "," n log_content)).

(** [safe_clean_value(parts[i], ty) if len(parts) > i else None] *)
Definition field (i : nat) (parts : list string) (ty : string) : pyval :=
  if (i <? List.length parts)%nat then safe_clean_value (at_ i parts) ty else VNone.

(** Truth of a value that is [None] or a text. *)
Definition truthy (v : pyval) : bool :=
  match v with
  | VStr s => negb (is_empty s)
  | _ => false
  end.

Definition text_of (v : pyval) : string :=
  match v with VStr s => s | _ => "" end.

Fixpoint assoc {A} (k : string) (l : list (string * A)) : option A :=
  match l with
  | [] => None
  | (k', a) :: l' => if String.eqb k k' then Some a else assoc k l'
  end.

Definition mode_mapping : list (string * Z) :=
  [ ("STABILIZE", 0); ("ACRO", 1); ("ALT_HOLD", 2); ("AUTO", 3); ("GUIDED", 4);
    ("LOITER", 5); ("RTL", 6); ("CIRCLE", 7); ("LAND", 9); ("DRIFT", 11);
    ("SPORT", 13); ("FLIP", 14); ("AUTOTUNE", 15); ("POSHOLD", 16);
    ("BRAKE", 17); ("THROW", 18); ("AVOID_ADSB", 19); ("GUIDED_NOGPS", 20);
    ("SMART_RTL", 21); ("FLOWHOLD", 22); ("FOLLOW", 23); ("ZIGZAG", 24);
    ("SYSTEMID", 25); ("AUTOROTATE", 26) ]%Z.

(** A two-valued text flag: [yes] is 1, [no] is 0, anything else [None]. *)
Definition flag_val (yes no : string) (v : pyval) : pyval :=
  if truthy v then
    if String.eqb (lower (text_of v)) yes then VInt 1
    else if String.eqb (lower (text_of v)) no then VInt 0
    else VNone
  else VNone.

Definition decode_mission_info (timestamp : Z) (log_content : string)
  : option record :=
  if contains "mode, armed, flying" log_content then None
  else
    let data_parts := fields_after_tag log_content in
    if (9 <=? List.length data_parts)%nat then
      let mode_str := field 0 data_parts "string" in
      let armed_str := field 1 data_parts "string" in
      let flying_str := field 2 data_parts "string" in
      let mode_val :=
        if truthy mode_str
        then match assoc (upper (text_of mode_str)) mode_mapping with
             | Some z => VInt z
             | None => VNone
             end
        else VNone in
      Some [ ("timestamp", VTime timestamp);
             ("flight_mode", mode_str);
             ("flight_mode_val", mode_val);
             ("armed", armed_str);
             ("armed_val", flag_val "armed" "disarmed" armed_str);
             ("flying", flying_str);
             ("flying_val", flag_val "flying" "not-flying" flying_str);
             ("height_m", field 3 data_parts "float");
             ("speed_ms", field 4 data_parts "float");
             ("climb_rate_ms", field 5 data_parts "float");
             ("heading_deg", field 6 data_parts "float");
             ("lat_deg", field 7 data_parts "float");
             ("lon_deg", field 8 data_parts "float") ]
    else None.

(** [part.split('=')[1]] when the part holds an [=]. *)
Definition after_equals (part : string) : string :=
  if contains "=" part then at_ 1 (split "=" part) else part.

Definition decode_rc_channels (timestamp : Z) (log_content : string)
  : option record :=
  if contains "rc1, rc2, rc3" log_content then None
  else
    let data_parts := fields_after_tag log_content in
    if (9 <=? List.length data_parts)%nat then
      let cleaned_parts := map after_equals (firstn 10 data_parts) in
      Some [ ("timestamp", VTime timestamp);
             ("rc1", field 0 cleaned_parts "int");
             ("rc2", field 1 cleaned_parts "int");
             ("rc3", field 2 cleaned_parts "int");
             ("rc4", field 3 cleaned_parts "int");
             ("rc5", field 4 cleaned_parts "int");
             ("rc6", field 5 cleaned_parts "int");
             ("rc7", field 6 cleaned_parts "int");
             ("rc8", field 7 cleaned_parts "int");
             ("rc9", field 8 cleaned_parts "int");
             ("rc10", field 9 cleaned_parts "int") ]
    else None.

Definition decode_resume_state (timestamp : Z) (log_content : string)
  : option record :=
  if contains "lat, lon, height" log_content then None
  else
    let data_parts := fields_after_tag log_content in
    if (6 <=? List.length data_parts)%nat then
      Some [ ("timestamp", VTime timestamp);
             ("lat", safe_clean_value (at_ 0 data_parts) "float");
             ("lon", safe_clean_value (at_ 1 data_parts) "float");
             ("height", safe_clean_value (at_ 2 data_parts) "float");
             ("yaw", safe_clean_value (at_ 3 data_parts) "float");
             ("wp", safe_clean_value (at_ 4 data_parts) "int");
             ("spray", safe_clean_value (at_ 5 data_parts) "int") ]
    else None.

Definition decode_serial_tcp_con (timestamp : Z) (log_content : string)
  : option record :=
  if contains "serial_recv_bytes" log_content
     || contains "Waiting for connection" log_content
     || contains "Connecting with tcp" log_content
  then None
  else
    let data_parts := fields_after_tag log_content in
    if (2 <=? List.length data_parts)%nat then
      Some [ ("timestamp", VTime timestamp);
             ("serial_recv_bytes", safe_clean_value (at_ 0 data_parts) "int");
             ("serial_send_bytes", safe_clean_value (at_ 1 data_parts) "int") ]
    else None.

(** The text after the first of [prefixes] that starts [log_content],
    stripped; the last prefix is the bare tag, which always matches. *)
Fixpoint message_after (prefixes : list string) (log_content : string) : string :=
  match prefixes with
  | [] => strip log_content
  | p :: ps =>
      if startswith p log_content
      then strip (drop (String.length p) log_content)
      else message_after ps log_content
  end.

Definition severity_map : list (Z * string) :=
  [ (0, "EMERGENCY"); (1, "ALERT"); (2, "CRITICAL"); (3, "ERROR");
    (4, "WARNING"); (5, "NOTICE"); (6, "INFO"); (7, "DEBUG"); (8, "NONE") ]%Z.

Fixpoint assocZ (k : Z) (l : list (Z * string)) : option string :=
  match l with
  | [] => None
  | (k', a) :: l' => if Z.eqb k k' then Some a else assocZ k l'
  end.

Definition decode_vehicle_command (timestamp : Z) (log_content : string)
  : option record :=
  if String.eqb (strip log_content) "VEHICLE_COMMAND"
     || String.eqb (strip log_content) "VEHICLE_COMMAND,"
  then None
  else
    let message :=
      message_after ["VEHICLE_COMMAND, "; "VEHICLE_COMMAND,"; "VEHICLE_COMMAND"]
        log_content in
    if is_empty message then None
    else
      let '(message_type, message) :=
        if startswith "Sent statustext: " message then
          let status_part := drop (String.length "Sent statustext: ") message in
          if contains ":" status_part then
            let severity_str := strip (at_ 0 (split ":" status_part)) in
            match PyNum.int_of_string severity_str with
            | Some severity_level =>
                let severity_name :=
                  match assocZ severity_level severity_map with
                  | Some n => n
                  | None => ("UNKNOWN_" ++ str_of_Z severity_level)%string
                  end in
                (("STATUS_TEXT_" ++ severity_name)%string,
                 match find ":" status_part with
                 | Some colon_index => strip (drop (colon_index + 1) status_part)
                 | None => message
                 end)
            | None => ("STATUS_TEXT_UNKNOWN", message)
            end
          else ("", message)
        else ("", message) in
      Some [ ("timestamp", VTime timestamp);
             ("message_type", VStr message_type);
             ("message", VStr message) ].

Definition decode_schedulertask (timestamp : Z) (log_content : string)
  : option record :=
  let data_parts := fields_after_tag log_content in
  if (3 <=? List.length data_parts)%nat then
    Some [ ("timestamp", VTime timestamp);
           ("task_name", VStr (strip (at_ 0 data_parts)));
           ("parameter", VStr (strip (at_ 1 data_parts)));
           ("task_id", safe_clean_value (at_ 2 data_parts) "int") ]
  else None.

(** The key/value categories: [log_content.split(',', 2)[1:]]. *)
Definition decode_key_value (timestamp : Z) (log_content : string)
  : option record :=
  let data_parts := fields_after_tag_n 2 log_content in
  if (2 <=? List.length data_parts)%nat then
    Some [ ("timestamp", VTime timestamp);
           ("key", VStr (strip (at_ 0 data_parts)));
           ("value", VStr (strip (at_ 1 data_parts))) ]
  else None.

Definition cc_error_patterns : list string :=
  [ "Created missing shelve key during startup race:";
    "Created missing TinyDB record during startup race:";
    "not found in memory or shelve DB";
    "not found in TinyDB memory or file" ].

Definition cc_is_error (log_content : string) : bool :=
  existsb (fun pattern => contains pattern log_content) cc_error_patterns.

Definition decode_ap_parameter_tiny (timestamp : Z) (log_content : string)
  : option record :=
  let data_parts := fields_after_tag log_content in
  if (2 <=? List.length data_parts)%nat then
    let '(key, value) :=
      if (3 <=? List.length data_parts)%nat
      then ((at_ 0 data_parts ++ "_" ++ at_ 1 data_parts)%string, at_ 2 data_parts)
      else (at_ 0 data_parts, at_ 1 data_parts) in
    Some [ ("timestamp", VTime timestamp);
           ("key", VStr (strip key));
           ("value", VStr (strip value)) ]
  else None.

Definition decode_ga_get_param (timestamp : Z) (log_content : string)
  : option record :=
  let data_parts := fields_after_tag_n 1 log_content in
  if (1 <=? List.length data_parts)%nat then
    Some [ ("timestamp", VTime timestamp);
           ("key", VStr (strip (at_ 0 data_parts)));
           ("value", VNone) ]
  else None.

Definition decode_mavlink_info (timestamp : Z) (log_content : string)
  : option record :=
  if contains "name, messages_count" log_content then None
  else
    let data_parts := fields_after_tag log_content in
    if (3 <=? List.length data_parts)%nat then
      Some [ ("timestamp", VTime timestamp);
             ("name", VStr (strip (at_ 0 data_parts)));
             ("messages_count", safe_clean_value (at_ 1 data_parts) "int");
             ("last_message", VStr (strip (at_ 2 data_parts)));
             ("status",
               if (3 <? List.length data_parts)%nat
               then VStr (strip (at_ 3 data_parts)) else VNone) ]
    else None.

End Decoders.

Module Decoders2.
Import PyStr Decoders.

(** [float(text)] and [int(text)] as values; [None] is [ValueError]. *)
Definition py_float (text : string) : option pyval :=
  x ← PyNum.float_of_string text; Some (VFloat x).

Definition py_int (text : string) : option pyval :=
  z ← PyNum.int_of_string text; Some (VInt z).

(** [d[key] = conv(m.group(1))] when the search [m] matched. *)
Definition set_if_found (key : string) (m : option string)
  (conv : string -> option pyval) (d : record) : option record :=
  match m with
  | Some g => v ← conv g; Some (dict_set key v d)
  | None => Some d
  end.

Definition decode_max_speed_esti (timestamp : Z) (log_content : string)
  : option record :=
  match Re.search_run "Calculated max speed " Re.digit_or_dot "" log_content with
  | Some g =>
      v ← py_float g;
      Some [ ("timestamp", VTime timestamp); ("max_speed", v) ]
  | None => None
  end.

Definition decode_mavlink_active_port (timestamp : Z) (log_content : string)
  : option record :=
  match Re.search_run "MAVLINK ACTIVE_MAVLINK_PORT is : " isdigit "" log_content with
  | Some g =>
      v ← py_int g;
      Some [ ("timestamp", VTime timestamp); ("active_port", v) ]
  | None => None
  end.

(** [[float(x.strip()) for x in xs]] *)
Fixpoint floats_of (xs : list string) : option (list pyval) :=
  match xs with
  | [] => Some []
  | x :: xs' => v ← py_float (strip x); vs ← floats_of xs'; Some (v :: vs)
  end.

(** The suffix of the temperature pattern: U+00C2, U+00B0 and [C]. *)
Definition degree_suffix : string :=
  String (ascii_of_nat 194) (String (ascii_of_nat 176) "C").

(** [parse_cpu_info(data_part)]; [None] is a [ValueError] of [float]. *)
Definition parse_cpu_info (data_part : string) : option record :=
  r ← set_if_found "cpu_usage_percent"
        (Re.search_run "CPU usage: " Re.digit_or_dot "%" data_part) py_float [];
  r ← set_if_found "ram_usage_mb"
        (Re.search_run "RAM usage: " isdigit " MB" data_part) py_int r;
  r ← match Re.search_run "Load : (" Re.load_chr ")" data_part with
      | Some g =>
          loads ← floats_of (split "," g);
          Some (dict_set "load_avg_15min" (nth 2 loads VNone)
                 (dict_set "load_avg_5min" (nth 1 loads VNone)
                   (dict_set "load_avg_1min" (nth 0 loads VNone) r)))
      | None => Some r
      end;
  match Re.search_run "Temp: " Re.digit_or_dot degree_suffix data_part with
  | Some g => v ← py_float g; Some (dict_set "temp_celsius" v r)
  | None => Some (dict_set "temp_celsius" VNone r)
  end.

Definition decode_cpu (timestamp : Z) (log_content : string) : option record :=
  cpu_data ← parse_cpu_info log_content;
  match cpu_data with
  | [] => None
  | _ => Some (dict_update [("timestamp", VTime timestamp)] cpu_data)
  end.

(** [text.split(':')[1].strip() if ':' in text else text] *)
Definition after_colon (text : string) : string :=
  if contains ":" text then strip (at_ 1 (split ":" text)) else text.

Definition version_record (timestamp : Z) (component version component_type
  raw_data : string) : record :=
  [ ("timestamp", VTime timestamp);
    ("component", VStr component);
    ("version", VStr version);
    ("component_type", VStr component_type);
    ("raw_data", VStr raw_data) ].

Definition decode_version (timestamp : Z) (log_content : string) : option record :=
  let version_data := strip (drop 8 log_content) in
  if startswith "v" version_data
     && (List.length (split_ws version_data) =? 1)%nat
  then Some (version_record timestamp "CC" version_data "Companion Computer"
               log_content)
  else if contains "AP/FCS version" version_data then
    let version_str :=
      match Re.search_run "GA ArduCopter V" (Re.not_chr "(") "" version_data with
      | Some g => strip g
      | None => after_colon version_data
      end in
    Some (version_record timestamp "AP/FCS" version_str "Flight Controller"
            log_content)
  else if contains "GCS App version" version_data then
    Some (version_record timestamp "GCS App" (after_colon version_data)
            "Ground Station" log_content)
  else
    Some (version_record timestamp "Unknown" version_data "unknown" log_content).

Definition decode_sna_version (timestamp : Z) (log_content : string)
  : option record :=
  match Re.search_run "SnA version: " isword "" log_content with
  | Some g => Some (version_record timestamp "SnA" g "Sense & Avoid" log_content)
  | None => None
  end.

Definition decode_sna_receiving_data (timestamp : Z) (log_content : string)
  : option record :=
  let data_part := strip (drop (String.length "SnA:Receiving data,") log_content) in
  let data_parts := map strip (split "," data_part) in
  if (9 <=? List.length data_parts)%nat then
    Some [ ("timestamp", VTime timestamp);
           ("data_val1", safe_clean_value (at_ 0 data_parts) "float");
           ("data_val2", safe_clean_value (at_ 1 data_parts) "float");
           ("data_val3", safe_clean_value (at_ 2 data_parts) "float");
           ("data_val4", safe_clean_value (at_ 3 data_parts) "float");
           ("data_val5", safe_clean_value (at_ 4 data_parts) "float");
           ("data_val6", safe_clean_value (at_ 5 data_parts) "float");
           ("data_val7", safe_clean_value (at_ 6 data_parts) "float");
           ("data_val8", safe_clean_value (at_ 7 data_parts) "int");
           ("data_val9", safe_clean_value (at_ 8 data_parts) "int") ]
  else None.

Definition sna_info_category (message : string) : string :=
  if startswith "BOUNDARY_DATA" message then "BOUNDARY DATA"
  else if startswith "BOUNDARY_ITEM_INT" message then "BOUNDARY ITEM"
  else if startswith "BOUNDARY_COUNT" message then "BOUNDARY COUNT"
  else if contains "Grid obstacle details:" message then "GRID OBSTACLE"
  else if contains "Real time obstacle details:" message then "REAL-TIME OBSTACLE"
  else if existsb (fun keyword => contains keyword message)
            [ "Guided GOTO_LAT_LON_CHANGED:"; "Guided ALT_CHANGED:";
              "Ignoring radar data marker"; "Checking obstacle in";
              "Ignore and Ignoring radar data markers" ]
       then "GUIDED/NAVIGATION INFO"
  else if contains "Grid data updated with" message
          && contains "data's in logs/sna/" message
       then "GRID UPDATE"
  else "".

Definition decode_sna_info (timestamp : Z) (log_content : string)
  : option record :=
  if String.eqb (strip log_content) "SnAInfo"
     || String.eqb (strip log_content) "SnAInfo,"
  then None
  else
    let message :=
      message_after ["SnAInfo, "; "SnAInfo: "; "SnAInfo : "; "SnAInfo,"; "SnAInfo"]
        log_content in
    if is_empty message then None
    else Some [ ("timestamp", VTime timestamp);
                ("category", VStr (sna_info_category message));
                ("message", VStr message) ].

(** The first entry of a pattern table whose pattern occurs in [text]. *)
Fixpoint first_pattern (table : list (string * string)) (text : string)
  : option (string * string) :=
  match table with
  | [] => None
  | (pattern, key) :: table' =>
      if contains pattern text then Some (pattern, key)
      else first_pattern table' text
  end.

Definition known_messages : list (string * string) :=
  [ ("START MISSION RECEIVED", "START_MISSION_RECEIVED");
    ("RTL COMMAND RECEIVED", "RTL_COMMAND_RECEIVED");
    ("RESUME COMMAND RECEIVED", "RESUME_COMMAND_RECEIVED");
    ("GOTO COMMAND RECEIVED", "GOTO_COMMAND_RECEIVED");
    ("STOPPING GUIDED CONTROLLER", "STOPPING_CONTROLLER");
    ("RESTART FROM SNA", "RESTART_FROM_SNA");
    ("Mode changed to guided", "MODE_CHANGE_GUIDED");
    (" Mode changed to guided", "MODE_CHANGE_GUIDED");
    ("guided take_off", "TAKEOFF");
    ("taking done", "TAKEOFF_COMPLETE");
    ("Turning Yaw", "SET_YAW");
    ("Checking HDNG", "CHECK_HEADING");
    ("Checking Yaw", "CHECK_YAW");
    ("No obstacle in front", "NO_OBSTACLE");
    ("following guided path.", "FOLLOWING_PATH");
    ("Smart_Path updated", "PATH_UPDATED");
    ("Resume Triggered, Guided Mode.", "RESUME_TRIGGERED");
    ("RTL Mode, Guided Mode", "RTL_TRIGGERED");
    ("Starting spray", "START_SPRAY");
    ("change_mode_to_auto", "MODE_CHANGE_AUTO");
    ("Resetting smart path index and sending resume waypoint message",
      "RESET_PATH_INDEX");
    ("starting scheduler_update_mission task.", "START_SCHEDULER") ].

Definition or_text (m : option string) (text : string) : string :=
  match m with Some g => g | None => text end.

(** The structured patterns of a GUIDED_MISSION message: state key and
    description. *)
Definition guided_structured (guided_data : string) : option (string * string) :=
  if startswith "home_point :" guided_data then
    Some ("HOME_POINT", or_text (Re.search_bracket guided_data) guided_data)
  else if startswith "GOTO_TEST," guided_data then
    Some ("GOTO_TEST", strip (drop (String.length "GOTO_TEST,") guided_data))
  else if contains "new_path_updated :" guided_data then
    Some ("NEW_PATH_UPDATED", after_colon guided_data)
  else if contains "Going to waypoint" guided_data then
    Some ("GOTO_WAYPOINT", guided_data)
  else if contains "Next waypoint set to:" guided_data then
    Some ("NEXT_WAYPOINT_SET",
          if contains ":" guided_data
          then strip (at_ 1 (splitn ":" 1 guided_data)) else guided_data)
  else if contains "increased smart_path_index + 1 :" guided_data then
    Some ("INCREMENT_PATH_INDEX",
          or_text (Re.search_run ": " isdigit "" guided_data) guided_data)
  else if contains "time taken for calculation :" guided_data then
    Some ("CALCULATION_TIME",
          or_text (Re.search_run ": " isdigit "" guided_data) guided_data)
  else if contains "Yaw is not within tolerance" guided_data then
    Some ("YAW_TOLERANCE_FAILED",
          or_text (Re.search_run "yaw_diff=" Re.digit_or_dot "" guided_data)
            guided_data)
  else if contains "State change failed" guided_data then
    Some ("STATE_CHANGE_FAILED",
          or_text (Re.search_run "time elapsed " isdigit "" guided_data)
            guided_data)
  else None.

Definition decode_guided (timestamp : Z) (log_content : string) : option record :=
  let '(message_type, guided_data) :=
    if startswith "GUIDED_MISSION," log_content
    then ("GUIDED_MISSION",
          strip (drop (String.length "GUIDED_MISSION,") log_content))
    else ("GUIDED_INFO",
          strip (drop (String.length "GUIDED_INFO,") log_content)) in
  let '(state_key, description) :=
    if String.eqb message_type "GUIDED_INFO" then
      if contains ", " guided_data then
        let parts := splitn ", " 1 guided_data in
        let flight_mode := strip (at_ 0 parts) in
        let state_key := strip (at_ 1 parts) in
        (state_key, (flight_mode ++ ", " ++ state_key)%string)
      else (guided_data, guided_data)
    else
      match assoc guided_data known_messages with
      | Some key => (key, guided_data)
      | None =>
          match first_pattern known_messages guided_data with
          | Some (_, key) => (key, guided_data)
          | None =>
              match guided_structured guided_data with
              | Some kd => kd
              | None => ("", guided_data)
              end
          end
      end in
  Some [ ("timestamp", VTime timestamp);
         ("message_type", VStr message_type);
         ("state_key", VStr state_key);
         ("description", VStr description) ].

End Decoders2.

Module Decoders3.
Import PyStr Decoders Decoders2.

Definition known_resume_patterns : list (string * string) :=
  [ ("setting resume height", "SET_RESUME_HEIGHT");
    ("Resume mission aborted", "MISSION_ABORTED");
    ("TAKEOFF, taking off", "TAKEOFF_OPERATION");
    ("taking done", "TAKEOFF_COMPLETE");
    ("climb_to_clearance_alt", "CLIMB_CLEARANCE");
    ("change_mode_to_guided", "MODE_CHANGE_GUIDED");
    ("change_mode_to_auto", "MODE_CHANGE_AUTO");
    ("Turning Yaw", "TURNING_YAW");
    ("Checking Yaw", "CHECKING_YAW");
    ("Setting YAW", "SETTING_YAW");
    ("No obstacle in front", "NO_OBSTACLE");
    ("Starting spray", "START_SPRAY");
    ("goto_rtl_loc", "GOTO_RTL_LOCATION");
    ("descent_msn_alt", "DESCENT_MISSION_ALT");
    ("flight_mode, resume_state", "INFO_HEADER") ].

Definition resume_states : list string :=
  [ "NONE"; "INITIATE"; "MODE_CHANGE_GUIDED"; "TAKE_OFF"; "CLIMB_CLR_ALT";
    "SET_HDNG"; "CHECK_HDNG"; "OBST_IN_FRONT"; "GOTO_RTL_LOC";
    "DESCENT_MSN_ALT"; "START_SPRAY"; "SET_NEXT_WP"; "MODE_CHANGE_AUTO";
    "ABORT"; "OBST_DETECTED"; "RTL"; "STOP_YAW"; "AUTO_OBS_INFRONT";
    "START_AUTO" ].

(** The message type and the text after the tag of a RESUME line. *)
Definition resume_split (log_content : string) : string * string :=
  if startswith "RESUME_MISSION_STATUS," log_content
  then ("RESUME_MISSION_STATUS",
        strip (drop (String.length "RESUME_MISSION_STATUS,") log_content))
  else if startswith "RESUME_INFO," log_content
  then ("RESUME_INFO", strip (drop (String.length "RESUME_INFO,") log_content))
  else ("RESUME", strip (drop (String.length "RESUME,") log_content)).

Definition decode_resume (timestamp : Z) (log_content : string) : record :=
  let '(message_type, resume_data) := resume_split log_content in
  let '(state_key, description) :=
    match first_pattern known_resume_patterns resume_data with
    | Some (pattern, key) =>
        if String.eqb pattern "setting resume height"
        then (key, or_text (Re.search_run ": " Re.digit_or_dot "" resume_data)
                     resume_data)
        else (key, resume_data)
    | None =>
        match List.find (fun state => contains state (upper resume_data))
                resume_states with
        | Some state => (("STATE_" ++ state)%string, resume_data)
        | None => ("UNKNOWN_MESSAGE", resume_data)
        end
    end in
  [ ("timestamp", VTime timestamp);
    ("message_type", VStr message_type);
    ("state_key", VStr state_key);
    ("description", VStr description) ].

(** [time_taken = float(m.group(1))] for [([\d.]+)ms], else [None]. *)
Definition time_taken_ms (remaining : string) : option pyval :=
  match Re.search_run "" Re.digit_or_dot "ms" remaining with
  | Some g => py_float g
  | None => Some VNone
  end.

(** [parts[i]]; [None] is [IndexError]. *)
Definition part (i : nat) (parts : list string) : option pyval :=
  s ← nth_error parts i; Some (VStr s).

Definition decode_cc_parameter_perf (timestamp : Z) (log_content : string)
  : option record :=
  let perf_data := strip (drop (String.length "CC_PARAMETER_PERF:") log_content) in
  match Re.match_thread perf_data with
  | None => None
  | Some (g1, g2) =>
      thread_id ← py_int g1;
      let remaining := strip g2 in
      let parts := split_ws remaining in
      '(param_name, value, state, time_taken) ←
        (if contains "NOT_FOUND" remaining then
           p ← part 0 parts; t ← time_taken_ms remaining;
           Some (p, VNone, VStr "NOT_FOUND", t)
         else if contains "NO_CHANGE" remaining then
           p ← part 0 parts;
           let before_no_change :=
             split_ws (strip (take (default O (find "NO_CHANGE" remaining))
                                remaining)) in
           let value :=
             if (2 <=? List.length before_no_change)%nat
             then VStr (at_ 1 before_no_change) else VNone in
           t ← time_taken_ms remaining;
           Some (p, value, VStr "NO_CHANGE", t)
         else if contains "OUT_OF_RANGE" remaining then
           p ← part 0 parts; v ← part 1 parts;
           let state :=
             match Re.search_run "OUT_OF_RANGE(" (Re.not_chr ")") ")" remaining with
             | Some g => VStr ("OUT_OF_RANGE(" ++ g ++ ")")%string
             | None => VNone
             end in
           t ← time_taken_ms remaining;
           Some (p, v, state, t)
         else if contains "SUCCESS" remaining then
           p ← part 0 parts; v ← part 1 parts; t ← time_taken_ms remaining;
           Some (p, v, VStr "SUCCESS", t)
         else if contains "FAILED" remaining then
           p ← part 0 parts; v ← part 1 parts; t ← time_taken_ms remaining;
           Some (p, v, VStr "FAILED", t)
         else Some (VNone, VNone, VNone, VNone));
      Some [ ("timestamp", VTime timestamp);
             ("thread_id", thread_id);
             ("param_name", param_name);
             ("value", value);
             ("state", state);
             ("time_taken_ms", time_taken) ]
  end.

Definition decode_cc_parameter_db_perf (timestamp : Z) (log_content : string)
  : option record :=
  let db_perf_data :=
    strip (drop (String.length "CC_PARAMETER_DB_PERF:") log_content) in
  match Re.match_thread db_perf_data with
  | None => None
  | Some (g1, g2) =>
      thread_id ← py_int g1;
      let remaining := strip g2 in
      let '(state, description) :=
        if startswith "NO_CHANGE" remaining then
          (VStr "NO_CHANGE", strip (drop (String.length "NO_CHANGE") remaining))
        else if contains "SUCCESS" remaining then
          match rfind "SUCCESS" remaining with
          | Some success_idx => (VStr "SUCCESS", strip (take success_idx remaining))
          | None => (VNone, remaining)
          end
        else if startswith "ERROR" remaining || contains "ERROR in" remaining then
          (VStr "ERROR",
           if startswith "ERROR" remaining
           then strip (drop (String.length "ERROR") remaining) else remaining)
        else (VNone, remaining) in
      Some [ ("timestamp", VTime timestamp);
             ("thread_id", thread_id);
             ("state", state);
             ("description", VStr description) ]
  end.

(** *** SnALogging *)

Definition field_names : list string :=
  [ "flight_mode"; "guided_mission_state"; "guided_controller_type";
    "obstacle_x"; "obstacle_y"; "obstacle_x_rot"; "obstacle_y_rot";
    "obstacle_sector"; "roll"; "pitch"; "yaw"; "px"; "py"; "pz";
    "vx"; "vy"; "speed"; "speed_rate"; "terrain_alt"; "mission_height";
    "target_altitude"; "clearance_altitude"; "course_over_ground";
    "course_over_ground_wVelocity"; "COG_heading_angle_diff";
    "stopping_distance"; "critical_stopping_distance"; "heading_available";
    "horizontal_movement"; "ignore_radar_data_near_waypoint";
    "ignoring_radar_data_near_waypoint"; "ignore_radar_data_till";
    "braked_in_sna"; "avoidance_state"; "edge_avoidance_state";
    "false_trigger_restart_state"; "obstacle_msg_delay_ms";
    "radar_delay"; "grid_update_loop_time"; "loop_time"; "obstacle_buffer" ].

Definition multi_value_fields_data : list (string * nat) :=
  [ ("obstacle_sector", 6%nat); ("obstacle_buffer", 2%nat) ].

Definition array_fields : list string :=
  [ "obstacle_x"; "obstacle_y"; "obstacle_x_rot"; "obstacle_y_rot" ].

Definition boolean_fields : list string :=
  [ "heading_available"; "horizontal_movement";
    "ignore_radar_data_near_waypoint"; "ignoring_radar_data_near_waypoint";
    "braked_in_sna" ].

Definition numeric_string_fields : list string :=
  [ "guided_mission_state"; "guided_controller_type"; "avoidance_state";
    "edge_avoidance_state"; "false_trigger_restart_state" ].

Definition mem (s : string) (l : list string) : bool :=
  existsb (String.eqb s) l.

(** [f"{field_name}{j}"] *)
Definition column (field_name : string) (j : nat) : string :=
  (field_name ++ str_of_Z (Z.of_nat j))%string.

(** [for j in range(1, n + 1): record[f"{field_name}{j}"] = values[j-1]
    if j <= len(values) else None] *)
Definition expand (field_name : string) (n : nat) (values : list pyval)
  (r : record) : record :=
  fold_left
    (fun acc j => dict_set (column field_name j) (nth (j - 1) values VNone) acc)
    (seq 1 n) r.

(** The numeric-but-textual role: a whole float becomes an [int]. *)
Definition numeric_string (value : string) : pyval :=
  match PyNum.float_of_string value with
  | Some x =>
      if PyNum.is_integer x
      then match PyNum.int_of_float x with
           | Some z => VInt z
           | None => VFloat x
           end
      else VFloat x
  | None => VStr value
  end.

(** One turn of the loop over [field_names]; [present] is [pipe_parts[i]]
    when [i < len(pipe_parts)]. *)
Definition sna_field (r : record) (field_name : string) (present : option string)
  : record :=
  let absent :=
    match assoc field_name multi_value_fields_data with
    | Some n => expand field_name n [] r
    | None =>
        if mem field_name array_fields
        then dict_set field_name (VList []) r
        else dict_set field_name VNone r
    end in
  match present with
  | None => absent
  | Some raw =>
      let value := if is_empty raw then "" else strip raw in
      if is_empty value || String.eqb (upper value) "NONE" then absent
      else if mem field_name array_fields then
        dict_set field_name (VList (parse_list_values value)) r
      else
        match assoc field_name multi_value_fields_data with
        | Some n => expand field_name n (parse_list_values value) r
        | None =>
            if mem field_name boolean_fields then
              dict_set field_name (convert_boolean_to_numeric value) r
            else if mem field_name numeric_string_fields then
              dict_set field_name (numeric_string value) r
            else if String.eqb field_name "flight_mode" then
              dict_set field_name (VStr value) r
            else dict_set field_name (safe_clean_value value "auto") r
        end
  end.

(** The loop [for i, field_name in enumerate(field_names)], from index [i]. *)
Fixpoint sna_fields (names : list string) (i : nat) (pipe_parts : list string)
  (r : record) : record :=
  match names with
  | [] => r
  | field_name :: names' =>
      sna_fields names' (S i) pipe_parts
        (sna_field r field_name (nth_error pipe_parts i))
  end.

Definition sna_pipe_parts (log_content : string) : list string :=
  map strip (split "|" (strip (drop (String.length "SnALogging,") log_content))).

Definition decode_sna_logging (timestamp : Z) (log_content : string)
  : option record :=
  if contains "flight_mode |" log_content then None
  else
    let pipe_parts := sna_pipe_parts log_content in
    if (10 <=? List.length pipe_parts)%nat
    then Some (sna_fields field_names 0 pipe_parts [("timestamp", VTime timestamp)])
    else None.

Definition decode_mission_state_changed (timestamp : Z) (log_content : string)
  : option record :=
  let state_value :=
    strip (drop (String.length "MISSION_STATE_CHANGED,") log_content) in
  Some [ ("timestamp", VTime timestamp);
         ("value", safe_clean_value state_value "int") ].

Definition decode_spray_info (timestamp : Z) (log_content : string)
  : option record :=
  if contains "spray_status, pump_pwm" log_content then None
  else
    let data_parts := fields_after_tag log_content in
    if (12 <=? List.length data_parts)%nat then
      Some [ ("timestamp", VTime timestamp);
             ("spray_status", safe_clean_value (at_ 0 data_parts) "int");
             ("pump_pwm", safe_clean_value (at_ 1 data_parts) "int");
             ("nozzle_pwm", safe_clean_value (at_ 2 data_parts) "int");
             ("req_flowrate_lpm", safe_clean_value (at_ 3 data_parts) "float");
             ("actual_flowrate_lpm", safe_clean_value (at_ 4 data_parts) "float");
             ("flowmeter_pulse", safe_clean_value (at_ 5 data_parts) "int");
             ("payload_rem_l", safe_clean_value (at_ 6 data_parts) "float");
             ("area_sprayed_acre", safe_clean_value (at_ 7 data_parts) "float");
             ("req_dosage_l_acre", safe_clean_value (at_ 8 data_parts) "float");
             ("actual_dosage_l_acre", safe_clean_value (at_ 9 data_parts) "float");
             ("prv_wp", safe_clean_value (at_ 10 data_parts) "int");
             ("next_wp", safe_clean_value (at_ 11 data_parts) "int") ]
    else None.

Definition decode_flowmeter (timestamp : Z) (log_content : string)
  : option record :=
  if contains "Flowrate(l/m), Signal_Count" log_content then None
  else
    let data_parts := fields_after_tag log_content in
    if (2 <=? List.length data_parts)%nat then
      Some [ ("timestamp", VTime timestamp);
             ("flowrate_lpm", safe_clean_value (at_ 0 data_parts) "float");
             ("signal_count", safe_clean_value (at_ 1 data_parts) "int") ]
    else None.

(** [' '.join(log_content.split(',')[1:]).strip()] *)
Definition joined_info (log_content : string) : string :=
  strip (join " " (tl (split "," log_content))).

Definition decode_flowmeter_info (timestamp : Z) (log_content : string)
  : option record :=
  Some [ ("timestamp", VTime timestamp);
         ("flow_sensor_info", VStr (joined_info log_content)) ].

Definition decode_pump (timestamp : Z) (log_content : string) : option record :=
  Some [ ("timestamp", VTime timestamp);
         ("pump_info", VStr (joined_info log_content)) ].

Definition decode_nozzle (timestamp : Z) (log_content : string) : option record :=
  let nozzle_state := strip (drop (String.length "NOZZLE,") log_content) in
  let numeric_value :=
    if String.eqb nozzle_state "Stopped" then VInt 0
    else if String.eqb nozzle_state "Stop triggered"
    then VFloat (PyNum.float_of_decimal false 5 (-1))
    else if String.eqb nozzle_state "Start" then VInt 1
    else VNone in
  Some [ ("timestamp", VTime timestamp);
         ("value", numeric_value);
         ("raw_value", VStr nozzle_state) ].

Definition decode_boundary_intr (timestamp : Z) (log_content : string)
  : option record :=
  if String.eqb (strip log_content) "BOUNDARY_INTR"
     || String.eqb (strip log_content) "BOUNDARY_INTR,"
  then None
  else
    let message :=
      message_after ["BOUNDARY_INTR, "; "BOUNDARY_INTR,"; "BOUNDARY_INTR"]
        log_content in
    if is_empty message then None
    else Some [ ("timestamp", VTime timestamp); ("message", VStr message) ].

End Decoders3.

(** ** The scan of [parse_log_file] *)

Import Decoders Decoders2 Decoders3.

(** [any(level in part.strip() for level in ['INFO', 'WARNING', 'CRITICAL'])] *)
Definition has_level (part : string) : bool :=
  existsb (fun level => PyStr.contains level (PyStr.strip part))
    ["INFO"; "WARNING"; "CRITICAL"].

(** The inner loop over [['WARNING', 'CRITICAL', 'INFO']], which stops at the
    first level the part contains. *)
Definition level_of (part : string) : option string :=
  List.find (fun level => PyStr.contains level (PyStr.strip part))
    ["WARNING"; "CRITICAL"; "INFO"].

(** The loop over [comma_parts]: at the first part that holds a level, the
    severity and the stripped text of the parts after it. *)
Fixpoint find_severity (comma_parts : list string)
  : option (option string * string) :=
  match comma_parts with
  | [] => None
  | part :: rest =>
      if has_level part
      then Some (level_of part,
                 match rest with
                 | [] => ""
                 | _ => PyStr.strip (PyStr.join "," rest)
                 end)
      else find_severity rest
  end.

(** What the head of the loop body makes of a line before the [try]. *)
Inductive segmented : Type :=
| Skipped
| Overflowed
| Decodable (timestamp : Z) (severity_level : option string) (log_content : string).

Definition segment (now offset : Z) (line : string) : segmented :=
  let line := PyStr.strip line in
  if PyStr.is_empty line then Skipped
  else
    match Re.match_timestamp line with
    | None => Skipped
    | Some (ts_str, after) =>
        match parse_timestamp now ts_str offset with
        | None => Overflowed
        | Some timestamp =>
            let rest_of_line := PyStr.strip after in
            let comma_parts := PyStr.split "," rest_of_line in
            match find_severity comma_parts with
            | None => Skipped
            | Some (severity_level, log_content) =>
                if PyStr.is_empty log_content then Skipped
                else Decodable timestamp severity_level log_content
            end
        end
    end.

(** The branches of the [if]/[elif] chain, in the order of the source. *)
Inductive branch : Type :=
| B_MISSION_INFO | B_RC_CHANNELS | B_RESUME_STATE | B_SERIAL_TCP_CON
| B_VEHICLE_COMMAND | B_SCHEDULERTASK | B_CC_PARAMETER | B_CC_PARAMETER_SHELVE
| B_CC_PARAMETER_TINY | B_AP_PARAMETER | B_AP_PARAMETER_TINY | B_GA_SET_PARAM
| B_GA_GET_PARAM | B_GA_PARAM | B_MAVLINK_INFO | B_MAX_SPEED_ESTI
| B_MAVLINK_ACTIVE_PORT | B_CPU | B_VERSION | B_SNA_VERSION
| B_SNA_RECEIVING_DATA | B_SNA_INFO | B_GUIDED | B_RESUME
| B_CC_PARAMETER_PERF | B_CC_PARAMETER_DB_PERF | B_SNA_LOGGING
| B_MISSION_STATE_CHANGED | B_SPRAY_INFO | B_FLOWMETER | B_FLOWMETER_INFO
| B_PUMP | B_NOZZLE | B_BOUNDARY_INTR | B_OTHER.

Definition select_branch (log_content : string) : branch :=
  let starts p := PyStr.startswith p log_content in
  let has p := PyStr.contains p log_content in
  if starts "MISSION_INFO" then B_MISSION_INFO
  else if starts "RC_CHANNELS" then B_RC_CHANNELS
  else if starts "RESUME_STATE" then B_RESUME_STATE
  else if starts "SERIAL_TCP_CON" then B_SERIAL_TCP_CON
  else if starts "VEHICLE_COMMAND" then B_VEHICLE_COMMAND
  else if starts "SCHEDULERTASK," then B_SCHEDULERTASK
  else if starts "CC_PARAMETER," then B_CC_PARAMETER
  else if starts "CC_PARAMETER_SHELVE," then B_CC_PARAMETER_SHELVE
  else if starts "CC_PARAMETER_TINY," then B_CC_PARAMETER_TINY
  else if starts "AP_PARAMETER," then B_AP_PARAMETER
  else if starts "AP_PARAMETER_TINY," then B_AP_PARAMETER_TINY
  else if starts "GA_SET_PARAM," then B_GA_SET_PARAM
  else if starts "GA_GET_PARAM," then B_GA_GET_PARAM
  else if starts "GA_PARAM," then B_GA_PARAM
  else if starts "MAVLINK_INFO" then B_MAVLINK_INFO
  else if has "MAX_SPEED_ESTI" && has "Calculated max speed" then B_MAX_SPEED_ESTI
  else if has "MAVLINK ACTIVE_MAVLINK_PORT is :" then B_MAVLINK_ACTIVE_PORT
  else if starts "CPU," then B_CPU
  else if starts "VERSION," then B_VERSION
  else if starts "SnAInfo," && has "SnA version:" then B_SNA_VERSION
  else if starts "SnA:Receiving data," then B_SNA_RECEIVING_DATA
  else if starts "SnAInfo" then B_SNA_INFO
  else if starts "GUIDED_MISSION," || starts "GUIDED_INFO," then B_GUIDED
  else if starts "RESUME_MISSION_STATUS," || starts "RESUME_INFO,"
          || starts "RESUME," then B_RESUME
  else if starts "CC_PARAMETER_PERF:" then B_CC_PARAMETER_PERF
  else if starts "CC_PARAMETER_DB_PERF:" then B_CC_PARAMETER_DB_PERF
  else if starts "SnALogging," then B_SNA_LOGGING
  else if starts "MISSION_STATE_CHANGED," then B_MISSION_STATE_CHANGED
  else if starts "SPRAY_INFO" then B_SPRAY_INFO
  else if starts "FlOWMETER," || starts "FLOWMETER," then B_FLOWMETER
  else if starts "FLOWMETER_INFO," then B_FLOWMETER_INFO
  else if starts "PUMP," then B_PUMP
  else if starts "NOZZLE," then B_NOZZLE
  else if starts "BOUNDARY_INTR" then B_BOUNDARY_INTR
  else B_OTHER.

(** [log_data[category].append(record)] when the decoder made a record. *)
Definition emit (category : string) (r : option record)
  (log_data : gmap string (list record)) : gmap string (list record) :=
  match r with
  | Some r => append_record category r log_data
  | None => log_data
  end.

(** [if not added_to_error: append_to_error_log(timestamp, content)] *)
Definition flag_error (added_to_error : bool) (timestamp : Z) (content : string)
  (log_data : gmap string (list record)) : gmap string (list record) :=
  if added_to_error then log_data
  else append_to_error_log timestamp content log_data.

(** The [try] block: the branch taken and what it does to [log_data]. *)
Definition run_branch (b : branch) (timestamp : Z) (log_content : string)
  (added_to_error : bool) (log_data : gmap string (list record))
  : gmap string (list record) :=
  match b with
  | B_MISSION_INFO =>
      emit "MISSION_INFO" (decode_mission_info timestamp log_content) log_data
  | B_RC_CHANNELS =>
      emit "RC_CHANNELS" (decode_rc_channels timestamp log_content) log_data
  | B_RESUME_STATE =>
      emit "RESUME_STATE" (decode_resume_state timestamp log_content) log_data
  | B_SERIAL_TCP_CON =>
      emit "SERIAL_TCP_CON" (decode_serial_tcp_con timestamp log_content) log_data
  | B_VEHICLE_COMMAND =>
      emit "VEHICLE_COMMAND" (decode_vehicle_command timestamp log_content) log_data
  | B_SCHEDULERTASK =>
      emit "SCHEDULERTASK" (decode_schedulertask timestamp log_content) log_data
  | B_CC_PARAMETER =>
      let is_error := cc_is_error log_content in
      let log_data :=
        if is_error
        then flag_error added_to_error timestamp log_content log_data
        else log_data in
      if is_error then log_data
      else emit "CC_PARAMETER" (decode_key_value timestamp log_content) log_data
  | B_CC_PARAMETER_SHELVE =>
      emit "CC_PARAMETER_SHELVE" (decode_key_value timestamp log_content) log_data
  | B_CC_PARAMETER_TINY =>
      emit "CC_PARAMETER_TINY" (decode_key_value timestamp log_content) log_data
  | B_AP_PARAMETER =>
      emit "AP_PARAMETER" (decode_key_value timestamp log_content) log_data
  | B_AP_PARAMETER_TINY =>
      emit "AP_PARAMETER_TINY" (decode_ap_parameter_tiny timestamp log_content)
        log_data
  | B_GA_SET_PARAM =>
      emit "GA_SET_PARAM" (decode_key_value timestamp log_content) log_data
  | B_GA_GET_PARAM =>
      emit "GA_GET_PARAM" (decode_ga_get_param timestamp log_content) log_data
  | B_GA_PARAM =>
      emit "GA_PARAM" (decode_key_value timestamp log_content) log_data
  | B_MAVLINK_INFO =>
      emit "MAVLINK_INFO" (decode_mavlink_info timestamp log_content) log_data
  | B_MAX_SPEED_ESTI =>
      emit "MAX_SPEED_ESTI" (decode_max_speed_esti timestamp log_content) log_data
  | B_MAVLINK_ACTIVE_PORT =>
      emit "MAVLINK_ACTIVE_PORT" (decode_mavlink_active_port timestamp log_content)
        log_data
  | B_CPU => emit "CPU" (decode_cpu timestamp log_content) log_data
  | B_VERSION => emit "VERSION" (decode_version timestamp log_content) log_data
  | B_SNA_VERSION =>
      emit "VERSION" (decode_sna_version timestamp log_content) log_data
  | B_SNA_RECEIVING_DATA =>
      emit "SnA_RECEIVING_DATA" (decode_sna_receiving_data timestamp log_content)
        log_data
  | B_SNA_INFO => emit "SnA_INFO" (decode_sna_info timestamp log_content) log_data
  | B_GUIDED => emit "GUIDED_MISSION" (decode_guided timestamp log_content) log_data
  | B_RESUME =>
      let resume_data := snd (resume_split log_content) in
      let log_data :=
        append_record "RESUME_MISSION" (decode_resume timestamp log_content)
          log_data in
      if PyStr.contains "aborted" (PyStr.lower resume_data)
         || PyStr.contains "failed" (PyStr.lower resume_data)
      then flag_error added_to_error timestamp
             ("RESUME ERROR: " ++ resume_data)%string log_data
      else log_data
  | B_CC_PARAMETER_PERF =>
      emit "CC_PARAMETER_PERF" (decode_cc_parameter_perf timestamp log_content)
        log_data
  | B_CC_PARAMETER_DB_PERF =>
      emit "CC_PARAMETER_DB_PERF"
        (decode_cc_parameter_db_perf timestamp log_content) log_data
  | B_SNA_LOGGING =>
      emit "SnA_LOGGING" (decode_sna_logging timestamp log_content) log_data
  | B_MISSION_STATE_CHANGED =>
      emit "MISSION_STATE_CHANGED"
        (decode_mission_state_changed timestamp log_content) log_data
  | B_SPRAY_INFO =>
      emit "SPRAY_INFO" (decode_spray_info timestamp log_content) log_data
  | B_FLOWMETER =>
      emit "FLOWMETER" (decode_flowmeter timestamp log_content) log_data
  | B_FLOWMETER_INFO =>
      emit "FLOWMETER_INFO" (decode_flowmeter_info timestamp log_content) log_data
  | B_PUMP => emit "PUMP" (decode_pump timestamp log_content) log_data
  | B_NOZZLE => emit "NOZZLE" (decode_nozzle timestamp log_content) log_data
  | B_BOUNDARY_INTR =>
      emit "BOUNDARY_INTR" (decode_boundary_intr timestamp log_content) log_data
  | B_OTHER =>
      let log_data :=
        append_record "OTHER"
          [ ("timestamp", VTime timestamp); ("log_content", VStr log_content) ]
          log_data in
      if is_error_message log_content
      then flag_error added_to_error timestamp log_content log_data
      else log_data
  end.

Definition is_alarm (severity_level : option string) : bool :=
  match severity_level with
  | Some level => String.eqb level "WARNING" || String.eqb level "CRITICAL"
  | None => false
  end.

(** The body of the loop from the severity test on, for a decodable line. *)
Definition decode_line (timestamp : Z) (severity_level : option string)
  (log_content : string) (log_data : gmap string (list record))
  : gmap string (list record) :=
  let added_to_error := is_alarm severity_level in
  let log_data :=
    if added_to_error
    then append_to_error_log timestamp log_content log_data
    else log_data in
  run_branch (select_branch log_content) timestamp log_content added_to_error
    log_data.

(** One turn of the loop over the lines; [None] is the [OverflowError] of
    [parse_timestamp], which no handler catches. *)
Definition process_line (now offset : Z) (line : string)
  (log_data : gmap string (list record)) : option (gmap string (list record)) :=
  match segment now offset line with
  | Skipped => Some log_data
  | Overflowed => None
  | Decodable timestamp severity_level log_content =>
      Some (decode_line timestamp severity_level log_content log_data)
  end.

(** The loop [for line_num, line in enumerate(file, 1)]; [clock n] is what
    [datetime.now()] returns while line [n] is read. *)
Fixpoint scan (clock : nat -> Z) (offset : Z) (line_num : nat)
  (lines : list string) (log_data : gmap string (list record))
  : option (gmap string (list record)) :=
  match lines with
  | [] => Some log_data
  | line :: lines' =>
      match process_line (clock line_num) offset line log_data with
      | Some log_data' => scan clock offset (S line_num) lines' log_data'
      | None => None
      end
  end.

(** [log_data] when the scan of [parse_log_file] is over. *)
Definition parse_log_data (clock : nat -> Z) (offset : Z) (lines : list string)
  : option (gmap string (list record)) :=
  scan clock offset 1 lines empty_log_data.

(** The categories that hold data, in the order of [log_data]: the keys and
    rows of the [dataframes] that [parse_log_file] returns. *)
Definition dataframes (log_data : gmap string (list record))
  : list (string * list record) :=
  List.filter (fun '(_, data) => negb (List.length data =? 0)%nat)
    (map (fun c => (c, records c log_data)) categories).

Definition parse_log_file (clock : nat -> Z) (offset : Z) (lines : list string)
  : option (list (string * list record)) :=
  option_map dataframes (parse_log_data clock offset lines).

(** The default [timestamp_offset], [timedelta(hours=5, minutes=30)]. *)
Definition default_offset : Z := Datetime.timedelta_hm 5 30.

(** ** Notions used in the statements *)

(** An entry of the ERROR stream that stands for a log line carries a
    timestamp; the two synthetic rows carry [None]. *)
Definition is_event (r : record) : bool :=
  match dict_get "timestamp" r with
  | Some (VTime _) => true
  | _ => false
  end.

Definition log_events (stream : list record) : list record :=
  List.filter is_event stream.

(** The ERROR stream is empty, or the two synthetic rows followed by at
    least one entry, every one of them made by [error_entry]. *)
Definition well_formed_error_stream (stream : list record) : Prop :=
  stream = []
  \/ exists events,
       stream = error_header :: error_separator :: events
       /\ events <> []
       /\ Forall (fun r => exists t c, r = error_entry t c) events.

(** The line does not make [parse_timestamp] read the clock: it has no
    timestamp prefix, or one of the two [strptime] calls accepts it. *)
Definition timestamp_parses (line : string) : bool :=
  match Re.match_timestamp (PyStr.strip line) with
  | Some (ts_str, _) =>
      match Datetime.strptime_micro ts_str, Datetime.strptime_seconds ts_str with
      | None, None => false
      | _, _ => true
      end
  | None => true
  end.

(** The finite float [x] is exactly the fraction [num / den]. *)
Definition float_is_ratio (x : spec_float) (num den : Z) : Prop :=
  match x with
  | S754_finite s m e =>
      ((if s then - Zpos m else Zpos m) * 2 ^ Z.max e 0 * den
       = num * 2 ^ Z.max (- e) 0)%Z
  | S754_zero _ => num = 0%Z
  | _ => False
  end.

(** The columns that the loop turn for [field_name] assigns. *)
Definition sna_writes (field_name : string) (k : string) : bool :=
  match assoc field_name multi_value_fields_data with
  | Some n => existsb (fun j => String.eqb k (column field_name j)) (seq 1 n)
  | None => String.eqb k field_name
  end.

(** The severity that the priority WARNING, CRITICAL, INFO gives a part. *)
Definition priority_level (part : string) : string :=
  if PyStr.contains "WARNING" part then "WARNING"
  else if PyStr.contains "CRITICAL" part then "CRITICAL"
  else "INFO".

(** The part holds one of the three tokens somewhere. *)
Definition holds_token (part : string) : bool :=
  PyStr.contains "INFO" part
  || PyStr.contains "WARNING" part
  || PyStr.contains "CRITICAL" part.


(** No character of the text satisfies [p]. *)
Fixpoint sp_free (p : ascii -> bool) (s : string) : bool :=
  match s with
  | EmptyString => true
  | String c s' => negb (p c) && sp_free p s'
  end.

(** Every character of the text satisfies [p]. *)
Fixpoint all_chars (p : ascii -> bool) (s : string) : bool :=
  match s with
  | EmptyString => true
  | String c s' => p c && all_chars p s'
  end.

(** The list of parts with [w] added at the end of its last part. *)
Fixpoint app_last (w : string) (parts : list string) : list string :=
  match parts with
  | [] => []
  | [p] => [(p ++ w)%string]
  | p :: ps => p :: app_last w ps
  end.

(** The record opens with the timestamp of its line. *)
Definition stamped (timestamp : Z) (r : record) : Prop :=
  exists fields, r = ("timestamp", VTime timestamp) :: fields.

(** The columns of a SnALogging record, in order. *)
Definition sna_columns : list string :=
  "timestamp"
  :: flat_map
       (fun field_name =>
          match assoc field_name multi_value_fields_data with
          | Some n => map (column field_name) (seq 1 n)
          | None => [field_name]
          end) field_names.


(** The rows a decoder result adds to its category. *)
Definition rows_of (o : option record) : list record :=
  match o with Some r => [r] | None => [] end.

(** A directive that never consumes a dot: what it leaves of a text with a
    dot still holds one. *)
Definition keeps_dot {A} (p : Datetime.directive A) : Prop :=
  forall s a r,
    In (a, r) (p s) -> PyStr.contains "." s = true -> PyStr.contains "." r = true.

(** The keys of a record, in order, and the effect of an assignment and of
    a turn of the SnALogging loop on them. *)
Definition keys (r : record) : list string := map fst r.

Definition add_key (k : string) (ks : list string) : list string :=
  if mem k ks then ks else ks ++ [k].

Definition keys_after (field_name : string) (ks : list string) : list string :=
  match assoc field_name multi_value_fields_data with
  | Some n => fold_left (fun acc j => add_key (column field_name j) acc) (seq 1 n) ks
  | None => add_key field_name ks
  end.

(** The six columns that [parse_cpu_info] may assign. *)
Definition cpu_columns : list string :=
  [ "cpu_usage_percent"; "ram_usage_mb"; "load_avg_1min"; "load_avg_5min";
    "load_avg_15min"; "temp_celsius" ].

(** The record with the instant of its leading timestamp moved by [delta];
    a record that does not open with an instant is left as it is. *)
Definition shift_record (delta : Z) (r : record) : record :=
  match r with
  | (k, VTime t) :: fields =>
      if String.eqb k "timestamp" then (k, VTime (t + delta)%Z) :: fields else r
  | _ => r
  end.

(** [log_data] is [log_data0] with every leading timestamp moved by [delta]. *)
Definition shifted (delta : Z) (log_data0 log_data : gmap string (list record))
  : Prop :=
  forall c, records c log_data = map (shift_record delta) (records c log_data0).

(** The rows of a result with every leading timestamp moved by [delta]. *)
Definition shift_rows (delta : Z) (out : list (string * list record))
  : list (string * list record) :=
  map (fun '(c, rows) => (c, map (shift_record delta) rows)) out.

(** [log_data] holds what [base] holds followed by what [log_data0] holds:
    category by category, and in the ERROR stream entry by entry, the
    synthetic rows apart. *)
Definition continues (base log_data0 log_data : gmap string (list record))
  : Prop :=
  (forall c, c <> "ERROR" ->
     records c log_data = records c base ++ records c log_data0)
  /\ log_events (records "ERROR" log_data)
     = log_events (records "ERROR" base) ++ log_events (records "ERROR" log_data0).

(** * Sanity checks of the embedding *)

Example split_ex1 : PyStr.split "," "a,,b" = ["a"; ""; "b"].
Proof. reflexivity. Qed.

Example split_ex2 : PyStr.splitn "," 2 "a,b,c,d" = ["a"; "b"; "c,d"].
Proof. reflexivity. Qed.

Example split_ex3 : PyStr.splitn ", " 1 "GUIDED, TAKE, OFF" = ["GUIDED"; "TAKE, OFF"].
Proof. reflexivity. Qed.

Example split_ex4 : PyStr.split "," "" = [""].
Proof. reflexivity. Qed.

Example strip_ex1 : PyStr.strip "  a b  " = "a b".
Proof. reflexivity. Qed.

Example slice_ex1 : PyStr.slice_1_m1 "[1,2]" = "1,2".
Proof. reflexivity. Qed.

Example split_ws_ex1 : PyStr.split_ws "  ab  c d " = ["ab"; "c"; "d"].
Proof. reflexivity. Qed.

Example str_of_Z_ex : PyStr.str_of_Z 0 = "0" /\ PyStr.str_of_Z (-12) = "-12".
Proof. split; reflexivity. Qed.

Example rfind_ex : PyStr.rfind "ab" "abxab" = Some 3 /\ PyStr.find "ab" "xabab" = Some 1.
Proof. split; reflexivity. Qed.

Example float_ex1 :
  PyNum.float_of_string "12.5" = Some (S754_finite false 7036874417766400 (-49)).
Proof. reflexivity. Qed.

Example float_ex2 :
  PyNum.float_of_string "0.1" = Some (S754_finite false 7205759403792794 (-56)).
Proof. reflexivity. Qed.

Example float_ex3 :
  PyNum.float_of_string "1e23" = Some (S754_finite false 5960464477539062 24).
Proof. vm_compute. reflexivity. Qed.

Example float_ex4 :
  PyNum.float_of_string "1_0.5e-1" = PyNum.float_of_string " 1.05 "
  /\ PyNum.float_of_string "1._5" = None
  /\ PyNum.float_of_string "." = None
  /\ PyNum.float_of_string "-Inf" = Some (S754_infinity true)
  /\ PyNum.float_of_string "1e" = None
  /\ PyNum.float_of_string "1e400" = Some (S754_infinity false)
  /\ PyNum.float_of_string "5." = PyNum.float_of_string "5".
Proof. vm_compute. repeat split. Qed.

Example int_ex1 :
  PyNum.int_of_string " -1_000 " = Some (-1000)%Z
  /\ PyNum.int_of_string "1__0" = None
  /\ PyNum.int_of_string "" = None
  /\ PyNum.int_of_string "+" = None
  /\ PyNum.int_of_string "12.5" = None
  /\ PyNum.int_of_string "007" = Some 7%Z.
Proof. vm_compute. repeat split. Qed.

Example strptime_ex1 :
  Datetime.strptime_micro "0001-01-01 00:00:00.000" = Some 0%Z
  /\ Datetime.strptime_micro "0001-01-02 00:00:01.5" = Some 86401500000%Z
  /\ Datetime.strptime_micro "2024-02-30 10:00:00.000" = None
  /\ Datetime.strptime_micro "2024-02-29 10:00:60.000" = None
  /\ Datetime.strptime_micro "2024-1-5 1:2:3.000" = Datetime.strptime_micro "2024-01-05 01:02:03.000"
  /\ Datetime.strptime_micro "2024-01-01 10:00:00.1234567" = None
  /\ Datetime.strptime_seconds "2024-01-01 10:00:00.000" = None
  /\ Datetime.strptime_seconds "2024-01-01 10:00:00"
     = Datetime.strptime_micro "2024-01-01 10:00:00.000"
  /\ Datetime.strptime_micro "9999-12-31 23:59:59.999999" = Some (Datetime.max_micro - 1)%Z.
Proof. vm_compute. repeat split. Qed.

Example re_ex1 :
  Re.match_timestamp "2024-01-01 10:00:00.000,drone1"
  = Some ("2024-01-01 10:00:00.000", ",drone1").
Proof. reflexivity. Qed.

Example re_ex2 :
  Re.search_run "" Re.digit_or_dot "ms" "a 1.5 x 2.25ms 7ms" = Some "2.25"
  /\ Re.search_run "CPU usage: " Re.digit_or_dot "%" "CPU, CPU usage: 12.5%, x" = Some "12.5"
  /\ Re.search_run ": " PyStr.isdigit "" "a: b: 12c" = Some "12"
  /\ Re.search_bracket "x ] [a [b] c]" = Some "a [b"
  /\ Re.match_thread "T12  abc def" = Some ("12", "abc def")
  /\ Re.match_thread "T12  " = Some ("12", " ")
  /\ Re.match_thread "T12 " = None
  /\ Re.match_thread "T abc" = None.
Proof. vm_compute. repeat split. Qed.

Example parse_list_ex :
  parse_list_values "[1, 2.5,,x]"
  = [ VFloat (S754_finite false 4503599627370496 (-52));
      VFloat (S754_finite false 5629499534213120 (-51)); VStr "x" ]
  /\ parse_list_values "  " = [] /\ parse_list_values "[]" = [].
Proof. vm_compute. repeat split. Qed.

(** * Text lemmas *)

Section Text.
Import PyStr.
Implicit Types (s t w : string) (c : ascii) (sp : ascii -> bool).

Lemma prefix_cons (a b : ascii) (p s : string) :
  String.prefix (String a p) (String b s)
  = if ascii_dec a b then String.prefix p s else false.
Proof. reflexivity. Qed.

Lemma append_cons (a : ascii) (p s : string) :
  (String a p ++ s)%string = String a (p ++ s)%string.
Proof. reflexivity. Qed.

Lemma prefix_split (p s : string) :
  String.prefix p s = true -> s = (p ++ PyStr.drop (String.length p) s)%string.
Proof.
  revert s. induction p as [|a p IH]; intros s H.
  - destruct s; reflexivity.
  - destruct s as [|b s]; [discriminate|].
    rewrite prefix_cons in H.
    destruct (ascii_dec a b) as [->|]; [|discriminate].
    rewrite append_cons. cbn [String.length PyStr.drop]. f_equal. now apply IH.
Qed.

Lemma append_nil_l s : ("" ++ s)%string = s.
Proof. reflexivity. Qed.

Lemma append_nil_r s : (s ++ "")%string = s.
Proof.
  induction s as [|c s IH]; [reflexivity|].
  rewrite append_cons. now rewrite IH.
Qed.

Lemma append_assoc s t w : ((s ++ t) ++ w)%string = (s ++ (t ++ w))%string.
Proof.
  induction s as [|c s IH]; [reflexivity|].
  rewrite !append_cons. now rewrite IH.
Qed.


Lemma prefix_nil s : String.prefix "" s = true.
Proof. now destruct s. Qed.





Lemma rstrip_by_append_blank sp s w :
  all_chars sp w = true -> rstrip_by sp (s ++ w)%string = rstrip_by sp s.
Proof.
  intros Hw. induction s as [|a s IH].
  - rewrite append_nil_l. induction w as [|c w IHw]; [reflexivity|].
    cbn [all_chars] in Hw. apply andb_true_iff in Hw. destruct Hw as [Hc Hw].
    cbn [rstrip_by]. rewrite (IHw Hw). cbn [rstrip_by]. now rewrite Hc.
  - rewrite append_cons. cbn [rstrip_by]. now rewrite IH.
Qed.

Lemma lstrip_by_blank sp w : all_chars sp w = true -> lstrip_by sp w = "".
Proof.
  induction w as [|c w IH]; [reflexivity|]. cbn [all_chars lstrip_by].
  intros H. apply andb_true_iff in H. destruct H as [-> Hw]. now apply IH.
Qed.

Lemma strip_by_append_blank sp s w :
  all_chars sp w = true -> strip_by sp (s ++ w)%string = strip_by sp s.
Proof.
  intros Hw. unfold strip_by. induction s as [|a s IH].
  - rewrite append_nil_l. now rewrite (lstrip_by_blank _ _ Hw).
  - rewrite append_cons. cbn [lstrip_by]. destruct (sp a); [exact IH|].
    rewrite <- append_cons. now apply rstrip_by_append_blank.
Qed.

(** A text is its right-stripped part followed by blanks. *)
Lemma rstrip_by_tail sp s :
  exists w, all_chars sp w = true /\ s = (rstrip_by sp s ++ w)%string.
Proof.
  induction s as [|a s (w & Hw & E)].
  - now exists "".
  - cbn [rstrip_by]. destruct (rstrip_by sp s) as [|b r] eqn:R.
    + rewrite append_nil_l in E. subst s.
      destruct (sp a) eqn:A.
      * exists (String a w). cbn [all_chars]. now rewrite A, Hw.
      * exists w. split; [exact Hw|reflexivity].
    + exists w. split; [exact Hw|]. rewrite append_cons. now rewrite <- E.
Qed.






Lemma app_last_nonempty w parts : parts <> [] -> app_last w parts <> [].
Proof. destruct parts as [|p [|q ps]]; [congruence| |]; discriminate. Qed.









(** A token without blanks occurs in a text exactly when it occurs in the
    stripped text. *)
Lemma prefix_blank_false tok w c :
sp_free isspace tok = true -> isspace c = true ->
String.prefix tok (String c w) = true -> tok = "".
Proof.
destruct tok as [|a tok]; [reflexivity|].
cbn [sp_free]. intros H Hc. apply andb_true_iff in H. destruct H as [Ha _].
rewrite prefix_cons. destruct (ascii_dec a c) as [->|]; [|discriminate].
rewrite Hc in Ha. discriminate.
Qed.

Lemma prefix_append_blank tok : forall s w,
sp_free isspace tok = true -> all_chars isspace w = true ->
String.prefix tok (s ++ w)%string = String.prefix tok s.
Proof.
induction tok as [|a tok IH]; intros s w Ht Hw.
- now rewrite !prefix_nil.
- destruct s as [|b s].
  + rewrite append_nil_l. destruct w as [|c w]; [reflexivity|].
    cbn [all_chars] in Hw. apply andb_true_iff in Hw. destruct Hw as [Hc _].
    destruct (String.prefix (String a tok) (String c w)) eqn:P; [|reflexivity].
    now apply (prefix_blank_false _ _ _ Ht Hc) in P.
  + rewrite append_cons, !prefix_cons.
    destruct (ascii_dec a b); [|reflexivity].
    cbn [sp_free] in Ht. apply andb_true_iff in Ht. destruct Ht as [_ Ht].
    now apply IH.
Qed.

Lemma contains_blank tok w :
sp_free isspace tok = true -> tok <> "" -> all_chars isspace w = true ->
contains tok w = false.
Proof.
intros Ht Hne. induction w as [|c w IH]; intros Hw.
- destruct tok; [congruence|reflexivity].
- cbn [all_chars] in Hw. apply andb_true_iff in Hw. destruct Hw as [Hc Hw].
  cbn [contains]. rewrite (IH Hw).
  destruct (String.prefix tok (String c w)) eqn:P; [|reflexivity].
  apply (prefix_blank_false _ _ _ Ht Hc) in P. congruence.
Qed.

Lemma contains_append_blank tok s w :
sp_free isspace tok = true -> tok <> "" -> all_chars isspace w = true ->
contains tok (s ++ w)%string = contains tok s.
Proof.
intros Ht Hne Hw. induction s as [|c s IH].
- rewrite append_nil_l, (contains_blank _ _ Ht Hne Hw).
  destruct tok; [congruence|reflexivity].
- rewrite append_cons. cbn [contains]. rewrite IH.
  rewrite <- append_cons. now rewrite (prefix_append_blank _ _ _ Ht Hw).
Qed.

Lemma contains_lstrip tok s :
sp_free isspace tok = true -> tok <> "" ->
contains tok (lstrip_by isspace s) = contains tok s.
Proof.
intros Ht Hne. induction s as [|c s IH]; [reflexivity|].
cbn [lstrip_by]. destruct (isspace c) eqn:Hc; [|reflexivity].
rewrite IH. cbn [contains].
destruct (String.prefix tok (String c s)) eqn:P; [|reflexivity].
apply (prefix_blank_false _ _ _ Ht Hc) in P. congruence.
Qed.

Lemma contains_strip tok s :
sp_free isspace tok = true -> tok <> "" ->
contains tok (strip s) = contains tok s.
Proof.
intros Ht Hne. unfold strip, strip_by.
destruct (rstrip_by_tail isspace (lstrip_by isspace s)) as (w & Hw & E).
rewrite <- (contains_lstrip tok s Ht Hne). rewrite E at 2.
now rewrite (contains_append_blank _ _ _ Ht Hne Hw).
Qed.

End Text.

(** * The record store *)

Section Store.
Implicit Types (log_data : gmap string (list record)) (r : record).

Lemma records_append_eq category r log_data :
  records category (append_record category r log_data)
  = records category log_data ++ [r].
Proof.
  unfold records, append_record, records.
  now rewrite lookup_total_insert_eq.
Qed.

Lemma records_append_ne c category r log_data :
  c <> category ->
  records c (append_record category r log_data) = records c log_data.
Proof.
  intros Hne. unfold records, append_record.
  rewrite lookup_total_insert_ne; [reflexivity | congruence].
Qed.

Lemma records_emit_ne c category o log_data :
  c <> category ->
  records c (emit category o log_data) = records c log_data.
Proof.
  intros Hne. destruct o as [r|]; simpl; [|reflexivity].
  now apply records_append_ne.
Qed.

(** What [append_to_error_log] does, read on the ERROR list alone. *)
Lemma records_error_append timestamp content log_data :
  records "ERROR" (append_to_error_log timestamp content log_data)
  = (match records "ERROR" log_data with
     | [] => [error_header; error_separator]
     | stream => stream
     end) ++ [error_entry timestamp content].
Proof.
  unfold append_to_error_log.
  destruct (records "ERROR" log_data) as [|r0 stream] eqn:E; simpl.
  - rewrite !records_append_eq, E. reflexivity.
  - rewrite records_append_eq, E. reflexivity.
Qed.

Lemma records_error_append_ne c timestamp content log_data :
  c <> "ERROR" ->
  records c (append_to_error_log timestamp content log_data)
  = records c log_data.
Proof.
  intros Hne. unfold append_to_error_log.
  destruct (List.length (records "ERROR" log_data) =? 0)%nat;
    now rewrite ?records_append_ne by assumption.
Qed.

Lemma records_flag_error_ne c added timestamp content log_data :
  c <> "ERROR" ->
  records c (flag_error added timestamp content log_data) = records c log_data.
Proof.
  intros Hne. unfold flag_error. destruct added; [reflexivity|].
  now apply records_error_append_ne.
Qed.

(** Two stores with the same ERROR list have the same one after an
    append to it. *)
Lemma records_error_append_congr timestamp content log_data log_data' :
  records "ERROR" log_data = records "ERROR" log_data' ->
  records "ERROR" (append_to_error_log timestamp content log_data)
  = records "ERROR" (append_to_error_log timestamp content log_data').
Proof. intros E. rewrite !records_error_append, E. reflexivity. Qed.

End Store.

(** * The ERROR stream *)

Section ErrorStream.
Implicit Types (log_data : gmap string (list record)).

(** A branch leaves the ERROR list alone or, when the line has not yet
    been added, appends to it once. *)
Lemma run_branch_error b timestamp log_content added log_data :
  records "ERROR" (run_branch b timestamp log_content added log_data)
  = records "ERROR" log_data
  \/ (added = false
      /\ exists content,
          records "ERROR" (run_branch b timestamp log_content added log_data)
          = records "ERROR" (append_to_error_log timestamp content log_data)).
Proof.
  destruct b; cbv beta iota zeta delta [run_branch];
    try (left; apply records_emit_ne; discriminate).
  - (* CC_PARAMETER *)
    destruct (cc_is_error log_content).
    + destruct added; simpl; [now left|]. right. split; [reflexivity|].
      now exists log_content.
    + left. apply records_emit_ne. discriminate.
  - (* RESUME *)
    match goal with |- context [if ?c then _ else _] => destruct c end.
    + destruct added; cbv beta iota delta [flag_error].
      * left. apply records_append_ne. discriminate.
      * right. split; [reflexivity|].
        eexists. apply records_error_append_congr.
        apply records_append_ne. discriminate.
    + left. apply records_append_ne. discriminate.
  - (* OTHER *)
    destruct (is_error_message log_content).
    + destruct added; cbv beta iota delta [flag_error].
      * left. apply records_append_ne. discriminate.
      * right. split; [reflexivity|].
        eexists. apply records_error_append_congr.
        apply records_append_ne. discriminate.
    + left. apply records_append_ne. discriminate.
Qed.

Lemma decode_line_error timestamp severity_level log_content log_data :
  (is_alarm severity_level = true ->
   records "ERROR" (decode_line timestamp severity_level log_content log_data)
   = records "ERROR" (append_to_error_log timestamp log_content log_data))
  /\ (records "ERROR" (decode_line timestamp severity_level log_content log_data)
      = records "ERROR" log_data
      \/ exists content,
          records "ERROR" (decode_line timestamp severity_level log_content log_data)
          = records "ERROR" (append_to_error_log timestamp content log_data)).
Proof.
  unfold decode_line.
  destruct (is_alarm severity_level) eqn:A.
  - destruct (run_branch_error (select_branch log_content) timestamp log_content
                true (append_to_error_log timestamp log_content log_data))
      as [E | [F _]]; [|discriminate].
    split; [intros _; exact E|]. right. now exists log_content.
  - split; [discriminate|].
    destruct (run_branch_error (select_branch log_content) timestamp log_content
                false log_data) as [E | [_ [content E]]].
    + now left.
    + right. now exists content.
Qed.

Lemma log_events_app s1 s2 : log_events (s1 ++ s2) = log_events s1 ++ log_events s2.
Proof. unfold log_events. apply List.filter_app. Qed.

Lemma log_events_error_append timestamp content log_data :
  log_events (records "ERROR" (append_to_error_log timestamp content log_data))
  = log_events (records "ERROR" log_data) ++ [error_entry timestamp content].
Proof.
  rewrite records_error_append, log_events_app.
  destruct (records "ERROR" log_data); reflexivity.
Qed.

Lemma well_formed_error_append timestamp content log_data :
  well_formed_error_stream (records "ERROR" log_data) ->
  well_formed_error_stream
    (records "ERROR" (append_to_error_log timestamp content log_data)).
Proof.
  intros [E | (events & E & Hne & Hall)]; rewrite records_error_append, E.
  - right. exists [error_entry timestamp content].
    repeat split; [discriminate|]. constructor; [|constructor]. now eexists _, _.
  - right. exists (events ++ [error_entry timestamp content]).
    repeat split.
    + destruct events; discriminate.
    + apply Forall_app. split; [assumption|].
      constructor; [|constructor]. now eexists _, _.
Qed.

Lemma well_formed_decode_line timestamp severity_level log_content log_data :
  well_formed_error_stream (records "ERROR" log_data) ->
  well_formed_error_stream
    (records "ERROR" (decode_line timestamp severity_level log_content log_data)).
Proof.
  intros W.
  destruct (decode_line_error timestamp severity_level log_content log_data)
    as [_ [E | [content E]]]; rewrite E; [assumption|].
  now apply well_formed_error_append.
Qed.

Lemma well_formed_scan clock offset lines : forall line_num log_data log_data',
  well_formed_error_stream (records "ERROR" log_data) ->
  scan clock offset line_num lines log_data = Some log_data' ->
  well_formed_error_stream (records "ERROR" log_data').
Proof.
  induction lines as [|line lines IH]; intros line_num log_data log_data' W S.
  - simpl in S. now inversion S; subst.
  - simpl in S. unfold process_line in S.
    destruct (segment (clock line_num) offset line) as [| |t sev lc];
      [eauto|discriminate|].
    eapply IH; [|exact S]. now apply well_formed_decode_line.
Qed.

End ErrorStream.

(** * Claims about the ERROR stream *)

(** C3.  Every decodable line is processed without failure; when its
    severity is WARNING or CRITICAL the ERROR stream after the line is the
    stream before it with one call of [append_to_error_log] for the line's
    timestamp and payload, which adds exactly one log entry; and whatever
    the severity and the branch taken, the stream is left alone or receives
    one such call, so that a line never adds more than one log entry. *)
Theorem C3_one_error_entry_per_line
  (now offset : Z) (line : string) (timestamp : Z)
  (severity_level : option string) (log_content : string)
  (log_data : gmap string (list record)) :
  segment now offset line = Decodable timestamp severity_level log_content ->
  exists log_data',
    process_line now offset line log_data = Some log_data'
    /\ (severity_level = Some "WARNING" \/ severity_level = Some "CRITICAL" ->
        records "ERROR" log_data'
        = records "ERROR" (append_to_error_log timestamp log_content log_data)
        /\ log_events (records "ERROR" log_data')
           = log_events (records "ERROR" log_data)
             ++ [error_entry timestamp log_content])
    /\ (records "ERROR" log_data' = records "ERROR" log_data
        \/ exists content,
            records "ERROR" log_data'
            = records "ERROR" (append_to_error_log timestamp content log_data))
    /\ (List.length (log_events (records "ERROR" log_data'))
        <= S (List.length (log_events (records "ERROR" log_data))))%nat.
Proof.
  intros Hseg. unfold process_line. rewrite Hseg.
  eexists. split; [reflexivity|].
  destruct (decode_line_error timestamp severity_level log_content log_data)
    as [Halarm Hany].
  split; [|split].
  - intros Hsev.
    assert (A : is_alarm severity_level = true)
      by (destruct Hsev as [-> | ->]; reflexivity).
    split; [now apply Halarm|].
    rewrite (Halarm A). apply log_events_error_append.
  - exact Hany.
  - destruct Hany as [E | [content E]]; rewrite E.
    + lia.
    + rewrite log_events_error_append, length_app. simpl. lia.
Qed.

Lemma C3_witness :
  exists log_data',
    process_line 0 0
      "2024-01-01 10:00:00.000,drone1,WARNING,CC_PARAMETER, speed_limit, 5.0"
      empty_log_data = Some log_data'
    /\ (Some "WARNING" = Some "WARNING" \/ Some "WARNING" = Some "CRITICAL" ->
        records "ERROR" log_data'
        = records "ERROR"
            (append_to_error_log 63839700000000000
               "CC_PARAMETER, speed_limit, 5.0" empty_log_data)
        /\ log_events (records "ERROR" log_data')
           = log_events (records "ERROR" empty_log_data)
             ++ [error_entry 63839700000000000 "CC_PARAMETER, speed_limit, 5.0"])
    /\ (records "ERROR" log_data' = records "ERROR" empty_log_data
        \/ exists content,
            records "ERROR" log_data'
            = records "ERROR"
                (append_to_error_log 63839700000000000 content empty_log_data))
    /\ (List.length (log_events (records "ERROR" log_data'))
        <= S (List.length (log_events (records "ERROR" empty_log_data))))%nat.
Proof.
  apply (C3_one_error_entry_per_line 0 0
           "2024-01-01 10:00:00.000,drone1,WARNING,CC_PARAMETER, speed_limit, 5.0"
           63839700000000000 (Some "WARNING") "CC_PARAMETER, speed_limit, 5.0"
           empty_log_data).
  vm_compute. reflexivity.
Defined.

Lemma dataframes_rows c rows log_data :
  In (c, rows) (dataframes log_data) -> rows = records c log_data /\ rows <> [].
Proof.
  unfold dataframes. intros H.
  apply List.filter_In in H. destruct H as [H Hne].
  apply in_map_iff in H. destruct H as (c' & E & _).
  inversion E; subst. split; [reflexivity|].
  intros Hnil. rewrite Hnil in Hne. discriminate.
Qed.

(** C4.  In the output of a decode pass an ERROR stream, which is there
    only when it is not empty, starts with the header row and the separator
    row, both with a null timestamp; every entry after them was made for a
    log line and carries a timestamp, so neither synthetic row occurs again,
    however many entries follow. *)
Theorem C4_error_header_once
  (clock : nat -> Z) (offset : Z) (lines : list string)
  (out : list (string * list record)) (rows : list record) :
  parse_log_file clock offset lines = Some out ->
  In ("ERROR", rows) out ->
  exists events,
    rows = error_header :: error_separator :: events
    /\ dict_get "timestamp" error_header = Some VNone
    /\ dict_get "timestamp" error_separator = Some VNone
    /\ events <> []
    /\ Forall (fun r => exists t c, r = error_entry t c) events
    /\ ~ In error_header events
    /\ ~ In error_separator events.
Proof.
  unfold parse_log_file, parse_log_data. intros Hout Hin.
  destruct (scan clock offset 1 lines empty_log_data) as [log_data|] eqn:S;
    [|discriminate].
  simpl in Hout. inversion Hout; subst out. clear Hout.
  apply dataframes_rows in Hin. destruct Hin as [-> Hne].
  assert (W : well_formed_error_stream (records "ERROR" log_data)).
  { eapply well_formed_scan; [|exact S]. left. vm_compute. reflexivity. }
  destruct W as [E | (events & E & Hev & Hall)]; [contradiction|].
  exists events. repeat split; try assumption.
  - intros Hin. rewrite Forall_forall in Hall.
    apply list_elem_of_In in Hin.
    destruct (Hall _ Hin) as (t & c & F). discriminate.
  - intros Hin. rewrite Forall_forall in Hall.
    apply list_elem_of_In in Hin.
    destruct (Hall _ Hin) as (t & c & F). discriminate.
Qed.

Lemma C4_witness :
  exists events,
    [ error_header; error_separator;
      error_entry 63839700000000000 "CC_PARAMETER, speed_limit, 5.0";
      error_entry 63839700001000000 "link lost" ]
    = error_header :: error_separator :: events
    /\ dict_get "timestamp" error_header = Some VNone
    /\ dict_get "timestamp" error_separator = Some VNone
    /\ events <> []
    /\ Forall (fun r => exists t c, r = error_entry t c) events
    /\ ~ In error_header events
    /\ ~ In error_separator events.
Proof.
  apply (C4_error_header_once (fun _ => 0%Z) 0
           [ "2024-01-01 10:00:00.000,drone1,WARNING,CC_PARAMETER, speed_limit, 5.0";
             "2024-01-01 10:00:01.000,drone1,INFO,link lost" ]
           [ ("CC_PARAMETER",
               [ [ ("timestamp", VTime 63839700000000000);
                   ("key", VStr "speed_limit"); ("value", VStr "5.0") ] ]);
             ("ERROR",
               [ error_header; error_separator;
                 error_entry 63839700000000000 "CC_PARAMETER, speed_limit, 5.0";
                 error_entry 63839700001000000 "link lost" ]);
             ("OTHER",
               [ [ ("timestamp", VTime 63839700001000000);
                   ("log_content", VStr "link lost") ] ]) ]).
  - vm_compute. reflexivity.
  - simpl. right. left. reflexivity.
Defined.

(** A payload that starts with [CC_PARAMETER,] takes the CC_PARAMETER
    branch: no earlier test of the chain accepts it. *)
Lemma select_branch_cc_parameter (log_content : string) :
  PyStr.startswith "CC_PARAMETER," log_content = true ->
  select_branch log_content = B_CC_PARAMETER.
Proof.
  intros H. apply prefix_split in H. rewrite H.
  generalize (PyStr.drop (String.length "CC_PARAMETER,") log_content).
  intros rest. destruct rest; vm_compute; reflexivity.
Qed.

(** C10.  For a decodable line whose payload starts with [CC_PARAMETER,]
    and contains one of the four error patterns, the ERROR stream after the
    line is the stream before it, opened with the two synthetic rows if it
    was empty, followed by exactly one entry that carries the timestamp and
    the payload of the line, whether the severity or the pattern caused it;
    every other category, CC_PARAMETER among them, is left as it was,
    whatever the payload splits into. *)
Theorem C10_cc_parameter_error_pattern
  (now offset : Z) (line : string) (timestamp : Z)
  (severity_level : option string) (log_content : string)
  (log_data : gmap string (list record)) :
  segment now offset line = Decodable timestamp severity_level log_content ->
  PyStr.startswith "CC_PARAMETER," log_content = true ->
  existsb (fun pattern => PyStr.contains pattern log_content)
    [ "Created missing shelve key during startup race:";
      "Created missing TinyDB record during startup race:";
      "not found in memory or shelve DB";
      "not found in TinyDB memory or file" ] = true ->
  exists log_data',
    process_line now offset line log_data = Some log_data'
    /\ records "ERROR" log_data'
       = (match records "ERROR" log_data with
          | [] => [ [ ("timestamp", VNone);
                      ("log_content",
                        VStr "::  This is a list of ERROR/FAILURE items extracted from logs  ::") ];
                    [ ("timestamp", VNone);
                      ("log_content",
                        VStr "---------------------------------------------------------------------------------") ] ]
          | stream => stream
          end)
         ++ [ [ ("timestamp", VTime timestamp); ("log_content", VStr log_content) ] ]
    /\ log_events (records "ERROR" log_data')
       = log_events (records "ERROR" log_data)
         ++ [ [ ("timestamp", VTime timestamp); ("log_content", VStr log_content) ] ]
    /\ records "CC_PARAMETER" log_data' = records "CC_PARAMETER" log_data
    /\ forall c, c <> "ERROR" -> records c log_data' = records c log_data.
Proof.
  intros Hseg Hstart Hpat. unfold process_line. rewrite Hseg.
  eexists. split; [reflexivity|].
  assert (E : records "ERROR"
                (decode_line timestamp severity_level log_content log_data)
              = records "ERROR"
                  (append_to_error_log timestamp log_content log_data)
              /\ forall c, c <> "ERROR" ->
                   records c
                     (decode_line timestamp severity_level log_content log_data)
                   = records c log_data).
  { unfold decode_line. rewrite (select_branch_cc_parameter _ Hstart).
    cbv beta iota zeta delta [run_branch].
    change (cc_is_error log_content) with
      (existsb (fun pattern => PyStr.contains pattern log_content)
         cc_error_patterns).
    unfold cc_error_patterns. rewrite Hpat.
    destruct (is_alarm severity_level); cbv beta iota delta [flag_error].
    - split; [reflexivity|]. intros c Hc. now apply records_error_append_ne.
    - split; [reflexivity|]. intros c Hc. now apply records_error_append_ne. }
  destruct E as [E O].
  split; [rewrite E; apply records_error_append|].
  split; [rewrite E; apply log_events_error_append|].
  split; [apply O; discriminate|exact O].
Qed.

Lemma C10_witness :
  exists log_data',
    process_line 0 0
      "2024-01-01 10:00:00.000,cc,INFO,CC_PARAMETER, speed_limit, not found in memory or shelve DB"
      empty_log_data = Some log_data'
    /\ records "ERROR" log_data'
       = (match records "ERROR" empty_log_data with
          | [] => [ [ ("timestamp", VNone);
                      ("log_content",
                        VStr "::  This is a list of ERROR/FAILURE items extracted from logs  ::") ];
                    [ ("timestamp", VNone);
                      ("log_content",
                        VStr "---------------------------------------------------------------------------------") ] ]
          | stream => stream
          end)
         ++ [ [ ("timestamp", VTime 63839700000000000);
                ("log_content",
                  VStr "CC_PARAMETER, speed_limit, not found in memory or shelve DB") ] ]
    /\ log_events (records "ERROR" log_data')
       = log_events (records "ERROR" empty_log_data)
         ++ [ [ ("timestamp", VTime 63839700000000000);
                ("log_content",
                  VStr "CC_PARAMETER, speed_limit, not found in memory or shelve DB") ] ]
    /\ records "CC_PARAMETER" log_data' = records "CC_PARAMETER" empty_log_data
    /\ forall c, c <> "ERROR" -> records c log_data' = records c empty_log_data.
Proof.
  apply (C10_cc_parameter_error_pattern 0 0
           "2024-01-01 10:00:00.000,cc,INFO,CC_PARAMETER, speed_limit, not found in memory or shelve DB"
           63839700000000000 (Some "INFO")
           "CC_PARAMETER, speed_limit, not found in memory or shelve DB"
           empty_log_data).
  - vm_compute. reflexivity.
  - vm_compute. reflexivity.
  - vm_compute. reflexivity.
Defined.

(** * The timestamp normalizer and the wall clock *)

Lemma segment_clock (now1 now2 offset : Z) (line : string) :
  timestamp_parses line = true \/ now1 = now2 ->
  segment now1 offset line = segment now2 offset line.
Proof.
  intros [H | ->]; [|reflexivity].
  unfold segment, timestamp_parses, parse_timestamp in *.
  destruct (PyStr.is_empty (PyStr.strip line)); [reflexivity|].
  destruct (Re.match_timestamp (PyStr.strip line)) as [[ts_str after]|];
    [|reflexivity].
  destruct (Datetime.strptime_micro ts_str); [reflexivity|].
  destruct (Datetime.strptime_seconds ts_str); [reflexivity|discriminate].
Qed.

Lemma scan_clock (clock1 clock2 : nat -> Z) (offset : Z) (lines : list string) :
  forall line_num log_data,
    (forall n line,
        nth_error lines n = Some line ->
        timestamp_parses line = true
        \/ clock1 (line_num + n)%nat = clock2 (line_num + n)%nat) ->
    scan clock1 offset line_num lines log_data
    = scan clock2 offset line_num lines log_data.
Proof.
  induction lines as [|line lines IH]; intros line_num log_data H;
    [reflexivity|].
  simpl. unfold process_line.
  rewrite (segment_clock (clock1 line_num) (clock2 line_num)).
  - destruct (segment (clock2 line_num) offset line); try reflexivity.
    + apply IH. intros n l Hn.
      replace (S line_num + n)%nat with (line_num + S n)%nat by lia.
      now apply H.
    + apply IH. intros n l Hn.
      replace (S line_num + n)%nat with (line_num + S n)%nat by lia.
      now apply H.
  - specialize (H O line eq_refl).
    now rewrite Nat.add_0_r in H.
Qed.

(** C1, as the code has it.  On a text that both formats reject the
    normalizer returns the wall-clock reading plus the offset, and a line
    whose timestamp prefix is such a text is decoded with that instant.  The
    decode result is a function of the input text, the offset and the
    wall-clock readings taken at those lines: two runs agree whenever their
    clocks agree at the lines whose prefix fails both parses, and so
    whenever every timestamp prefix parses. *)
Theorem C1_result_depends_on_clock_only_at_unparsed_timestamps
  (clock1 clock2 : nat -> Z) (offset : Z) (lines : list string) :
  (forall (now : Z) (line ts_str after : string),
      Re.match_timestamp (PyStr.strip line) = Some (ts_str, after) ->
      Datetime.strptime_micro ts_str = None ->
      Datetime.strptime_seconds ts_str = None ->
      parse_timestamp now ts_str offset
      = (if Datetime.in_range (now + offset) then Some (now + offset)%Z else None)
      /\ forall timestamp severity_level log_content,
           segment now offset line
           = Decodable timestamp severity_level log_content ->
           timestamp = (now + offset)%Z)
  /\ ((forall n line,
         nth_error lines n = Some line ->
         timestamp_parses line = true \/ clock1 (S n) = clock2 (S n)) ->
      parse_log_file clock1 offset lines = parse_log_file clock2 offset lines).
Proof.
  split.
  - intros now line ts_str after M E1 E2.
    assert (P : parse_timestamp now ts_str offset
                = (if Datetime.in_range (now + offset)
                   then Some (now + offset)%Z else None)).
    { unfold parse_timestamp. rewrite E1, E2. reflexivity. }
    split; [exact P|].
    intros timestamp severity_level log_content. unfold segment.
    destruct (PyStr.is_empty (PyStr.strip line)); [discriminate|].
    rewrite M, P.
    destruct (Datetime.in_range (now + offset)); [|discriminate].
    destruct (find_severity _) as [[sev lc]|]; [|discriminate].
    destruct (PyStr.is_empty lc); [discriminate|].
    intros H. injection H as <- _ _. reflexivity.
  - intros H. unfold parse_log_file, parse_log_data.
    now rewrite (scan_clock clock1 clock2 offset lines 1 empty_log_data H).
Qed.

Lemma C1_witness :
  parse_timestamp 86400000000 "2024-02-30 10:00:00.000" default_offset
  = Some (86400000000 + default_offset)%Z
  /\ segment 86400000000 default_offset
       "2024-02-30 10:00:00.000,drone1,INFO,FOO_BAR,1,2,3"
     = Decodable (86400000000 + default_offset) (Some "INFO") "FOO_BAR,1,2,3"
  /\ parse_log_file (fun _ => 0%Z) default_offset
       [ "2024-01-01 10:00:00.000,drone1,INFO,FOO_BAR,1,2,3";
         "2024-02-30 10:00:00.000,drone1,INFO,FOO_BAR,1,2,3" ]
     = parse_log_file (fun n => if (n =? 2)%nat then 0%Z else 86400000000%Z)
         default_offset
         [ "2024-01-01 10:00:00.000,drone1,INFO,FOO_BAR,1,2,3";
           "2024-02-30 10:00:00.000,drone1,INFO,FOO_BAR,1,2,3" ].
Proof.
  destruct (C1_result_depends_on_clock_only_at_unparsed_timestamps
              (fun _ => 0%Z)
              (fun n => if (n =? 2)%nat then 0%Z else 86400000000%Z)
              default_offset
              [ "2024-01-01 10:00:00.000,drone1,INFO,FOO_BAR,1,2,3";
                "2024-02-30 10:00:00.000,drone1,INFO,FOO_BAR,1,2,3" ])
    as [A B].
  destruct (A 86400000000%Z "2024-02-30 10:00:00.000,drone1,INFO,FOO_BAR,1,2,3"
              "2024-02-30 10:00:00.000" ",drone1,INFO,FOO_BAR,1,2,3")
    as [P S]; [reflexivity|vm_compute; reflexivity|vm_compute; reflexivity|].
  split; [rewrite P; reflexivity|]. split.
  - assert (Sg : exists t, segment 86400000000 default_offset
                   "2024-02-30 10:00:00.000,drone1,INFO,FOO_BAR,1,2,3"
                 = Decodable t (Some "INFO") "FOO_BAR,1,2,3")
      by (eexists; vm_compute; reflexivity).
    destruct Sg as [t Sg]. rewrite Sg. now rewrite (S _ _ _ Sg).
  - apply B. intros n line H.
    destruct n as [|[|n]]; simpl in H.
    + left. inversion H. vm_compute. reflexivity.
    + right. reflexivity.
    + destruct n; discriminate.
Defined.

(** C1, as the claim states it, fails: the prefix [2024-02-30 10:00:00.000]
    has the decodable shape and fails both parses, the normalizer returns
    the clock reading plus the offset, and two runs on the same text with
    different clocks return different record stores. *)
Lemma C1_counterexample :
  Re.match_timestamp "2024-02-30 10:00:00.000,drone1,INFO,FOO_BAR,1,2,3"
  = Some ("2024-02-30 10:00:00.000", ",drone1,INFO,FOO_BAR,1,2,3")
  /\ Datetime.strptime_micro "2024-02-30 10:00:00.000" = None
  /\ Datetime.strptime_seconds "2024-02-30 10:00:00.000" = None
  /\ parse_timestamp 86400000000 "2024-02-30 10:00:00.000" default_offset
     = Some (86400000000 + default_offset)%Z
  /\ parse_log_file (fun _ => 0%Z) default_offset
       [ "2024-02-30 10:00:00.000,drone1,INFO,FOO_BAR,1,2,3" ]
     <> parse_log_file (fun _ => 86400000000%Z) default_offset
          [ "2024-02-30 10:00:00.000,drone1,INFO,FOO_BAR,1,2,3" ].
Proof.
  repeat split; try (vm_compute; reflexivity).
  vm_compute. discriminate.
Qed.

(** * Lines that are not decodable *)




(** * The MISSION_INFO scenario *)

(** C5.  The scenario line, decoded with a zero offset, yields one record,
    in MISSION_INFO and nowhere else, with flight mode GUIDED, mode value 4,
    armed and flying values 1 and the height 12.5. *)
Theorem C5_mission_info_scenario (clock : nat -> Z) :
  exists r height,
    parse_log_file clock 0
      [ "2024-01-01 10:00:00.000,drone1,INFO,MISSION_INFO,GUIDED,armed,flying,12.5,3.2,0.1,90.0,18.52,73.85" ]
    = Some [ ("MISSION_INFO", [r]) ]
    /\ dict_get "flight_mode" r = Some (VStr "GUIDED")
    /\ dict_get "flight_mode_val" r = Some (VInt 4)
    /\ dict_get "armed_val" r = Some (VInt 1)
    /\ dict_get "flying_val" r = Some (VInt 1)
    /\ dict_get "height_m" r = Some (VFloat height)
    /\ float_is_ratio height 25 2.
Proof.
  exists [ ("timestamp", VTime 63839700000000000);
           ("flight_mode", VStr "GUIDED");
           ("flight_mode_val", VInt 4);
           ("armed", VStr "armed");
           ("armed_val", VInt 1);
           ("flying", VStr "flying");
           ("flying_val", VInt 1);
           ("height_m", VFloat (PyNum.float_of_decimal false 125 (-1)));
           ("speed_ms", VFloat (PyNum.float_of_decimal false 32 (-1)));
           ("climb_rate_ms", VFloat (PyNum.float_of_decimal false 1 (-1)));
           ("heading_deg", VFloat (PyNum.float_of_decimal false 900 (-1)));
           ("lat_deg", VFloat (PyNum.float_of_decimal false 1852 (-2)));
           ("lon_deg", VFloat (PyNum.float_of_decimal false 7385 (-2))) ],
         (PyNum.float_of_decimal false 125 (-1)).
  split; [vm_compute; reflexivity|].
  split; [reflexivity|]. split; [reflexivity|]. split; [reflexivity|].
  split; [reflexivity|]. split; [reflexivity|].
  vm_compute. reflexivity.
Qed.

(** * The bool_numeric coercion *)

Lemma null_text_lower (v : string) :
  null_text v = true ->
  PyStr.lower v <> "true" /\ PyStr.lower v <> "false".
Proof.
  unfold null_text. intros H.
  apply orb_true_iff in H. destruct H as [H | H].
  - apply orb_true_iff in H. destruct H as [H | H];
      apply String.eqb_eq in H; subst v; split; discriminate.
  - apply String.eqb_eq in H; subst v; split; discriminate.
Qed.

Lemma strip_nil : PyStr.strip "" = "".
Proof. reflexivity. Qed.

(** C7, as the code has it.  On the stripped value the coercion with kind
    bool_numeric is total: the case variants of [true] and [false] give 1
    and 0 without a report, every other value that is not null gives [None]
    with one report of a conversion failure, and the null values (the empty
    text, and [None] and [None,] once stripped) give [None] without one. *)
Theorem C7_bool_numeric_on_stripped_value (value : string) (flag : bool) :
  (PyStr.lower (PyStr.strip value) = "true" ->
   safe_clean_value_w value "bool_numeric" flag = (VInt 1, []))
  /\ (PyStr.lower (PyStr.strip value) = "false" ->
      safe_clean_value_w value "bool_numeric" flag = (VInt 0, []))
  /\ (null_text (PyStr.strip value) = false ->
      PyStr.lower (PyStr.strip value) <> "true" ->
      PyStr.lower (PyStr.strip value) <> "false" ->
      safe_clean_value_w value "bool_numeric" flag
      = (VNone, [("Unexpected boolean value: '" ++ PyStr.strip value ++ "'")%string]))
  /\ (null_text (PyStr.strip value) = true ->
      safe_clean_value_w value "bool_numeric" flag = (VNone, [])).
Proof.
  unfold safe_clean_value_w.
  change (String.eqb "bool_numeric" "string") with false.
  change (String.eqb "bool_numeric" "float") with false.
  change (String.eqb "bool_numeric" "int") with false.
  change (String.eqb "bool_numeric" "bool_numeric") with true.
  cbv iota.
  destruct (String.eqb_spec value "") as [-> | Hne].
  - rewrite strip_nil.
    split; [discriminate|]. split; [discriminate|].
    split; [discriminate|]. reflexivity.
  - destruct (null_text (PyStr.strip value)) eqn:N.
    + destruct (null_text_lower _ N) as [Ht Hf].
      split; [intros; contradiction|]. split; [intros; contradiction|].
      split; [discriminate|]. reflexivity.
    + split; [intros ->; reflexivity|].
      split; [intros H; rewrite H; reflexivity|].
      split; [|discriminate].
      intros _ Ht Hf.
      destruct (String.eqb_spec (PyStr.lower (PyStr.strip value)) "true");
        [contradiction|].
      destruct (String.eqb_spec (PyStr.lower (PyStr.strip value)) "false");
        [contradiction|].
      reflexivity.
Qed.

Lemma C7_witness :
  safe_clean_value_w "TrUe" "bool_numeric" false = (VInt 1, [])
  /\ safe_clean_value_w "FALSE" "bool_numeric" false = (VInt 0, [])
  /\ safe_clean_value_w "yes" "bool_numeric" false
     = (VNone, ["Unexpected boolean value: 'yes'"]).
Proof.
  destruct (C7_bool_numeric_on_stripped_value "TrUe" false) as (H1 & _).
  destruct (C7_bool_numeric_on_stripped_value "FALSE" false) as (_ & H2 & _).
  destruct (C7_bool_numeric_on_stripped_value "yes" false) as (_ & _ & H3 & _).
  split; [apply H1; reflexivity|].
  split; [apply H2; reflexivity|].
  apply H3; [reflexivity | discriminate | discriminate].
Defined.

(** C7, as the claim states it, fails: the text below is not a case variant
    of [true] or [false] and is not null, and the coercion returns 1 without
    a report, because the value is stripped first. *)
Lemma C7_counterexample :
  PyStr.lower " TRUE " <> "true"
  /\ PyStr.lower " TRUE " <> "false"
  /\ safe_clean_value_w " TRUE " "bool_numeric" false = (VInt 1, []).
Proof. repeat split; try discriminate. Qed.

(** * The severity marker *)

Lemma contains_level_strip (level part : string) :
  In level ["INFO"; "WARNING"; "CRITICAL"] ->
  PyStr.contains level (PyStr.strip part) = PyStr.contains level part.
Proof.
  intros [<- | [<- | [<- | []]]]; apply contains_strip;
    solve [reflexivity | discriminate].
Qed.

Lemma has_level_holds (part : string) : has_level part = holds_token part.
Proof.
  unfold has_level, holds_token. cbn [existsb].
  rewrite !contains_level_strip by (cbn [In]; tauto).
  destruct (PyStr.contains "INFO" part);
    destruct (PyStr.contains "WARNING" part);
    destruct (PyStr.contains "CRITICAL" part); reflexivity.
Qed.

Lemma level_of_priority (part : string) :
  holds_token part = true -> level_of part = Some (priority_level part).
Proof.
  unfold holds_token, level_of, priority_level. cbn [List.find].
  rewrite !contains_level_strip by (cbn [In]; tauto).
  destruct (PyStr.contains "WARNING" part); [reflexivity|].
  destruct (PyStr.contains "CRITICAL" part); [reflexivity|].
  destruct (PyStr.contains "INFO" part); [reflexivity|discriminate].
Qed.

(** C9, as the code has it.  The marker is the first comma-delimited field
    that holds one of the three tokens anywhere in it; the severity follows
    the priority WARNING, CRITICAL, INFO among the tokens the field holds;
    and the payload is the fields after it, joined with commas and then
    stripped of blanks at both ends. *)
Theorem C9_severity_marker_by_containment
  (before : list string) (part : string) (rest : list string) :
  Forall (fun p => holds_token p = false) before ->
  holds_token part = true ->
  find_severity (before ++ part :: rest)
  = Some (Some (priority_level part), PyStr.strip (PyStr.join "," rest)).
Proof.
  intros Hbefore Hpart.
  induction Hbefore as [|p before Hp _ IH]; cbn [app find_severity].
  - rewrite has_level_holds, Hpart, (level_of_priority _ Hpart).
    destruct rest; reflexivity.
  - rewrite has_level_holds, Hp. exact IH.
Qed.

Lemma C9_witness :
  find_severity ([""; "drone1"] ++ "MISSION_INFO" :: ["WARNING CRITICAL"; "x"; "y"])
  = Some (Some (priority_level "MISSION_INFO"),
          PyStr.strip (PyStr.join "," ["WARNING CRITICAL"; "x"; "y"])).
Proof.
  apply (C9_severity_marker_by_containment [""; "drone1"] "MISSION_INFO"
           ["WARNING CRITICAL"; "x"; "y"]).
  - repeat constructor.
  - reflexivity.
Defined.

(** C9, as the claim states it, fails on the payload: the fields after the
    marker, joined with commas, begin with a blank, and the payload does
    not. *)
Lemma C9_counterexample :
  find_severity ["drone1"; "INFO"; " FOO_BAR"; "1"] = Some (Some "INFO", "FOO_BAR,1")
  /\ PyStr.join "," [" FOO_BAR"; "1"] = " FOO_BAR,1"
  /\ "FOO_BAR,1" <> PyStr.join "," [" FOO_BAR"; "1"].
Proof. repeat split. discriminate. Qed.

(** * The SnALogging decoder *)

Section Dict.
Implicit Types (d : record) (k : string) (v : pyval).

Lemma dict_get_set_eq k v d : dict_get k (dict_set k v d) = Some v.
Proof.
  induction d as [|[k' v'] d IH]; cbn [dict_set dict_get].
  - now rewrite String.eqb_refl.
  - destruct (String.eqb k k') eqn:E; cbn [dict_get].
    + now rewrite String.eqb_refl.
    + rewrite E. exact IH.
Qed.



End Dict.

Section SnaLogging.
Implicit Types (r : record) (k : string).









End SnaLogging.

(** A payload that starts with [SnALogging,] takes the SnALogging branch
    unless one of the two containment tests placed before it accepts the
    payload. *)
Lemma select_branch_sna_logging (log_content : string) :
  PyStr.startswith "SnALogging," log_content = true ->
  PyStr.contains "MAX_SPEED_ESTI" log_content
  && PyStr.contains "Calculated max speed" log_content = false ->
  PyStr.contains "MAVLINK ACTIVE_MAVLINK_PORT is :" log_content = false ->
  select_branch log_content = B_SNA_LOGGING.
Proof.
  intros Hs H1 H2. unfold select_branch. cbv zeta. rewrite H1, H2.
  apply prefix_split in Hs. rewrite Hs.
  generalize (PyStr.drop (String.length "SnALogging,") log_content).
  intros rest. unfold PyStr.startswith.
  destruct rest; vm_compute; reflexivity.
Qed.





(** * The list parser *)






(** A text that [int()] accepts is accepted by [float()] before it, so the
    [int] fallback of [parse_list_values] never decides an element. *)
Lemma list_element_never_int (part : string) :
  PyNum.float_of_string part = None -> PyNum.int_of_string part = None.
Proof.
  unfold PyNum.float_of_string, PyNum.int_of_string.
  destruct (PyNum.drop_underscores None (PyStr.strip_by PyStr.c_isspace part))
    as [t|]; [|reflexivity].
  destruct (PyNum.read_sign t) as [neg body].
  destruct (PyStr.is_empty body) eqn:E; [reflexivity|].
  destruct (PyNum.all_digits body) eqn:D; [|reflexivity].
  cbn [negb andb].
  destruct (String.eqb (PyStr.lower body) "inf" || String.eqb (PyStr.lower body) "infinity");
    [discriminate|].
  destruct (String.eqb (PyStr.lower body) "nan"); [discriminate|].
  assert (Sp : PyStr.span PyStr.isdigit body = (body, "")).
  { clear E. induction body as [|c body IH]; [reflexivity|].
    cbn [PyNum.all_digits] in D. apply andb_true_iff in D. destruct D as [Dc D].
    cbn [PyStr.span]. rewrite Dc, (IH D). reflexivity. }
  rewrite Sp. rewrite E. cbn [andb PyNum.read_exponent]. discriminate.
Qed.

(** * More facts about text *)

Section MoreText.
Import PyStr.
Implicit Types (s t w : string) (c : ascii) (sp : ascii -> bool).

Lemma lstrip_by_prepend_blank sp w s :
  all_chars sp w = true -> lstrip_by sp (w ++ s)%string = lstrip_by sp s.
Proof.
  induction w as [|c w IH]; [reflexivity|]. cbn [all_chars]. intros H.
  apply andb_true_iff in H. destruct H as [Hc Hw].
  rewrite append_cons. cbn [lstrip_by]. rewrite Hc. now apply IH.
Qed.

Lemma strip_by_blanks_around sp w1 s w2 :
  all_chars sp w1 = true -> all_chars sp w2 = true ->
  strip_by sp (w1 ++ s ++ w2)%string = strip_by sp s.
Proof.
  intros H1 H2. unfold strip_by. rewrite (lstrip_by_prepend_blank _ _ _ H1).
  exact (strip_by_append_blank sp s w2 H2).
Qed.

Lemma rstrip_by_cons sp c s :
  rstrip_by sp (String c s)
  = match rstrip_by sp s with
    | EmptyString => if sp c then EmptyString else String c EmptyString
    | r => String c r
    end.
Proof. reflexivity. Qed.

Lemma rstrip_by_idem sp s : rstrip_by sp (rstrip_by sp s) = rstrip_by sp s.
Proof.
  induction s as [|c s IH]; [reflexivity|]. rewrite rstrip_by_cons.
  destruct (rstrip_by sp s) as [|b r] eqn:E.
  - destruct (sp c) eqn:C; [reflexivity|]. rewrite rstrip_by_cons. cbn [rstrip_by].
    now rewrite C.
  - rewrite rstrip_by_cons, IH. reflexivity.
Qed.

Lemma lstrip_by_head sp s c r : lstrip_by sp s = String c r -> sp c = false.
Proof.
  induction s as [|a s IH]; [discriminate|]. cbn [lstrip_by].
  destruct (sp a) eqn:A; [exact IH|]. intros H. inversion H. now subst.
Qed.

Lemma rstrip_by_keeps_head sp s c r :
  rstrip_by sp s = String c r -> exists r', s = String c r'.
Proof.
  destruct s as [|a s]; [discriminate|]. rewrite rstrip_by_cons.
  destruct (rstrip_by sp s); [destruct (sp a)|]; intros H; inversion H; eauto.
Qed.

Lemma strip_by_head sp s c r : strip_by sp s = String c r -> sp c = false.
Proof.
  unfold strip_by. intros H. apply rstrip_by_keeps_head in H as [r' H].
  now apply lstrip_by_head in H.
Qed.

Lemma strip_by_idem sp s : strip_by sp (strip_by sp s) = strip_by sp s.
Proof.
  destruct (strip_by sp s) as [|c r] eqn:E; [reflexivity|].
  pose proof (strip_by_head _ _ _ _ E) as C.
  unfold strip_by at 1. cbn [lstrip_by]. rewrite C.
  rewrite <- E. unfold strip_by. apply rstrip_by_idem.
Qed.

Lemma strip_idem s : strip (strip s) = strip s.
Proof. apply strip_by_idem. Qed.

Lemma strip_blanks_around w1 s w2 :
  all_chars isspace w1 = true -> all_chars isspace w2 = true ->
  strip (w1 ++ s ++ w2)%string = strip s.
Proof. apply strip_by_blanks_around. Qed.

Lemma lower_chr_idem c : lower_chr (lower_chr c) = lower_chr c.
Proof. destruct c as [[] [] [] [] [] [] [] []]; reflexivity. Qed.

Lemma map_str_compose (f g : ascii -> ascii) s :
  map_str f (map_str g s) = map_str (fun c => f (g c)) s.
Proof. induction s as [|c s IH]; [reflexivity|]. cbn [map_str]. now rewrite IH. Qed.

Lemma map_str_ext (f g : ascii -> ascii) s :
  (forall c, f c = g c) -> map_str f s = map_str g s.
Proof.
  intros H. induction s as [|c s IH]; [reflexivity|]. cbn [map_str].
  now rewrite H, IH.
Qed.

Lemma map_str_append (f : ascii -> ascii) s t :
  map_str f (s ++ t)%string = (map_str f s ++ map_str f t)%string.
Proof.
  induction s as [|c s IH]; [reflexivity|].
  rewrite append_cons. cbn [map_str]. rewrite append_cons. now rewrite IH.
Qed.

Lemma lower_idem s : lower (lower s) = lower s.
Proof.
  unfold lower. rewrite map_str_compose. apply map_str_ext, lower_chr_idem.
Qed.

Lemma prefix_append_r p s t :
  String.prefix p s = true -> String.prefix p (s ++ t)%string = true.
Proof.
  revert s. induction p as [|a p IH]; intros s H; [apply prefix_nil|].
  destruct s as [|b s]; [discriminate|].
  rewrite append_cons. rewrite prefix_cons in *.
  destruct (ascii_dec a b); [now apply IH|discriminate].
Qed.

Lemma contains_cons pat c s :
  contains pat (String c s) = String.prefix pat (String c s) || contains pat s.
Proof. reflexivity. Qed.

Lemma contains_append_r pat s t :
  contains pat s = true -> contains pat (s ++ t)%string = true.
Proof.
  induction s as [|c s IH]; intros H.
  - cbn [contains] in H. rewrite orb_false_r in H. destruct pat; [|discriminate].
    destruct t; reflexivity.
  - rewrite append_cons, contains_cons. rewrite contains_cons in H.
    apply orb_true_iff in H. apply orb_true_iff. destruct H as [H|H].
    + left. rewrite <- append_cons. now apply prefix_append_r.
    + right. now apply IH.
Qed.

Lemma contains_append_l pat s t :
  contains pat t = true -> contains pat (s ++ t)%string = true.
Proof.
  intros H. induction s as [|c s IH]; [exact H|].
  rewrite append_cons, contains_cons, IH. apply orb_true_r.
Qed.

(** *** [split] and [join] for a separator of one character *)

Lemma split_go_cons (a : ascii) (k : option nat) c s :
  split_go (String a "") k 0 (String c s)
  = if may_split k && Ascii.eqb a c
    then "" :: split_go (String a "") (one_less k) 0 s
    else cons_head c (split_go (String a "") k 0 s).
Proof.
  cbn [split_go String.length Nat.sub]. rewrite prefix_cons.
  destruct (ascii_dec a c) as [->|Hne].
  - rewrite prefix_nil, Ascii.eqb_refl. reflexivity.
  - destruct (Ascii.eqb_spec a c); [congruence|reflexivity].
Qed.

Lemma split_go_nonempty (a : ascii) (k : option nat) s :
  split_go (String a "") k 0 s <> [].
Proof.
  destruct s as [|c s]; [discriminate|]. rewrite split_go_cons.
  destruct (may_split k && Ascii.eqb a c); [discriminate|].
  unfold cons_head. destruct (split_go (String a "") k 0 s); discriminate.
Qed.

Lemma concat_cons_head sep c (l : list string) :
  l <> [] -> String.concat sep (cons_head c l) = String c (String.concat sep l).
Proof. destruct l as [|p [|q l]]; [congruence| |]; intros _; reflexivity. Qed.

Lemma concat_nil_cons sep (l : list string) :
  l <> [] -> String.concat sep ("" :: l) = (sep ++ String.concat sep l)%string.
Proof. destruct l; [congruence|reflexivity]. Qed.

Lemma concat_cons sep p (l : list string) :
  l <> [] -> String.concat sep (p :: l) = (p ++ sep ++ String.concat sep l)%string.
Proof. destruct l; [congruence|reflexivity]. Qed.

Lemma join_split_go (a : ascii) s : forall k,
  join (String a "") (split_go (String a "") k 0 s) = s.
Proof.
  unfold join. induction s as [|c s IH]; intros k; [reflexivity|].
  rewrite split_go_cons. destruct (may_split k && Ascii.eqb a c) eqn:E.
  - rewrite concat_nil_cons by apply split_go_nonempty. rewrite IH.
    apply andb_true_iff in E. destruct E as [_ E].
    apply Ascii.eqb_eq in E. subst. reflexivity.
  - rewrite concat_cons_head by apply split_go_nonempty. now rewrite IH.
Qed.

Lemma split_parts_free (a : ascii) s :
  Forall (fun p => sp_free (Ascii.eqb a) p = true) (split (String a "") s).
Proof.
  unfold split. induction s as [|c s IH]; [repeat constructor|].
  rewrite split_go_cons. cbn [may_split andb].
  destruct (Ascii.eqb a c) eqn:E; [constructor; [reflexivity|exact IH]|].
  pose proof (split_go_nonempty a None s) as N.
  destruct (split_go (String a "") None 0 s) as [|p ps]; [congruence|].
  inversion IH; subst. cbn [cons_head]. constructor; [|assumption].
  cbn [sp_free]. rewrite E. assumption.
Qed.

Lemma split_free (a : ascii) p :
  sp_free (Ascii.eqb a) p = true -> split (String a "") p = [p].
Proof.
  unfold split. induction p as [|c p IH]; [reflexivity|]. cbn [sp_free]. intros H.
  apply andb_true_iff in H. destruct H as [Hc Hp].
  rewrite split_go_cons, (IH Hp). cbn [may_split andb].
  apply negb_true_iff in Hc. rewrite Hc. reflexivity.
Qed.

Lemma split_append_free (a : ascii) p t :
  sp_free (Ascii.eqb a) p = true ->
  split (String a "") (p ++ String a t)%string = p :: split (String a "") t.
Proof.
  unfold split. induction p as [|c p IH]; cbn [sp_free]; intros H.
  - rewrite append_nil_l, split_go_cons. cbn [may_split andb one_less].
    now rewrite Ascii.eqb_refl.
  - apply andb_true_iff in H. destruct H as [Hc Hp].
    rewrite append_cons, split_go_cons, (IH Hp). cbn [may_split andb].
    apply negb_true_iff in Hc. rewrite Hc. reflexivity.
Qed.

Lemma split_join (a : ascii) (l : list string) :
  l <> [] -> Forall (fun p => sp_free (Ascii.eqb a) p = true) l ->
  split (String a "") (join (String a "") l) = l.
Proof.
  unfold join. induction l as [|p l IH]; [congruence|]. intros _ F.
  inversion F as [|? ? Hp Hl]; subst.
  destruct l as [|q l]; [now apply split_free|].
  rewrite concat_cons by discriminate. rewrite append_cons, append_nil_l.
  rewrite (split_append_free _ _ _ Hp). f_equal. apply IH; [discriminate|assumption].
Qed.

End MoreText.

(** * Every record opens with the timestamp of its line *)

Section Stamped.
Implicit Types (r : record) (k : string).

Lemma dict_set_stamped timestamp k v r :
  String.eqb "timestamp" k = false ->
  stamped timestamp r -> stamped timestamp (dict_set k v r).
Proof.
  intros E [fields ->]. cbn [dict_set]. rewrite String.eqb_sym, E.
  eexists; reflexivity.
Qed.

Lemma expand_stamped timestamp field_name n values r :
  existsb (fun j => String.eqb "timestamp" (column field_name j)) (seq 1 n) = false ->
  stamped timestamp r -> stamped timestamp (expand field_name n values r).
Proof.
  unfold expand. generalize (seq 1 n). intros js. revert r.
  induction js as [|j js IH]; intros r H S; [exact S|].
  cbn [existsb] in H. apply orb_false_iff in H. destruct H as [Hj Hjs].
  cbn [fold_left]. apply IH; [exact Hjs|]. now apply dict_set_stamped.
Qed.

Lemma sna_field_stamped timestamp r field_name present :
  sna_writes field_name "timestamp" = false ->
  stamped timestamp r -> stamped timestamp (sna_field r field_name present).
Proof.
  unfold sna_writes, sna_field. intros H S.
  destruct (assoc field_name multi_value_fields_data) as [n|] eqn:A.
  - destruct present as [raw|]; [|now apply expand_stamped].
    destruct (_ || _); [now apply expand_stamped|].
    destruct (mem field_name array_fields);
      [apply dict_set_stamped|apply expand_stamped]; try assumption.
    unfold multi_value_fields_data in A. cbn [assoc] in A.
    destruct (String.eqb_spec field_name "obstacle_sector") as [->|];
      [reflexivity|].
    destruct (String.eqb_spec field_name "obstacle_buffer") as [->|];
      [reflexivity|discriminate].
  - destruct present as [raw|].
    + destruct (_ || _).
      * destruct (mem field_name array_fields); now apply dict_set_stamped.
      * destruct (mem field_name array_fields); [now apply dict_set_stamped|].
        destruct (mem field_name boolean_fields); [now apply dict_set_stamped|].
        destruct (mem field_name numeric_string_fields);
          [now apply dict_set_stamped|].
        destruct (String.eqb field_name "flight_mode");
          now apply dict_set_stamped.
    + destruct (mem field_name array_fields); now apply dict_set_stamped.
Qed.

Lemma sna_fields_stamped timestamp names : forall i pipe_parts r,
  forallb (fun name => negb (sna_writes name "timestamp")) names = true ->
  stamped timestamp r -> stamped timestamp (sna_fields names i pipe_parts r).
Proof.
  induction names as [|name names IH]; intros i pipe_parts r H S; [exact S|].
  cbn [forallb] in H. apply andb_true_iff in H. destruct H as [Hn Hs].
  cbn [sna_fields]. apply IH; [exact Hs|].
  apply sna_field_stamped; [now apply negb_true_iff|exact S].
Qed.

(** The keys that [parse_cpu_info] may assign. *)
Lemma dict_set_keys (Q : string -> Prop) k v r :
  Q k -> Forall (fun kv => Q (fst kv)) r ->
  Forall (fun kv => Q (fst kv)) (dict_set k v r).
Proof.
  intros Hk. induction r as [|[k' v'] r IH]; intros F.
  - repeat constructor. exact Hk.
  - inversion F; subst. cbn [dict_set]. destruct (String.eqb k k').
    + constructor; assumption.
    + constructor; [assumption|now apply IH].
Qed.

Lemma set_if_found_keys (Q : string -> Prop) key m conv r r' :
  Q key -> Forall (fun kv => Q (fst kv)) r ->
  set_if_found key m conv r = Some r' ->
  Forall (fun kv => Q (fst kv)) r'.
Proof.
  intros Hk F. unfold set_if_found. destruct m as [g|].
  - destruct (conv g) as [v|]; cbn; intros H; inversion H; subst.
    now apply dict_set_keys.
  - intros H; inversion H; now subst.
Qed.

Lemma parse_cpu_info_keys (Q : string -> Prop) data_part r :
  Q "cpu_usage_percent" -> Q "ram_usage_mb" -> Q "load_avg_1min" ->
  Q "load_avg_5min" -> Q "load_avg_15min" -> Q "temp_celsius" ->
  parse_cpu_info data_part = Some r ->
  Forall (fun kv => Q (fst kv)) r.
Proof.
  intros Q1 Q2 Q3 Q4 Q5 Q6. unfold parse_cpu_info.
  destruct (set_if_found "cpu_usage_percent" _ _ _) as [r1|] eqn:E1;
    [|discriminate].
  apply (set_if_found_keys Q) in E1; [|assumption|constructor].
  cbn [mbind option_bind].
  destruct (set_if_found "ram_usage_mb" _ _ _) as [r2|] eqn:E2; [|discriminate].
  apply (set_if_found_keys Q) in E2; [|assumption|assumption].
  cbn [mbind option_bind].
  match goal with
  | |- context [mbind _ ?o] => destruct o as [r3|] eqn:E3; [|discriminate]
  end.
  assert (F3 : Forall (fun kv => Q (fst kv)) r3).
  { destruct (Re.search_run "Load : (" _ _ _) as [g|].
    - destruct (floats_of _) as [loads|]; [|discriminate].
      cbn [mbind option_bind] in E3. inversion E3; subst.
      repeat apply dict_set_keys; assumption.
    - inversion E3; now subst. }
  cbn [mbind option_bind].
  destruct (Re.search_run "Temp: " _ _ _) as [g|].
  - destruct (py_float g) as [v|]; [|discriminate].
    cbn [mbind option_bind]. intros H. inversion H; subst.
    now apply dict_set_keys.
  - intros H. inversion H; subst. now apply dict_set_keys.
Qed.

Lemma dict_update_stamped timestamp r e :
  Forall (fun kv => String.eqb "timestamp" (fst kv) = false) e ->
  stamped timestamp r -> stamped timestamp (dict_update r e).
Proof.
  unfold dict_update. revert r.
  induction e as [|[k v] e IH]; intros r F S; [exact S|].
  inversion F; subst. cbn [fold_left]. apply IH; [assumption|].
  now apply dict_set_stamped.
Qed.

Lemma decode_cpu_stamped timestamp log_content r :
  decode_cpu timestamp log_content = Some r -> stamped timestamp r.
Proof.
  unfold decode_cpu.
  destruct (parse_cpu_info log_content) as [cpu_data|] eqn:E; [|discriminate].
  cbn [mbind option_bind].
  apply (parse_cpu_info_keys (fun k => String.eqb "timestamp" k = false)) in E;
    try reflexivity.
  destruct cpu_data as [|kv rest] eqn:C; [discriminate|].
  rewrite <- C in *. intros [= <-].
  apply dict_update_stamped; [exact E|]. eexists; reflexivity.
Qed.

Lemma decode_sna_logging_stamped timestamp log_content r :
  decode_sna_logging timestamp log_content = Some r -> stamped timestamp r.
Proof.
  unfold decode_sna_logging.
  destruct (PyStr.contains _ _); [discriminate|].
  destruct (_ <=? _)%nat; [|discriminate].
  intros H.
  replace r with (sna_fields field_names 0 (sna_pipe_parts log_content)
                    [("timestamp", VTime timestamp)]) by congruence.
  apply sna_fields_stamped; [vm_compute; reflexivity|]. eexists; reflexivity.
Qed.

End Stamped.

(** * What one line does to the record store *)

Section OneLine.
Implicit Types (log_data : gmap string (list record)).

Ltac stamp :=
  repeat first
    [ discriminate
    | progress cbn [mbind option_bind]
    | match goal with
      | |- Some _ = Some ?r -> stamped _ ?r =>
          let H := fresh in
          intros H; apply (inj Some) in H; rewrite <- H; eexists; reflexivity
      | |- match ?o with _ => _ end = Some _ -> _ => destruct o
      | |- mbind _ ?o = Some _ -> _ => destruct o
      end ].

Lemma decoders_stamped timestamp log_content r :
  (decode_mission_info timestamp log_content = Some r -> stamped timestamp r)
  /\ (decode_rc_channels timestamp log_content = Some r -> stamped timestamp r)
  /\ (decode_resume_state timestamp log_content = Some r -> stamped timestamp r)
  /\ (decode_serial_tcp_con timestamp log_content = Some r -> stamped timestamp r)
  /\ (decode_vehicle_command timestamp log_content = Some r -> stamped timestamp r)
  /\ (decode_schedulertask timestamp log_content = Some r -> stamped timestamp r)
  /\ (decode_key_value timestamp log_content = Some r -> stamped timestamp r)
  /\ (decode_ap_parameter_tiny timestamp log_content = Some r -> stamped timestamp r)
  /\ (decode_ga_get_param timestamp log_content = Some r -> stamped timestamp r)
  /\ (decode_mavlink_info timestamp log_content = Some r -> stamped timestamp r)
  /\ (decode_max_speed_esti timestamp log_content = Some r -> stamped timestamp r)
  /\ (decode_mavlink_active_port timestamp log_content = Some r ->
      stamped timestamp r)
  /\ (decode_version timestamp log_content = Some r -> stamped timestamp r)
  /\ (decode_sna_version timestamp log_content = Some r -> stamped timestamp r)
  /\ (decode_sna_receiving_data timestamp log_content = Some r ->
      stamped timestamp r)
  /\ (decode_sna_info timestamp log_content = Some r -> stamped timestamp r)
  /\ (decode_guided timestamp log_content = Some r -> stamped timestamp r)
  /\ stamped timestamp (decode_resume timestamp log_content)
  /\ (decode_cc_parameter_perf timestamp log_content = Some r ->
      stamped timestamp r)
  /\ (decode_cc_parameter_db_perf timestamp log_content = Some r ->
      stamped timestamp r)
  /\ (decode_mission_state_changed timestamp log_content = Some r ->
      stamped timestamp r)
  /\ (decode_spray_info timestamp log_content = Some r -> stamped timestamp r)
  /\ (decode_flowmeter timestamp log_content = Some r -> stamped timestamp r)
  /\ (decode_flowmeter_info timestamp log_content = Some r -> stamped timestamp r)
  /\ (decode_pump timestamp log_content = Some r -> stamped timestamp r)
  /\ (decode_nozzle timestamp log_content = Some r -> stamped timestamp r)
  /\ (decode_boundary_intr timestamp log_content = Some r -> stamped timestamp r).
Proof.
  split; [unfold decode_mission_info; stamp|].
  split; [unfold decode_rc_channels; stamp|].
  split; [unfold decode_resume_state; stamp|].
  split; [unfold decode_serial_tcp_con; stamp|].
  split; [unfold decode_vehicle_command; stamp|].
  split; [unfold decode_schedulertask; stamp|].
  split; [unfold decode_key_value; stamp|].
  split; [unfold decode_ap_parameter_tiny; stamp|].
  split; [unfold decode_ga_get_param; stamp|].
  split; [unfold decode_mavlink_info; stamp|].
  split; [unfold decode_max_speed_esti; stamp|].
  split; [unfold decode_mavlink_active_port; stamp|].
  split; [unfold decode_version, version_record; stamp|].
  split; [unfold decode_sna_version, version_record; stamp|].
  split; [unfold decode_sna_receiving_data; stamp|].
  split; [unfold decode_sna_info; stamp|].
  split; [unfold decode_guided; stamp|].
  split.
  { unfold decode_resume. destruct (resume_split log_content) as [mt rd].
    match goal with
    | |- stamped _ (let '(_, _) := ?p in _) => destruct p
    end.
    eexists; reflexivity. }
  split; [unfold decode_cc_parameter_perf; stamp|].
  split; [unfold decode_cc_parameter_db_perf; stamp|].
  split; [unfold decode_mission_state_changed; stamp|].
  split; [unfold decode_spray_info; stamp|].
  split; [unfold decode_flowmeter; stamp|].
  split; [unfold decode_flowmeter_info; stamp|].
  split; [unfold decode_pump; stamp|].
  split; [unfold decode_nozzle; stamp|].
  unfold decode_boundary_intr; stamp.
Qed.

Lemma run_branch_shape b timestamp log_content added log_data :
  exists category o,
    category <> "ERROR" /\ In category categories
    /\ (forall r, o = Some r -> stamped timestamp r)
    /\ forall c, c <> "ERROR" ->
         records c (run_branch b timestamp log_content added log_data)
         = records c (emit category o log_data).
Proof.
  pose proof (decoders_stamped timestamp log_content) as D.
  pose proof (decode_cpu_stamped timestamp log_content) as D1.
  pose proof (decode_sna_logging_stamped timestamp log_content) as D2.
  destruct b; cbv beta iota zeta delta [run_branch];
    try (match goal with |- context [emit ?c ?o log_data] => exists c, o end;
         split; [discriminate|];
         split; [unfold categories; cbn [In];
                 repeat (first [left; reflexivity | right])|];
         split; [intros r Hr; first [now apply D1 | now apply D2
                                    | pose proof (D r) as Dr; tauto]
                |intros; reflexivity]).
  - (* CC_PARAMETER *)
    exists "CC_PARAMETER",
      (if cc_is_error log_content then None
       else decode_key_value timestamp log_content).
    split; [discriminate|].
    split; [unfold categories; cbn [In];
            repeat (first [left; reflexivity | right])|].
    split.
    + intros r Hr. destruct (cc_is_error log_content); [discriminate|].
      pose proof (D r) as Dr; tauto.
    + intros c Hc. destruct (cc_is_error log_content); [|reflexivity].
      cbn [emit]. now apply records_flag_error_ne.
  - (* RESUME *)
    exists "RESUME_MISSION", (Some (decode_resume timestamp log_content)).
    split; [discriminate|].
    split; [unfold categories; cbn [In];
            repeat (first [left; reflexivity | right])|].
    split.
    + intros r [= <-]. pose proof (D []) as Dr; tauto.
    + intros c Hc. cbn [emit].
      match goal with |- context [if ?t then _ else _] => destruct t end;
        [now apply records_flag_error_ne|reflexivity].
  - (* OTHER *)
    exists "OTHER",
      (Some [ ("timestamp", VTime timestamp); ("log_content", VStr log_content) ]).
    split; [discriminate|].
    split; [unfold categories; cbn [In];
            repeat (first [left; reflexivity | right])|].
    split.
    + intros r [= <-]. eexists; reflexivity.
    + intros c Hc. cbn [emit].
      destruct (is_error_message log_content);
        [now apply records_flag_error_ne|reflexivity].
Qed.

Lemma records_emit c category o log_data :
  records c (emit category o log_data)
  = records c log_data ++ (if String.eqb c category then rows_of o else []).
Proof.
  destruct o as [r|]; cbn [emit rows_of].
  - destruct (String.eqb_spec c category) as [->|N].
    + apply records_append_eq.
    + rewrite records_append_ne by assumption. now rewrite app_nil_r.
  - destruct (String.eqb c category); now rewrite app_nil_r.
Qed.

Lemma decode_line_shape timestamp severity_level log_content log_data :
  exists category o,
    category <> "ERROR" /\ In category categories
    /\ (forall r, o = Some r -> stamped timestamp r)
    /\ forall c, c <> "ERROR" ->
         records c (decode_line timestamp severity_level log_content log_data)
         = records c log_data
           ++ (if String.eqb c category then rows_of o else []).
Proof.
  unfold decode_line.
  destruct (run_branch_shape (select_branch log_content) timestamp log_content
              (is_alarm severity_level)
              (if is_alarm severity_level
               then append_to_error_log timestamp log_content log_data
               else log_data)) as (category & o & N & I & S & R).
  exists category, o. repeat (split; [assumption|]).
  intros c Hc. rewrite (R c Hc), records_emit. f_equal.
  destruct (is_alarm severity_level); [|reflexivity].
  now apply records_error_append_ne.
Qed.

Lemma segment_decodable now offset line timestamp severity_level log_content :
  segment now offset line = Decodable timestamp severity_level log_content ->
  exists ts_str after,
    Re.match_timestamp (PyStr.strip line) = Some (ts_str, after)
    /\ parse_timestamp now ts_str offset = Some timestamp
    /\ find_severity (PyStr.split "," (PyStr.strip after))
       = Some (severity_level, log_content)
    /\ log_content <> "".
Proof.
  unfold segment. destruct (PyStr.is_empty (PyStr.strip line)); [discriminate|].
  destruct (Re.match_timestamp (PyStr.strip line)) as [[ts_str after]|] eqn:M;
    [|discriminate].
  destruct (parse_timestamp now ts_str offset) as [t|] eqn:P; [|discriminate].
  destruct (find_severity _) as [[sev lc]|] eqn:F; [|discriminate].
  destruct (PyStr.is_empty lc) eqn:E; [discriminate|].
  intros [= <- <- <-]. exists ts_str, after.
  split; [reflexivity|]. split; [exact P|]. split; [exact F|].
  intros ->. discriminate.
Qed.

Lemma parse_timestamp_in_range now ts_str offset timestamp :
  parse_timestamp now ts_str offset = Some timestamp ->
  Datetime.in_range timestamp = true.
Proof.
  unfold parse_timestamp, Datetime.add.
  match goal with |- context [Datetime.in_range ?t] =>
    destruct (Datetime.in_range t) eqn:E end; [|discriminate].
  intros [= <-]. exact E.
Qed.

Lemma records_empty c : records c empty_log_data = [].
Proof.
  unfold records. rewrite lookup_total_alt.
  destruct (empty_log_data !! c) as [rows|] eqn:E; [|reflexivity].
  unfold empty_log_data in E. apply elem_of_list_to_map_2 in E.
  apply list_elem_of_In, in_map_iff in E. destruct E as (x & [= _ <-] & _).
  reflexivity.
Qed.

End OneLine.

(** * Invariants of the scan *)

Section ScanInvariants.
Implicit Types (log_data : gmap string (list record)).

Lemma decode_line_append_only timestamp severity_level log_content log_data c :
  exists added,
    records c (decode_line timestamp severity_level log_content log_data)
    = records c log_data ++ added.
Proof.
  destruct (String.eqb_spec c "ERROR") as [->|N].
  - destruct (decode_line_error timestamp severity_level log_content log_data)
      as [_ [E | [content E]]].
    + exists []. now rewrite app_nil_r.
    + rewrite E, records_error_append.
      destruct (records "ERROR" log_data) as [|r rows].
      * now exists [error_header; error_separator; error_entry timestamp content].
      * now exists [error_entry timestamp content].
  - destruct (decode_line_shape timestamp severity_level log_content log_data)
      as (category & o & _ & _ & _ & R).
    rewrite (R c N). eauto.
Qed.

Lemma process_line_append_only now offset line log_data log_data' c :
  process_line now offset line log_data = Some log_data' ->
  exists added, records c log_data' = records c log_data ++ added.
Proof.
  unfold process_line. destruct (segment now offset line) as [| |t sev lc].
  - intros [= <-]. exists []. now rewrite app_nil_r.
  - discriminate.
  - intros [= <-]. apply decode_line_append_only.
Qed.



(** Only the categories [log_data] is created with ever hold rows. *)
Lemma decode_line_categories timestamp severity_level log_content log_data :
  (forall c, records c log_data <> [] -> In c categories) ->
  forall c,
    records c (decode_line timestamp severity_level log_content log_data) <> [] ->
    In c categories.
Proof.
  intros I c. destruct (String.eqb_spec c "ERROR") as [->|N].
  - intros _. unfold categories. cbn [In].
    repeat (first [left; reflexivity | right]).
  - destruct (decode_line_shape timestamp severity_level log_content log_data)
      as (category & o & _ & C & _ & R).
    rewrite (R c N). destruct (String.eqb_spec c category) as [->|_];
      [intros _; exact C|].
    rewrite app_nil_r. apply I.
Qed.

Lemma scan_categories clock offset lines : forall line_num log_data log_data',
  (forall c, records c log_data <> [] -> In c categories) ->
  scan clock offset line_num lines log_data = Some log_data' ->
  forall c, records c log_data' <> [] -> In c categories.
Proof.
  induction lines as [|line lines IH]; intros line_num log_data log_data' I.
  - now intros [= <-].
  - cbn [scan]. unfold process_line.
    destruct (segment (clock line_num) offset line) as [| |t sev lc];
      [now apply IH|discriminate|].
    apply IH. now apply decode_line_categories.
Qed.

Lemma dataframes_keys log_data :
  map fst (dataframes log_data)
  = List.filter (fun c => negb (List.length (records c log_data) =? 0)%nat)
      categories.
Proof.
  unfold dataframes. induction categories as [|c cs IH]; [reflexivity|].
  cbn [map List.filter].
  destruct (negb (List.length (records c log_data) =? 0)%nat);
    cbn [map fst]; now rewrite IH.
Qed.

End ScanInvariants.

(** X1.  The scan only appends: whatever a category holds before a run of
    lines is a prefix of what it holds after it, so no later line, decodable
    or not, removes or rewrites a row made earlier. *)
Theorem scan_only_appends (clock : nat -> Z) (offset : Z) (lines : list string) :
  forall (line_num : nat) (log_data log_data' : gmap string (list record)),
    scan clock offset line_num lines log_data = Some log_data' ->
    forall c, exists added, records c log_data' = records c log_data ++ added.
Proof.
  induction lines as [|line lines IH]; intros line_num log_data log_data'.
  - intros [= <-] c. exists []. now rewrite app_nil_r.
  - cbn [scan].
    destruct (process_line (clock line_num) offset line log_data)
      as [log_data1|] eqn:P; [|discriminate].
    intros H c. destruct (IH _ _ _ H c) as [added2 E2].
    destruct (process_line_append_only _ _ _ _ _ c P) as [added1 E1].
    exists (added1 ++ added2). now rewrite E2, E1, app_assoc.
Qed.

Lemma scan_only_appends_witness :
  exists added,
    records "ERROR"
      (decode_line 63839700001000000 (Some "INFO") "link lost"
         (decode_line 63839700000000000 (Some "WARNING")
            "CC_PARAMETER, speed_limit, 5.0" empty_log_data))
    = records "ERROR" empty_log_data ++ added.
Proof.
  refine (scan_only_appends (fun _ => 0%Z) 0
           [ "2024-01-01 10:00:00.000,drone1,WARNING,CC_PARAMETER, speed_limit, 5.0";
             "2024-01-01 10:00:01.000,drone1,INFO,link lost" ] 1 empty_log_data
           _ _ "ERROR").
  cbn [scan]. unfold process_line.
  replace (segment 0 0
             "2024-01-01 10:00:00.000,drone1,WARNING,CC_PARAMETER, speed_limit, 5.0")
    with (Decodable 63839700000000000 (Some "WARNING")
            "CC_PARAMETER, speed_limit, 5.0") by (vm_compute; reflexivity).
  replace (segment 0 0 "2024-01-01 10:00:01.000,drone1,INFO,link lost")
    with (Decodable 63839700001000000 (Some "INFO") "link lost")
    by (vm_compute; reflexivity).
  reflexivity.
Defined.

(** X2.  A decodable line feeds one category: apart from the ERROR stream,
    the store changes in at most one category, which is one of those
    [log_data] is created with, by at most one row, and that row opens with
    the normalized timestamp of the line. *)
Theorem line_feeds_one_category
  (now offset : Z) (line : string) (timestamp : Z)
  (severity_level : option string) (log_content : string)
  (log_data : gmap string (list record)) :
  segment now offset line = Decodable timestamp severity_level log_content ->
  exists log_data' category o,
    process_line now offset line log_data = Some log_data'
    /\ category <> "ERROR" /\ In category categories
    /\ (forall r, o = Some r -> stamped timestamp r)
    /\ forall c, c <> "ERROR" ->
         records c log_data'
         = records c log_data
           ++ (if String.eqb c category then rows_of o else []).
Proof.
  intros Sg. unfold process_line. rewrite Sg.
  destruct (decode_line_shape timestamp severity_level log_content log_data)
    as (category & o & N & C & S & R).
  exists (decode_line timestamp severity_level log_content log_data), category, o.
  split; [reflexivity|]. repeat (split; [assumption|]). exact R.
Qed.

Lemma line_feeds_one_category_witness :
  exists log_data' category o,
    process_line 0 0
      "2024-01-01 10:00:00.000,drone1,WARNING,CC_PARAMETER, speed_limit, 5.0"
      empty_log_data = Some log_data'
    /\ category <> "ERROR" /\ In category categories
    /\ (forall r, o = Some r -> stamped 63839700000000000 r)
    /\ forall c, c <> "ERROR" ->
         records c log_data'
         = records c empty_log_data
           ++ (if String.eqb c category then rows_of o else []).
Proof.
  apply (line_feeds_one_category 0 0
           "2024-01-01 10:00:00.000,drone1,WARNING,CC_PARAMETER, speed_limit, 5.0"
           63839700000000000 (Some "WARNING") "CC_PARAMETER, speed_limit, 5.0"
           empty_log_data).
  vm_compute. reflexivity.
Defined.



(** X4.  The result of [parse_log_file] loses nothing: a category appears in
    it exactly when the scan left it with at least one row, it then carries
    all the rows of the category, no category appears twice, and no row is
    ever filed under a name outside the categories [log_data] is created
    with. *)
Theorem dataframes_hold_every_row
  (clock : nat -> Z) (offset : Z) (lines : list string)
  (log_data : gmap string (list record)) :
  parse_log_data clock offset lines = Some log_data ->
  (forall c rows,
      In (c, rows) (dataframes log_data)
      <-> rows = records c log_data /\ rows <> [])
  /\ List.NoDup (map fst (dataframes log_data)).
Proof.
  unfold parse_log_data. intros S. split.
  - intros c rows. split; [apply dataframes_rows|]. intros [-> N].
    unfold dataframes. apply filter_In. split.
    + apply in_map_iff. exists c. split; [reflexivity|].
      apply (scan_categories _ _ _ _ _ _
               (fun c0 H => ltac:(rewrite records_empty in H; congruence)) S c N).
    + destruct (records c log_data); [congruence|reflexivity].
  - rewrite dataframes_keys. apply List.NoDup_filter.
    apply NoDup_ListNoDup. apply (bool_decide_unpack _). vm_compute. reflexivity.
Qed.

Lemma dataframes_hold_every_row_witness :
  (forall c rows,
      In (c, rows)
        (dataframes
           (decode_line 63839700000000000 (Some "INFO") "FOO_BAR,1,2,3"
              empty_log_data))
      <-> rows = records c
                   (decode_line 63839700000000000 (Some "INFO") "FOO_BAR,1,2,3"
                      empty_log_data)
          /\ rows <> [])
  /\ List.NoDup (map fst
              (dataframes
                 (decode_line 63839700000000000 (Some "INFO") "FOO_BAR,1,2,3"
                    empty_log_data))).
Proof.
  apply (dataframes_hold_every_row (fun _ => 0%Z) 0
           [ "2024-01-01 10:00:00.000,drone1,INFO,FOO_BAR,1,2,3" ]).
  unfold parse_log_data. cbn [scan]. unfold process_line.
  replace (segment 0 0 "2024-01-01 10:00:00.000,drone1,INFO,FOO_BAR,1,2,3")
    with (Decodable 63839700000000000 (Some "INFO") "FOO_BAR,1,2,3")
    by (vm_compute; reflexivity).
  reflexivity.
Defined.

(** * The calendar arithmetic of [datetime] *)

Section Calendar.
Import Datetime.
Local Open Scope Z_scope.

Lemma days_before_year_bounds y :
  1 <= y <= 9999 -> 0 <= days_before_year y <= 3651694.
Proof. unfold days_before_year. intros H. Z.div_mod_to_equations. lia. Qed.

Lemma days_before_leap_year_bound y :
  1 <= y <= 9999 -> is_leap y = true -> days_before_year y <= 3651693.
Proof.
  unfold days_before_year, is_leap. intros H L.
  apply andb_true_iff in L. destruct L as [L _]. apply Z.eqb_eq in L.
  Z.div_mod_to_equations. lia.
Qed.

Lemma days_of_year_bounds y m :
  1 <= m <= 12 ->
  0 <= days_before_month y m
  /\ days_before_month y m + days_in_month y m
     <= (if is_leap y then 366 else 365).
Proof.
  intros H.
  assert (C : m = 1 \/ m = 2 \/ m = 3 \/ m = 4 \/ m = 5 \/ m = 6 \/ m = 7
              \/ m = 8 \/ m = 9 \/ m = 10 \/ m = 11 \/ m = 12) by lia.
  unfold days_before_month.
  repeat (destruct C as [->|C]); [..|subst m];
    match goal with
    | |- context [Z.to_nat ?e] =>
        let n := eval vm_compute in (Z.to_nat e) in change (Z.to_nat e) with n
    end;
    cbv -[is_leap Z.le Z.add]; destruct (is_leap y); lia.
Qed.

Lemma make_in_range y mo d h mi s us t :
  make y mo d h mi s us = Some t -> in_range t = true.
Proof.
  unfold make.
  match goal with |- (if ?c then _ else _) = _ -> _ => destruct c eqn:C end;
    [|discriminate].
  intros [= <-].
  repeat (apply andb_true_iff in C; destruct C as [C ?]).
  repeat match goal with
         | H : (_ <=? _) = true |- _ => apply Z.leb_le in H
         end.
  pose proof (days_before_year_bounds y ltac:(lia)) as By.
  pose proof (days_of_year_bounds y mo ltac:(lia)) as [Bm0 Bm].
  assert (O : 1 <= ymd2ord y mo d <= 3652059).
  { unfold ymd2ord. destruct (is_leap y) eqn:L.
    - pose proof (days_before_leap_year_bound y ltac:(lia) L). lia.
    - lia. }
  unfold in_range, max_micro, micro_per_day.
  apply andb_true_iff. split; [apply Z.leb_le|apply Z.ltb_lt]; lia.
Qed.

Lemma finish_in_range ms t : finish ms = Some t -> in_range t = true.
Proof.
  unfold finish. destruct ms as [|[[[[[[[y mo] d] h] mi] s] us] r] ms];
    [discriminate|].
  destruct r; [|discriminate]. apply make_in_range.
Qed.

Lemma add_zero t : in_range t = true -> add t 0 = Some t.
Proof. unfold add. rewrite Z.add_0_r. now intros ->. Qed.

End Calendar.

(** With a zero offset [parse_timestamp] cannot overflow. *)
Lemma parse_timestamp_zero_offset now ts_str :
  Datetime.in_range now = true ->
  exists timestamp, parse_timestamp now ts_str 0 = Some timestamp.
Proof.
  intros N. unfold parse_timestamp.
  match goal with |- context [Datetime.add ?b 0] =>
    assert (B : Datetime.in_range b = true) end.
  { destruct (Datetime.strptime_micro ts_str) as [t|] eqn:E1;
      [now apply finish_in_range in E1|].
    destruct (Datetime.strptime_seconds ts_str) as [t|] eqn:E2;
      [now apply finish_in_range in E2|exact N]. }
  eexists. now apply add_zero.
Qed.

(** * The second-precision format and texts with a dot *)

Section SecondsFormat.
Import Datetime.

Lemma contains_dot_cons c r :
  c <> "."%char -> PyStr.contains "." (String c r) = PyStr.contains "." r.
Proof.
  intros N. rewrite contains_cons, prefix_cons.
  destruct (ascii_dec "." c); [congruence|reflexivity].
Qed.

Lemma keeps_dot_ret {A} (a : A) : keeps_dot (ret a).
Proof. intros s a' r [E|[]] D. injection E as _ <-. exact D. Qed.

Lemma keeps_dot_bind {A B} (p : directive A) (f : A -> directive B) :
  keeps_dot p -> (forall a, keeps_dot (f a)) -> keeps_dot (bind p f).
Proof.
  intros Kp Kf s b r Hin H. unfold bind in Hin.
  apply in_flat_map in Hin. destruct Hin as ([a r1] & H1 & H2).
  exact (Kf a r1 b r H2 (Kp s a r1 H1 H)).
Qed.

Lemma keeps_dot_orelse {A} (p q : directive A) :
  keeps_dot p -> keeps_dot q -> keeps_dot (orelse p q).
Proof.
  intros Kp Kq s a r Hin H. unfold orelse in Hin. apply in_app_or in Hin.
  destruct Hin; [now apply (Kp s a r)|now apply (Kq s a r)].
Qed.

Lemma keeps_dot_chr_in lo hi :
  (46 < nat_of_ascii lo)%nat -> keeps_dot (chr_in lo hi).
Proof.
  intros L s a r Hin H. unfold chr_in in Hin. destruct s as [|c s]; [destruct Hin|].
  destruct (_ && _) eqn:E; [|destruct Hin]. destruct Hin as [[= _ <-]|[]].
  rewrite contains_dot_cons in H; [exact H|]. intros ->.
  apply andb_true_iff in E. destruct E as [E _]. apply Nat.leb_le in E.
  change (nat_of_ascii ".") with 46%nat in E. lia.
Qed.

Lemma keeps_dot_lit c : c <> "."%char -> keeps_dot (lit c).
Proof.
  intros N s a r Hin H. unfold lit in Hin. destruct s as [|c' s]; [destruct Hin|].
  destruct (Ascii.eqb_spec c c') as [<-|_]; [|destruct Hin].
  destruct Hin as [[= _ <-]|[]]. now rewrite contains_dot_cons in H.
Qed.

Lemma keeps_dot_blank : keeps_dot dir_blank.
Proof.
  intros s. induction s as [|c s IH]; intros a r Hin H; [destruct Hin|].
  cbn [dir_blank] in Hin. destruct (PyStr.isspace c) eqn:C; [|destruct Hin].
  assert (N : c <> "."%char) by (intros ->; discriminate).
  rewrite (contains_dot_cons _ _ N) in H.
  apply in_app_or in Hin. destruct Hin as [Hin|[[= _ <-]|[]]]; [|exact H].
  now apply (IH a r).
Qed.

Ltac keeps_dot_tac :=
  repeat first
    [ apply keeps_dot_ret
    | apply keeps_dot_blank
    | apply keeps_dot_chr_in; vm_compute; lia
    | apply keeps_dot_lit; discriminate
    | apply keeps_dot_orelse
    | apply keeps_dot_bind
    | intro ].

Lemma keeps_dot_seconds : keeps_dot dir_seconds.
Proof.
  unfold dir_seconds, dir_Y, dir_m, dir_d, dir_H, dir_M, dir_S, two. keeps_dot_tac.
Qed.

Lemma strptime_seconds_dot text :
  PyStr.contains "." text = true -> strptime_seconds text = None.
Proof.
  intros H. unfold strptime_seconds.
  assert (K : keeps_dot
                (bind dir_seconds (fun '(y, mo, d, h, mi, s) =>
                   ret (y, mo, d, h, mi, s, 0%Z)))).
  { apply keeps_dot_bind; [apply keeps_dot_seconds|].
    intros [[[[[y mo] d] h] mi] s]. apply keeps_dot_ret. }
  destruct (bind dir_seconds _ text) as [|[fields r] ms] eqn:E; [reflexivity|].
  assert (R : PyStr.contains "." r = true).
  { apply (K text fields r); [rewrite E; now left|exact H]. }
  destruct fields as [[[[[[y mo] d] h] mi] s] us]. cbn [finish].
  destruct r; [discriminate|reflexivity].
Qed.

Lemma match_shape_split shape : forall s rest,
  Re.match_shape shape s = Some rest ->
  s = (PyStr.take (List.length shape) s ++ rest)%string
  /\ String.length (PyStr.take (List.length shape) s) = List.length shape.
Proof.
  induction shape as [|p shape IH]; intros s rest.
  - cbn [Re.match_shape List.length PyStr.take]. intros [= <-]. now split.
  - destruct s as [|c s]; [discriminate|]. cbn [Re.match_shape].
    destruct (p c); [|discriminate]. intros H.
    destruct (IH s rest H) as [E L].
    cbn [List.length PyStr.take String.length]. rewrite append_cons.
    split; [now rewrite <- E|now rewrite L].
Qed.

Lemma match_shape_contains pre a post : forall s rest,
  Re.match_shape (pre ++ Re.is_chr a :: post) s = Some rest ->
  PyStr.contains (String a "")
    (PyStr.take (List.length (pre ++ Re.is_chr a :: post)) s) = true.
Proof.
  induction pre as [|p pre IH]; intros s rest.
  - cbn [app Re.match_shape]. destruct s as [|c s]; [discriminate|].
    unfold Re.is_chr at 1. destruct (Ascii.eqb_spec a c) as [<-|]; [|discriminate].
    intros _. cbn [List.length PyStr.take]. rewrite contains_cons, prefix_cons.
    destruct (ascii_dec a a); [|congruence]. now rewrite prefix_nil.
  - cbn [app Re.match_shape]. destruct s as [|c s]; [discriminate|].
    destruct (p c); [|discriminate]. intros H.
    cbn [List.length PyStr.take]. rewrite contains_cons.
    rewrite (IH s rest H). apply orb_true_r.
Qed.

Lemma match_timestamp_dot line ts_str after :
  Re.match_timestamp line = Some (ts_str, after) ->
  PyStr.contains "." ts_str = true.
Proof.
  unfold Re.match_timestamp.
  destruct (Re.match_shape Re.timestamp_shape line) as [rest|] eqn:E;
    [|discriminate].
  intros [= <- _].
  change Re.timestamp_shape
    with (firstn 19 Re.timestamp_shape ++ Re.is_chr "." :: skipn 20 Re.timestamp_shape)
    in E |- *.
  exact (match_shape_contains _ _ _ _ _ E).
Qed.

End SecondsFormat.

(** X5.  On the text that the timestamp pattern captures, the
    second-precision format never succeeds: the captured text has 23
    characters and a dot, which that format cannot consume.  The instant
    is therefore the one the millisecond format reads, or the wall clock,
    shifted by the offset. *)
Theorem second_precision_attempt_never_succeeds
  (line ts_str after : string) (now offset : Z) :
  Re.match_timestamp line = Some (ts_str, after) ->
  line = (ts_str ++ after)%string
  /\ String.length ts_str = 23%nat
  /\ Datetime.strptime_seconds ts_str = None
  /\ parse_timestamp now ts_str offset
     = Datetime.add (default now (Datetime.strptime_micro ts_str)) offset.
Proof.
  intros M. pose proof (match_timestamp_dot _ _ _ M) as D.
  apply strptime_seconds_dot in D.
  unfold Re.match_timestamp in M.
  destruct (Re.match_shape Re.timestamp_shape line) as [rest|] eqn:E;
    [|discriminate].
  destruct (match_shape_split _ _ _ E) as [S L].
  assert (T : ts_str = PyStr.take (List.length Re.timestamp_shape) line)
    by congruence.
  assert (A : after = rest) by congruence.
  rewrite <- T in S, L. subst after.
  split; [exact S|]. split; [exact L|]. split; [exact D|].
  unfold parse_timestamp. rewrite D.
  now destruct (Datetime.strptime_micro ts_str).
Qed.

Lemma second_precision_attempt_never_succeeds_witness :
  "2024-02-30 10:00:00.000,drone1,INFO,x"
  = ("2024-02-30 10:00:00.000" ++ ",drone1,INFO,x")%string
  /\ String.length "2024-02-30 10:00:00.000" = 23%nat
  /\ Datetime.strptime_seconds "2024-02-30 10:00:00.000" = None
  /\ parse_timestamp 7 "2024-02-30 10:00:00.000" 0
     = Datetime.add
         (default 7%Z (Datetime.strptime_micro "2024-02-30 10:00:00.000")) 0.
Proof.
  apply (second_precision_attempt_never_succeeds
           "2024-02-30 10:00:00.000,drone1,INFO,x"
           "2024-02-30 10:00:00.000" ",drone1,INFO,x" 7 0).
  vm_compute. reflexivity.
Defined.

(** * The scan as a whole *)

Lemma scan_app (clock : nat -> Z) (offset : Z) (lines1 lines2 : list string) :
  forall (line_num : nat) (log_data : gmap string (list record)),
    scan clock offset line_num (lines1 ++ lines2) log_data
    = match scan clock offset line_num lines1 log_data with
      | Some log_data1 =>
          scan clock offset (line_num + List.length lines1) lines2 log_data1
      | None => None
      end.
Proof.
  induction lines1 as [|line lines1 IH]; intros line_num log_data.
  - cbn [app scan List.length]. now rewrite Nat.add_0_r.
  - cbn [app scan List.length].
    destruct (process_line (clock line_num) offset line log_data) as [log_data1|];
      [|reflexivity].
    rewrite IH. now replace (S line_num + List.length lines1)%nat
      with (line_num + S (List.length lines1))%nat by lia.
Qed.

(** *** What a line adds does not depend on what the store holds *)

Section Chunks.
Variable base : gmap string (list record).
Implicit Types (log_data : gmap string (list record)).

Lemma continues_append category r log_data0 log_data :
  category <> "ERROR" ->
  continues base log_data0 log_data ->
  continues base (append_record category r log_data0)
    (append_record category r log_data).
Proof.
  intros N [R E]. split.
  - intros c Hc. destruct (String.eqb_spec c category) as [->|Hn].
    + rewrite !records_append_eq, (R _ Hc). now rewrite app_assoc.
    + rewrite !records_append_ne by assumption. now apply R.
  - rewrite !records_append_ne by congruence. exact E.
Qed.

Lemma continues_emit category o log_data0 log_data :
  category <> "ERROR" ->
  continues base log_data0 log_data ->
  continues base (emit category o log_data0) (emit category o log_data).
Proof.
  intros N R. destruct o as [r|]; cbn [emit];
    [now apply continues_append|exact R].
Qed.

Lemma continues_error timestamp content log_data0 log_data :
  continues base log_data0 log_data ->
  continues base (append_to_error_log timestamp content log_data0)
    (append_to_error_log timestamp content log_data).
Proof.
  intros [R E]. split.
  - intros c Hc. rewrite !records_error_append_ne by assumption. now apply R.
  - rewrite !log_events_error_append, E. now rewrite app_assoc.
Qed.

Lemma continues_flag_error added timestamp content log_data0 log_data :
  continues base log_data0 log_data ->
  continues base (flag_error added timestamp content log_data0)
    (flag_error added timestamp content log_data).
Proof.
  intros R. destruct added; cbn [flag_error];
    [exact R|now apply continues_error].
Qed.

Lemma continues_run_branch b timestamp log_content added log_data0 log_data :
  continues base log_data0 log_data ->
  continues base (run_branch b timestamp log_content added log_data0)
    (run_branch b timestamp log_content added log_data).
Proof.
  intros R. destruct b; cbv beta iota zeta delta [run_branch];
    try (apply continues_emit; [discriminate|exact R]).
  - (* CC_PARAMETER *)
    destruct (cc_is_error log_content); [now apply continues_flag_error|].
    apply continues_emit; [discriminate|exact R].
  - (* RESUME *)
    match goal with |- context [if ?c then _ else _] => destruct c end;
      [apply continues_flag_error|];
      (apply continues_append; [discriminate|exact R]).
  - (* OTHER *)
    destruct (is_error_message log_content);
      [apply continues_flag_error|];
      (apply continues_append; [discriminate|exact R]).
Qed.

Lemma continues_decode_line timestamp severity_level log_content
  log_data0 log_data :
  continues base log_data0 log_data ->
  continues base (decode_line timestamp severity_level log_content log_data0)
    (decode_line timestamp severity_level log_content log_data).
Proof.
  intros R. unfold decode_line. apply continues_run_branch.
  destruct (is_alarm severity_level); [now apply continues_error|exact R].
Qed.

Lemma continues_scan clock offset lines :
  forall line_num log_data0 log_data log_data',
    continues base log_data0 log_data ->
    scan clock offset line_num lines log_data = Some log_data' ->
    exists log_data0',
      scan clock offset line_num lines log_data0 = Some log_data0'
      /\ continues base log_data0' log_data'.
Proof.
  induction lines as [|line lines IH];
    intros line_num log_data0 log_data log_data' R.
  - intros [= <-]. now exists log_data0.
  - cbn [scan]. unfold process_line.
    destruct (segment (clock line_num) offset line) as [| |t sev lc];
      [now apply IH|discriminate|].
    apply IH. now apply continues_decode_line.
Qed.

End Chunks.

Lemma log_events_entries (events : list record) :
  Forall (fun r => exists t c, r = error_entry t c) events ->
  log_events events = events.
Proof.
  induction events as [|r events IH]; [reflexivity|]. intros F.
  inversion F as [|? ? (t & c & ->) F']; subst.
  unfold log_events in *. cbn [List.filter].
  change (is_event (error_entry t c)) with true. cbv iota.
  now rewrite (IH F').
Qed.

(** A well-formed ERROR stream is its two synthetic rows and its entries. *)
Lemma well_formed_rows (stream : list record) :
  well_formed_error_stream stream ->
  (stream = [] /\ log_events stream = [])
  \/ (stream = error_header :: error_separator :: log_events stream
      /\ log_events stream <> []).
Proof.
  intros [->|(events & -> & N & F)]; [left; now split|]. right.
  assert (E : log_events (error_header :: error_separator :: events) = events).
  { unfold log_events. cbn [List.filter].
    change (is_event error_header) with false.
    change (is_event error_separator) with false. cbv iota.
    now apply log_events_entries. }
  rewrite E. now split.
Qed.

(** X6.  Chunks decode independently.  What a run of lines adds to the
    store does not depend on what the store holds: when the scan of two
    consecutive lists of lines from the empty store succeeds, so do the scan
    of the first and the scan of the second, each from the empty store and
    with its own line numbers, and the whole result is, in every category,
    the rows of the first followed by the rows of the second; in the ERROR
    stream the two synthetic rows of the second are dropped when the first
    has entries. *)
Theorem chunks_decode_independently
  (clock : nat -> Z) (offset : Z) (lines1 lines2 : list string)
  (line_num : nat) (out : gmap string (list record)) :
  scan clock offset line_num (lines1 ++ lines2) empty_log_data = Some out ->
  exists out1 out2,
    scan clock offset line_num lines1 empty_log_data = Some out1
    /\ scan clock offset (line_num + List.length lines1) lines2 empty_log_data
       = Some out2
    /\ (forall c, c <> "ERROR" ->
          records c out = records c out1 ++ records c out2)
    /\ log_events (records "ERROR" out)
       = log_events (records "ERROR" out1) ++ log_events (records "ERROR" out2)
    /\ records "ERROR" out
       = match records "ERROR" out1 with
         | [] => records "ERROR" out2
         | rows => rows ++ log_events (records "ERROR" out2)
         end.
Proof.
  intros S. rewrite scan_app in S.
  destruct (scan clock offset line_num lines1 empty_log_data) as [out1|] eqn:S1;
    [|discriminate].
  assert (R0 : continues out1 empty_log_data out1).
  { split.
    - intros c _. now rewrite records_empty, app_nil_r.
    - now rewrite records_empty, app_nil_r. }
  destruct (continues_scan out1 clock offset lines2 _ _ _ _ R0 S)
    as (out2 & S2 & [R E]).
  exists out1, out2. split; [reflexivity|]. split; [exact S2|].
  split; [exact R|]. split; [exact E|].
  assert (W0 : well_formed_error_stream (records "ERROR" empty_log_data))
    by (left; apply records_empty).
  pose proof (well_formed_rows _ (well_formed_scan _ _ _ _ _ _ W0 S1)) as W1.
  pose proof (well_formed_rows _ (well_formed_scan _ _ _ _ _ _ W0 S2)) as W2.
  assert (W : well_formed_error_stream (records "ERROR" out)).
  { eapply well_formed_scan; [|exact S].
    eapply well_formed_scan; [exact W0|exact S1]. }
  apply well_formed_rows in W.
  destruct W1 as [[A1 B1]|[A1 B1]].
  - rewrite A1. rewrite B1 in E. cbn [app] in E.
    destruct W as [[A B]|[A B]]; destruct W2 as [[A2 B2]|[A2 B2]];
      congruence.
  - destruct W as [[A B]|[A B]].
    + rewrite B in E. symmetry in E. apply app_eq_nil in E. tauto.
    + rewrite A, E. remember (log_events (records "ERROR" out1)) as events1.
      rewrite A1. reflexivity.
Qed.

Lemma chunks_decode_independently_witness :
  exists out1 out2,
    scan (fun _ => 0%Z) 0 1
      [ "2024-01-01 10:00:00.000,drone1,WARNING,CC_PARAMETER, speed_limit, 5.0" ]
      empty_log_data = Some out1
    /\ scan (fun _ => 0%Z) 0
         (1 + List.length
                [ "2024-01-01 10:00:00.000,drone1,WARNING,CC_PARAMETER, speed_limit, 5.0" ])
         [ "2024-01-01 10:00:01.000,drone1,INFO,link lost" ] empty_log_data
       = Some out2
    /\ (forall c, c <> "ERROR" ->
          records c
            (decode_line 63839700001000000 (Some "INFO") "link lost"
               (decode_line 63839700000000000 (Some "WARNING")
                  "CC_PARAMETER, speed_limit, 5.0" empty_log_data))
          = records c out1 ++ records c out2)
    /\ log_events
         (records "ERROR"
            (decode_line 63839700001000000 (Some "INFO") "link lost"
               (decode_line 63839700000000000 (Some "WARNING")
                  "CC_PARAMETER, speed_limit, 5.0" empty_log_data)))
       = log_events (records "ERROR" out1) ++ log_events (records "ERROR" out2)
    /\ records "ERROR"
         (decode_line 63839700001000000 (Some "INFO") "link lost"
            (decode_line 63839700000000000 (Some "WARNING")
               "CC_PARAMETER, speed_limit, 5.0" empty_log_data))
       = match records "ERROR" out1 with
         | [] => records "ERROR" out2
         | rows => rows ++ log_events (records "ERROR" out2)
         end.
Proof.
  apply (chunks_decode_independently (fun _ => 0%Z) 0
           [ "2024-01-01 10:00:00.000,drone1,WARNING,CC_PARAMETER, speed_limit, 5.0" ]
           [ "2024-01-01 10:00:01.000,drone1,INFO,link lost" ] 1).
  cbn [app scan]. unfold process_line.
  replace (segment 0 0
             "2024-01-01 10:00:00.000,drone1,WARNING,CC_PARAMETER, speed_limit, 5.0")
    with (Decodable 63839700000000000 (Some "WARNING")
            "CC_PARAMETER, speed_limit, 5.0") by (vm_compute; reflexivity).
  replace (segment 0 0 "2024-01-01 10:00:01.000,drone1,INFO,link lost")
    with (Decodable 63839700001000000 (Some "INFO") "link lost")
    by (vm_compute; reflexivity).
  reflexivity.
Defined.

Lemma segment_overflowed now offset line :
  segment now offset line = Overflowed
  <-> exists ts_str after,
        Re.match_timestamp (PyStr.strip line) = Some (ts_str, after)
        /\ parse_timestamp now ts_str offset = None.
Proof.
  unfold segment. split.
  - destruct (PyStr.is_empty (PyStr.strip line)); [discriminate|].
    destruct (Re.match_timestamp (PyStr.strip line)) as [[ts_str after]|];
      [|discriminate].
    destruct (parse_timestamp now ts_str offset) as [t|] eqn:P.
    + destruct (find_severity _) as [[sev lc]|]; [|discriminate].
      destruct (PyStr.is_empty lc); discriminate.
    + intros _. now exists ts_str, after.
  - intros (ts_str & after & M & P).
    destruct (PyStr.strip line) as [|c s] eqn:E; [discriminate|].
    cbn [PyStr.is_empty]. now rewrite M, P.
Qed.

Lemma scan_none_iff (clock : nat -> Z) (offset : Z) (lines : list string) :
  forall (line_num : nat) (log_data : gmap string (list record)),
    scan clock offset line_num lines log_data = None
    <-> exists n line ts_str after,
          nth_error lines n = Some line
          /\ Re.match_timestamp (PyStr.strip line) = Some (ts_str, after)
          /\ parse_timestamp (clock (line_num + n)%nat) ts_str offset = None.
Proof.
  induction lines as [|line lines IH]; intros line_num log_data.
  - cbn [scan]. split; [discriminate|]. intros ([|n] & l & ? & ? & H & _);
      discriminate.
  - cbn [scan]. unfold process_line.
    destruct (segment (clock line_num) offset line) as [| |t sev lc] eqn:Sg.
    + rewrite IH. split.
      * intros (n & l & ts & af & H1 & H2 & H3). exists (S n), l, ts, af.
        cbn [nth_error]. now rewrite Nat.add_succ_r.
      * intros ([|n] & l & ts & af & H1 & H2 & H3).
        -- cbn [nth_error] in H1. injection H1 as <-.
           rewrite Nat.add_0_r in H3.
           assert (O : segment (clock line_num) offset line = Overflowed)
             by (apply segment_overflowed; eauto).
           congruence.
        -- exists n, l, ts, af. cbn [nth_error] in H1.
           now rewrite Nat.add_succ_r in H3.
    + split; [intros _|reflexivity].
      apply segment_overflowed in Sg. destruct Sg as (ts & af & M & P).
      exists 0%nat, line, ts, af. now rewrite Nat.add_0_r.
    + rewrite IH. split.
      * intros (n & l & ts & af & H1 & H2 & H3). exists (S n), l, ts, af.
        cbn [nth_error]. now rewrite Nat.add_succ_r.
      * intros ([|n] & l & ts & af & H1 & H2 & H3).
        -- cbn [nth_error] in H1. injection H1 as <-.
           rewrite Nat.add_0_r in H3.
           assert (O : segment (clock line_num) offset line = Overflowed)
             by (apply segment_overflowed; eauto).
           congruence.
        -- exists n, l, ts, af. cbn [nth_error] in H1.
           now rewrite Nat.add_succ_r in H3.
Qed.

(** X7.  The scan fails only where a timestamp leaves the range of
    [datetime]: it returns no result exactly when, on some line, the
    stripped text opens with the timestamp pattern and the normalized
    instant overflows.  Nothing else a line holds can end the scan. *)
Theorem scan_fails_only_on_overflow
  (clock : nat -> Z) (offset : Z) (lines : list string)
  (line_num : nat) (log_data : gmap string (list record)) :
  scan clock offset line_num lines log_data = None
  <-> exists n line ts_str after,
        nth_error lines n = Some line
        /\ Re.match_timestamp (PyStr.strip line) = Some (ts_str, after)
        /\ parse_timestamp (clock (line_num + n)%nat) ts_str offset = None.
Proof. apply scan_none_iff. Qed.

Lemma scan_fails_only_on_overflow_witness :
  scan (fun _ => 0%Z) default_offset 1
    [ "2024-01-01 10:00:00.000,drone1,DEBUG,skipped";
      "9999-12-31 23:59:59.999 no severity field here" ] empty_log_data = None.
Proof.
  apply (scan_fails_only_on_overflow (fun _ => 0%Z) default_offset
           [ "2024-01-01 10:00:00.000,drone1,DEBUG,skipped";
             "9999-12-31 23:59:59.999 no severity field here" ] 1 empty_log_data).
  exists 1%nat, "9999-12-31 23:59:59.999 no severity field here",
    "9999-12-31 23:59:59.999", " no severity field here".
  split; [reflexivity|]. split; vm_compute; reflexivity.
Defined.

Lemma scan_zero_offset clock lines : forall line_num log_data,
  (forall n, Datetime.in_range (clock n) = true) ->
  exists log_data', scan clock 0 line_num lines log_data = Some log_data'.
Proof.
  intros line_num log_data C.
  destruct (scan clock 0 line_num lines log_data) as [log_data'|] eqn:E;
    [eauto|].
  apply scan_none_iff in E.
  destruct E as (n & l & ts & af & _ & _ & P).
  destruct (parse_timestamp_zero_offset (clock (line_num + n)%nat) ts (C _))
    as [t Pt].
  congruence.
Qed.

(** X8.  With a zero offset, and a wall clock within the range of
    [datetime], [parse_log_file] returns a result for every input: the
    overflow that ends a scan needs a shift of the instant. *)
Theorem zero_offset_never_fails
  (clock : nat -> Z) (lines : list string) :
  (forall n, Datetime.in_range (clock n) = true) ->
  exists out, parse_log_file clock 0 lines = Some out.
Proof.
  intros C. unfold parse_log_file, parse_log_data.
  destruct (scan_zero_offset clock lines 1%nat empty_log_data C) as [st E].
  rewrite E. cbn [option_map]. eauto.
Qed.

Lemma zero_offset_never_fails_witness :
  exists out,
    parse_log_file (fun _ => 0%Z) 0
      [ "9999-12-31 23:59:59.999 no severity field here" ] = Some out.
Proof.
  apply (zero_offset_never_fails (fun _ => 0%Z)
           [ "9999-12-31 23:59:59.999 no severity field here" ]).
  intros n. vm_compute. reflexivity.
Defined.

(** * The segmentation of a line *)

Lemma find_severity_inv (comma_parts : list string) (severity_level : option string)
  (log_content : string) :
  find_severity comma_parts = Some (severity_level, log_content) ->
  exists before part rest,
    comma_parts = before ++ part :: rest
    /\ Forall (fun p => has_level p = false) before
    /\ has_level part = true
    /\ severity_level = level_of part
    /\ log_content
       = match rest with
         | [] => ""
         | _ => PyStr.strip (PyStr.join "," rest)
         end.
Proof.
  induction comma_parts as [|p parts IH]; [discriminate|].
  cbn [find_severity]. destruct (has_level p) eqn:L.
  - intros [= <- <-]. exists [], p, parts. repeat split; [constructor|exact L].
  - intros H. destruct (IH H) as (before & part & rest & E & F & Lp & Sv & Lc).
    exists (p :: before), part, rest. rewrite E.
    split; [reflexivity|]. split; [now constructor|]. now repeat split.
Qed.

Lemma concat_app sep (l1 l2 : list string) :
  l1 <> [] -> l2 <> [] ->
  String.concat sep (l1 ++ l2)
  = (String.concat sep l1 ++ sep ++ String.concat sep l2)%string.
Proof.
  intros N1 N2. induction l1 as [|p l1 IH]; [congruence|].
  destruct l1 as [|q l1].
  - cbn [app]. now rewrite concat_cons.
  - cbn [app] in *. rewrite concat_cons by discriminate.
    rewrite IH by discriminate.
    rewrite (concat_cons sep p (q :: l1)) by discriminate.
    now rewrite !append_assoc.
Qed.

(** X9.  What a decodable line hands to the decoders: a payload that is
    not empty and has no blank at either end, one of the three severities,
    never a missing one, and an instant within the range of [datetime]. *)
Theorem decodable_line_parts
  (now offset : Z) (line : string) (timestamp : Z)
  (severity_level : option string) (log_content : string) :
  segment now offset line = Decodable timestamp severity_level log_content ->
  log_content <> ""
  /\ PyStr.strip log_content = log_content
  /\ (severity_level = Some "WARNING" \/ severity_level = Some "CRITICAL"
      \/ severity_level = Some "INFO")
  /\ Datetime.in_range timestamp = true.
Proof.
  intros Sg. apply segment_decodable in Sg.
  destruct Sg as (ts_str & after & _ & P & F & N).
  apply find_severity_inv in F.
  destruct F as (before & part & rest & _ & _ & L & Sv & Lc).
  split; [exact N|]. split; [|split].
  - rewrite Lc. destruct rest; [apply strip_nil|apply strip_idem].
  - rewrite has_level_holds in L. rewrite Sv, (level_of_priority _ L).
    unfold priority_level.
    destruct (PyStr.contains "WARNING" part); [now left|].
    destruct (PyStr.contains "CRITICAL" part); [right; now left|right; now right].
  - now apply parse_timestamp_in_range in P.
Qed.

Lemma decodable_line_parts_witness :
  "CC_PARAMETER, speed_limit, 5.0" <> ""
  /\ PyStr.strip "CC_PARAMETER, speed_limit, 5.0" = "CC_PARAMETER, speed_limit, 5.0"
  /\ (Some "WARNING" = Some "WARNING" \/ Some "WARNING" = Some "CRITICAL"
      \/ Some "WARNING" = Some "INFO")
  /\ Datetime.in_range 63839700000000000 = true.
Proof.
  apply (decodable_line_parts 0 0
           "2024-01-01 10:00:00.000,drone1,WARNING,CC_PARAMETER, speed_limit, 5.0"
           63839700000000000 (Some "WARNING") "CC_PARAMETER, speed_limit, 5.0").
  vm_compute. reflexivity.
Defined.

(** X10.  Blank characters around a line, the newline that ends it among
    them, never change what the line does to the store. *)
Theorem blanks_around_a_line_are_ignored
  (now offset : Z) (line w1 w2 : string)
  (log_data : gmap string (list record)) :
  all_chars PyStr.isspace w1 = true ->
  all_chars PyStr.isspace w2 = true ->
  process_line now offset (w1 ++ line ++ w2)%string log_data
  = process_line now offset line log_data.
Proof.
  intros H1 H2. unfold process_line, segment.
  now rewrite (strip_blanks_around _ _ _ H1 H2).
Qed.

Lemma blanks_around_a_line_are_ignored_witness :
  process_line 0 0
    ("  " ++ "2024-01-01 10:00:00.000,drone1,INFO,FOO_BAR,1,2,3"
     ++ String (ascii_of_nat 13) (String (ascii_of_nat 10) ""))%string
    empty_log_data
  = process_line 0 0 "2024-01-01 10:00:00.000,drone1,INFO,FOO_BAR,1,2,3"
      empty_log_data.
Proof.
  apply (blanks_around_a_line_are_ignored 0 0
           "2024-01-01 10:00:00.000,drone1,INFO,FOO_BAR,1,2,3" "  "
           (String (ascii_of_nat 13) (String (ascii_of_nat 10) "")) empty_log_data);
    vm_compute; reflexivity.
Defined.

(** * [split] and [join] *)

Lemma splitn_length (a : ascii) s : forall n,
  (1 <= List.length (PyStr.splitn (String a "") n s) <= S n)%nat.
Proof.
  unfold PyStr.splitn. induction s as [|c s IH]; intros n.
  - cbn [PyStr.split_go List.length]. lia.
  - rewrite split_go_cons. destruct n as [|n].
    + cbn [PyStr.may_split andb]. specialize (IH 0%nat).
      destruct (PyStr.split_go (String a "") (Some 0%nat) 0 s) as [|p ps];
        cbn [PyStr.cons_head List.length] in *; lia.
    + cbn [PyStr.may_split andb PyStr.one_less]. destruct (Ascii.eqb a c).
      * specialize (IH n). cbn [List.length]. lia.
      * specialize (IH (S n)).
        destruct (PyStr.split_go (String a "") (Some (S n)) 0 s) as [|p ps];
          cbn [PyStr.cons_head List.length] in *; lia.
Qed.

(** X11.  For a separator of one character, [join] undoes [split], with or
    without a bound on the number of cuts: no character of a line is lost
    between its fields.  Without a bound no field holds the separator;
    with a bound of [n] cuts there are between one and [n + 1] fields. *)
Theorem join_undoes_split (sep : ascii) (s : string) (n : nat) :
  PyStr.join (String sep "") (PyStr.split (String sep "") s) = s
  /\ Forall (fun p => sp_free (Ascii.eqb sep) p = true)
       (PyStr.split (String sep "") s)
  /\ PyStr.join (String sep "") (PyStr.splitn (String sep "") n s) = s
  /\ (1 <= List.length (PyStr.splitn (String sep "") n s) <= S n)%nat.
Proof.
  split; [apply join_split_go|]. split; [apply split_parts_free|].
  split; [apply join_split_go|apply splitn_length].
Qed.

(** X12.  [split] undoes [join] on fields that do not hold the separator:
    a line written as comma-separated fields is read back as those
    fields. *)
Theorem split_undoes_join (sep : ascii) (parts : list string) :
  parts <> [] ->
  Forall (fun p => sp_free (Ascii.eqb sep) p = true) parts ->
  PyStr.split (String sep "") (PyStr.join (String sep "") parts) = parts.
Proof. apply split_join. Qed.

Lemma split_undoes_join_witness :
  PyStr.split "," (PyStr.join "," ["MISSION_INFO"; "GUIDED"; ""; " armed"])
  = ["MISSION_INFO"; "GUIDED"; ""; " armed"].
Proof.
  apply (split_undoes_join "," ["MISSION_INFO"; "GUIDED"; ""; " armed"]).
  - discriminate.
  - repeat constructor.
Defined.

(** X13.  The payload is the text that follows the severity marker: the
    text after the timestamp is the comma-free fields up to and including
    the first one that holds a severity token, then either nothing, and
    the payload is empty, or a comma and a rest, and the payload is that
    rest stripped, with its inner commas and blanks as they were. *)
Theorem payload_follows_the_marker
  (text : string) (severity_level : option string) (log_content : string) :
  find_severity (PyStr.split "," text) = Some (severity_level, log_content) ->
  exists before marker tail,
    text = (PyStr.join "," (before ++ [marker]) ++ tail)%string
    /\ Forall (fun p => sp_free (Ascii.eqb ",") p = true) (before ++ [marker])
    /\ Forall (fun p => holds_token p = false) before
    /\ holds_token marker = true
    /\ severity_level = Some (priority_level marker)
    /\ ((tail = "" /\ log_content = "")
        \/ exists rest,
             tail = ("," ++ rest)%string /\ log_content = PyStr.strip rest).
Proof.
  intros F. apply find_severity_inv in F.
  destruct F as (before & part & rest & E & Fb & L & Sv & Lc).
  rewrite has_level_holds in L.
  exists before, part,
    (match rest with [] => "" | _ => "," ++ PyStr.join "," rest end)%string.
  split; [|split; [|split; [|split; [exact L|split]]]].
  - rewrite <- (join_split_go "," text None). fold (PyStr.split "," text).
    rewrite E. unfold PyStr.join. destruct rest as [|q rest].
    + now rewrite append_nil_r.
    + change (before ++ part :: q :: rest) with (before ++ [part] ++ q :: rest).
      rewrite app_assoc. apply concat_app; [|discriminate].
      destruct before; discriminate.
  - pose proof (split_parts_free "," text) as F. rewrite E in F.
    change (before ++ part :: rest) with (before ++ [part] ++ rest) in F.
    rewrite app_assoc in F. now apply List.Forall_app in F.
  - revert Fb. apply List.Forall_impl. intros p Hp. now rewrite <- has_level_holds.
  - rewrite Sv. now apply level_of_priority.
  - destruct rest as [|q rest]; [left; now split|].
    right. exists (PyStr.join "," (q :: rest)). now split.
Qed.

Lemma payload_follows_the_marker_witness :
  exists before marker tail,
    ",drone1,WARNING, CC_PARAMETER, speed_limit, 5.0 "
    = (PyStr.join "," (before ++ [marker]) ++ tail)%string
    /\ Forall (fun p => sp_free (Ascii.eqb ",") p = true) (before ++ [marker])
    /\ Forall (fun p => holds_token p = false) before
    /\ holds_token marker = true
    /\ Some "WARNING" = Some (priority_level marker)
    /\ ((tail = "" /\ "CC_PARAMETER, speed_limit, 5.0" = "")
        \/ exists rest,
             tail = ("," ++ rest)%string
             /\ "CC_PARAMETER, speed_limit, 5.0" = PyStr.strip rest).
Proof.
  apply (payload_follows_the_marker
           ",drone1,WARNING, CC_PARAMETER, speed_limit, 5.0 "
           (Some "WARNING") "CC_PARAMETER, speed_limit, 5.0").
  vm_compute. reflexivity.
Defined.

(** * The key/value decoders *)

Lemma splitn_append_free (a : ascii) p t n :
  sp_free (Ascii.eqb a) p = true ->
  PyStr.splitn (String a "") (S n) (p ++ String a t)%string
  = p :: PyStr.splitn (String a "") n t.
Proof.
  unfold PyStr.splitn. induction p as [|c p IH]; cbn [sp_free]; intros H.
  - rewrite append_nil_l, split_go_cons. cbn [PyStr.may_split andb PyStr.one_less].
    now rewrite Ascii.eqb_refl.
  - apply andb_true_iff in H. destruct H as [Hc Hp].
    rewrite append_cons, split_go_cons, (IH Hp). cbn [PyStr.may_split andb].
    apply negb_true_iff in Hc. rewrite Hc. reflexivity.
Qed.

Lemma splitn_zero (a : ascii) t : PyStr.splitn (String a "") 0 t = [t].
Proof.
  unfold PyStr.splitn. induction t as [|c t IH]; [reflexivity|].
  rewrite split_go_cons. cbn [PyStr.may_split andb]. now rewrite IH.
Qed.

(** X14.  The key/value decoders cut a payload at its first two commas
    only: of [tag,key,value], with no comma in the tag and the key, the
    record holds the key and the value stripped, as text, and the value
    keeps every comma it contains. *)
Theorem key_value_round_trip (timestamp : Z) (tag key value : string) :
  sp_free (Ascii.eqb ",") tag = true ->
  sp_free (Ascii.eqb ",") key = true ->
  decode_key_value timestamp (tag ++ "," ++ key ++ "," ++ value)%string
  = Some [ ("timestamp", VTime timestamp);
           ("key", VStr (PyStr.strip key));
           ("value", VStr (PyStr.strip value)) ].
Proof.
  intros Ht Hk. unfold decode_key_value, fields_after_tag_n.
  change ("," ++ key ++ "," ++ value)%string
    with (String "," (key ++ String "," value))%string.
  rewrite (splitn_append_free _ _ _ _ Ht), (splitn_append_free _ _ _ _ Hk).
  rewrite splitn_zero. cbn [tl map List.length Nat.leb at_ nth].
  now rewrite !strip_idem.
Qed.

Lemma key_value_round_trip_witness :
  decode_key_value 5 ("CC_PARAMETER" ++ "," ++ " fence " ++ "," ++ " 1.5, 2.5 ")%string
  = Some [ ("timestamp", VTime 5);
           ("key", VStr (PyStr.strip " fence "));
           ("value", VStr (PyStr.strip " 1.5, 2.5 ")) ].
Proof.
  apply (key_value_round_trip 5 "CC_PARAMETER" " fence " " 1.5, 2.5 ");
    reflexivity.
Defined.

(** * The coercion helpers *)

Section Coercions.
Import PyStr.

Lemma safe_clean_value_strip value target_type flag :
  safe_clean_value_w value target_type flag
  = safe_clean_value_w (strip value) target_type flag.
Proof.
  unfold safe_clean_value_w.
  destruct (String.eqb_spec value "") as [->|N]; [reflexivity|].
  destruct (String.eqb_spec (strip value) "") as [E|E].
  - rewrite E. reflexivity.
  - now rewrite strip_idem.
Qed.

Lemma convert_boolean_strip value :
  convert_boolean_to_numeric value = convert_boolean_to_numeric (strip value).
Proof.
  unfold convert_boolean_to_numeric.
  destruct (String.eqb_spec value "") as [->|N]; [reflexivity|].
  destruct (String.eqb_spec (strip value) "") as [E|E].
  - rewrite E. reflexivity.
  - now rewrite strip_idem.
Qed.

Lemma parse_list_values_strip value :
  parse_list_values value = parse_list_values (strip value).
Proof.
  unfold parse_list_values. rewrite strip_idem.
  destruct value as [|c value]; [reflexivity|]. cbn [is_empty orb].
  destruct (String.eqb_spec (strip (String c value)) "") as [E|E].
  - now rewrite orb_true_r.
  - destruct (strip (String c value)); [congruence|reflexivity].
Qed.

Lemma sp_free_lstrip f sp s :
  sp_free f s = true -> sp_free f (lstrip_by sp s) = true.
Proof.
  induction s as [|c s IH]; [reflexivity|]. intros H. cbn [lstrip_by].
  destruct (sp c); [|exact H]. cbn [sp_free] in H.
  apply andb_true_iff in H. now apply IH.
Qed.

Lemma sp_free_rstrip f sp s :
  sp_free f s = true -> sp_free f (rstrip_by sp s) = true.
Proof.
  induction s as [|c s IH]; [reflexivity|]. cbn [sp_free]. intros H.
  apply andb_true_iff in H. destruct H as [Hc Hs]. rewrite rstrip_by_cons.
  specialize (IH Hs). destruct (rstrip_by sp s).
  - destruct (sp c); [reflexivity|]. cbn [sp_free]. now rewrite Hc.
  - cbn [sp_free] in *. now rewrite Hc, IH.
Qed.

Lemma sp_free_strip f s : sp_free f s = true -> sp_free f (strip s) = true.
Proof. intros H. now apply sp_free_rstrip, sp_free_lstrip. Qed.

Lemma list_parts_elements cleaned :
  Forall (fun p => p <> "" /\ strip p = p /\ sp_free (Ascii.eqb ",") p = true)
    (list_parts cleaned).
Proof.
  apply List.Forall_forall. intros p Hp. unfold list_parts in Hp.
  apply in_map_iff in Hp. destruct Hp as (q & <- & Hq).
  apply filter_In in Hq. destruct Hq as [Hq Hn].
  split; [|split].
  - intros E. rewrite E in Hn. discriminate.
  - apply strip_idem.
  - apply sp_free_strip.
    pose proof (split_parts_free "," cleaned) as F.
    rewrite List.Forall_forall in F. now apply F.
Qed.

End Coercions.

(** X15.  [safe_clean_value] returns [None] in two cases only: the value
    is null (empty once stripped, or the text [None] or [None,]), and then
    nothing is reported; or a conversion to [float], [int] or [bool_numeric]
    failed, and then one warning is reported.  The kinds [string] and
    [auto] never report. *)
Theorem safe_clean_value_null_or_warned
  (value target_type : string) (flag : bool) :
  (fst (safe_clean_value_w value target_type flag) = VNone
   <-> null_text (PyStr.strip value) = true
       \/ snd (safe_clean_value_w value target_type flag) <> [])
  /\ (snd (safe_clean_value_w value target_type flag) <> [] ->
      null_text (PyStr.strip value) = false
      /\ (target_type = "float" \/ target_type = "int"
          \/ target_type = "bool_numeric"))
  /\ (List.length (snd (safe_clean_value_w value target_type flag)) <= 1)%nat.
Proof.
  unfold safe_clean_value_w.
  destruct (String.eqb_spec value "") as [->|N].
  { cbn [fst snd List.length]. rewrite strip_nil.
    split; [split; [now left|reflexivity]|]. split; [congruence|lia]. }
  destruct (null_text (PyStr.strip value)) eqn:Nl.
  { cbn [fst snd List.length].
    split; [split; [now left|reflexivity]|]. split; [congruence|lia]. }
  destruct (String.eqb_spec target_type "string") as [->|_].
  { cbn [fst snd List.length].
    split; [split; [discriminate|intros [?|?]; congruence]|].
    split; [congruence|lia]. }
  destruct (String.eqb_spec target_type "float") as [->|_].
  { destruct (PyNum.float_of_string _); cbn [fst snd List.length].
    - split; [split; [discriminate|intros [?|?]; congruence]|].
      split; [congruence|lia].
    - split; [split; [right; discriminate|reflexivity]|].
      split; [intros _; split; [reflexivity|now left]|lia]. }
  destruct (String.eqb_spec target_type "int") as [->|_].
  { destruct (PyNum.int_of_string _); cbn [fst snd List.length].
    - split; [split; [discriminate|intros [?|?]; congruence]|].
      split; [congruence|lia].
    - split; [split; [right; discriminate|reflexivity]|].
      split; [intros _; split; [reflexivity|right; now left]|lia]. }
  destruct (String.eqb_spec target_type "bool_numeric") as [->|_].
  { destruct (String.eqb _ "true"); [|destruct (String.eqb _ "false")];
      cbn [fst snd List.length].
    - split; [split; [discriminate|intros [?|?]; congruence]|].
      split; [congruence|lia].
    - split; [split; [discriminate|intros [?|?]; congruence]|].
      split; [congruence|lia].
    - split; [split; [right; discriminate|reflexivity]|].
      split; [intros _; split; [reflexivity|right; now right]|lia]. }
  assert (A : forall x : pyval,
             x <> VNone ->
             (fst (x, @nil string) = VNone
              <-> false = true \/ snd (x, @nil string) <> [])
             /\ (snd (x, @nil string) <> [] ->
                 false = false
                 /\ (target_type = "float" \/ target_type = "int"
                     \/ target_type = "bool_numeric"))
             /\ (List.length (snd (x, @nil string)) <= 1)%nat).
  { intros x Hx. cbn [fst snd List.length].
    split; [split; [congruence|intros [?|?]; congruence]|].
    split; [congruence|lia]. }
  destruct (_ || _).
  - destruct flag; apply A; discriminate.
  - destruct (PyStr.contains "." _).
    + destruct (PyNum.float_of_string _); apply A; discriminate.
    + destruct (PyNum.int_of_string _); apply A; discriminate.
Qed.

Lemma safe_clean_value_null_or_warned_witness :
  fst (safe_clean_value_w " 12,5 " "float" false) = VNone.
Proof.
  apply (safe_clean_value_null_or_warned " 12,5 " "float" false).
  right. vm_compute. discriminate.
Defined.

(** X16.  Blank characters around a value never change what the three
    coercion helpers make of it. *)
Theorem coercions_ignore_blanks_around
  (value w1 w2 target_type : string) (flag : bool) :
  all_chars PyStr.isspace w1 = true ->
  all_chars PyStr.isspace w2 = true ->
  safe_clean_value_w (w1 ++ value ++ w2)%string target_type flag
  = safe_clean_value_w value target_type flag
  /\ convert_boolean_to_numeric (w1 ++ value ++ w2)%string
     = convert_boolean_to_numeric value
  /\ parse_list_values (w1 ++ value ++ w2)%string = parse_list_values value.
Proof.
  intros H1 H2. pose proof (strip_blanks_around w1 value w2 H1 H2) as E.
  split; [|split].
  - rewrite safe_clean_value_strip, E. symmetry. apply safe_clean_value_strip.
  - rewrite convert_boolean_strip, E. symmetry. apply convert_boolean_strip.
  - rewrite parse_list_values_strip, E. symmetry. apply parse_list_values_strip.
Qed.

Lemma coercions_ignore_blanks_around_witness :
  safe_clean_value_w (" " ++ "12.5" ++ "  ")%string "float" false
  = safe_clean_value_w "12.5" "float" false
  /\ convert_boolean_to_numeric (" " ++ "12.5" ++ "  ")%string
     = convert_boolean_to_numeric "12.5"
  /\ parse_list_values (" " ++ "12.5" ++ "  ")%string = parse_list_values "12.5".
Proof.
  apply (coercions_ignore_blanks_around "12.5" " " "  " "float" false);
    reflexivity.
Defined.


(** X18.  An element of [parse_list_values] is a float or a text, never an
    int and never [None]: what [int()] accepts [float()] accepts before it.
    A text element is what [float()] rejects; it is not empty, has no blank
    at either end and holds no comma. *)
Theorem list_values_are_floats_or_texts (value_str : string) :
  Forall (fun v =>
            (exists x, v = VFloat x)
            \/ (exists p, v = VStr p
                  /\ PyNum.float_of_string p = None
                  /\ p <> "" /\ PyStr.strip p = p
                  /\ sp_free (Ascii.eqb ",") p = true))
    (parse_list_values value_str).
Proof.
  unfold parse_list_values. destruct (_ || _); [constructor|].
  apply List.Forall_map.
  match goal with |- Forall _ (list_parts ?c) =>
    pose proof (list_parts_elements c) as F end.
  revert F. apply List.Forall_impl. intros p (Hn & Hs & Hc).
  unfold list_element. destruct (PyNum.float_of_string p) as [x|] eqn:E.
  - left. now exists x.
  - rewrite (list_element_never_int _ E). right. exists p. now repeat split.
Qed.

(** * The error keywords *)

Lemma lower_append s t :
  PyStr.lower (s ++ t)%string = (PyStr.lower s ++ PyStr.lower t)%string.
Proof. apply map_str_append. Qed.

(** X19.  The keyword test of the OTHER branch reads the payload in lower
    case, so lowering the payload first changes nothing, and text added
    before or after a payload never hides a keyword it holds. *)
Theorem error_keywords_survive_context (log_content before after : string) :
  is_error_message (PyStr.lower log_content) = is_error_message log_content
  /\ (is_error_message log_content = true ->
      is_error_message (before ++ log_content ++ after)%string = true).
Proof.
  unfold is_error_message. rewrite lower_idem.
  split; [reflexivity|].
  intros H. apply existsb_exists in H. destruct H as (k & Hk & Hc).
  apply existsb_exists. exists k. split; [exact Hk|].
  rewrite !lower_append. now apply contains_append_l, contains_append_r.
Qed.

Lemma error_keywords_survive_context_witness :
  is_error_message ("GPS " ++ "Link LOST" ++ " at wp 3")%string = true.
Proof.
  apply (error_keywords_survive_context "Link LOST" "GPS " " at wp 3").
  vm_compute. reflexivity.
Defined.

(** * The columns of a SnALogging record *)

Section SnaColumns.
Implicit Types (r : record) (k : string).

Lemma keys_dict_set k v r : keys (dict_set k v r) = add_key k (keys r).
Proof.
  unfold keys, add_key, mem. induction r as [|[k' v'] r IH]; [reflexivity|].
  cbn [dict_set map fst existsb]. destruct (String.eqb_spec k k') as [->|N].
  - reflexivity.
  - cbn [map fst orb]. rewrite IH.
    destruct (existsb (String.eqb k) (map fst r)); reflexivity.
Qed.

Lemma keys_expand field_name n values r :
  keys (expand field_name n values r)
  = fold_left (fun acc j => add_key (column field_name j) acc) (seq 1 n) (keys r).
Proof.
  unfold expand. generalize (seq 1 n). intros js. revert r.
  induction js as [|j js IH]; intros r; [reflexivity|].
  cbn [fold_left]. now rewrite IH, keys_dict_set.
Qed.

Lemma keys_sna_field r field_name present :
  keys (sna_field r field_name present) = keys_after field_name (keys r).
Proof.
  unfold sna_field, keys_after.
  destruct (assoc field_name multi_value_fields_data) as [n|] eqn:A.
  - assert (M : mem field_name array_fields = false).
    { unfold multi_value_fields_data in A. cbn [assoc] in A.
      destruct (String.eqb_spec field_name "obstacle_sector") as [->|];
        [reflexivity|].
      destruct (String.eqb_spec field_name "obstacle_buffer") as [->|];
        [reflexivity|discriminate]. }
    rewrite M. destruct present as [raw|]; [|apply keys_expand].
    destruct (_ || _); apply keys_expand.
  - destruct present as [raw|].
    + destruct (_ || _).
      * destruct (mem field_name array_fields); apply keys_dict_set.
      * destruct (mem field_name array_fields); [apply keys_dict_set|].
        destruct (mem field_name boolean_fields); [apply keys_dict_set|].
        destruct (mem field_name numeric_string_fields); [apply keys_dict_set|].
        destruct (String.eqb field_name "flight_mode"); apply keys_dict_set.
    + destruct (mem field_name array_fields); apply keys_dict_set.
Qed.

Lemma keys_sna_fields names : forall i pipe_parts r,
  keys (sna_fields names i pipe_parts r)
  = fold_left (fun ks name => keys_after name ks) names (keys r).
Proof.
  induction names as [|name names IH]; intros i pipe_parts r; [reflexivity|].
  cbn [sna_fields fold_left]. now rewrite IH, keys_sna_field.
Qed.

End SnaColumns.

(** X20.  Every SnALogging record has the same 48 columns in the same
    order, whatever the line holds: the timestamp, then one column for each
    field name, and six and two numbered columns for the two multi-value
    fields.  Missing and empty fields change values, never the shape. *)
Theorem sna_logging_columns (timestamp : Z) (log_content : string) (r : record) :
  decode_sna_logging timestamp log_content = Some r ->
  keys r = sna_columns /\ List.length r = 48%nat.
Proof.
  unfold decode_sna_logging.
  destruct (PyStr.contains _ _); [discriminate|].
  destruct (_ <=? _)%nat; [|discriminate].
  intros H.
  assert (K : keys r = sna_columns).
  { replace r with (sna_fields field_names 0 (sna_pipe_parts log_content)
                      [("timestamp", VTime timestamp)]) by congruence.
    rewrite keys_sna_fields. vm_compute. reflexivity. }
  split; [exact K|].
  unfold keys in K. rewrite <- (List.length_map fst), K. reflexivity.
Qed.

Lemma sna_logging_columns_witness :
  keys (sna_fields field_names 0
          (sna_pipe_parts "SnALogging,GUIDED|1|2|[1]|[2]|[3]|[4]||1|2")
          [("timestamp", VTime 5)])
  = sna_columns
  /\ List.length
       (sna_fields field_names 0
          (sna_pipe_parts "SnALogging,GUIDED|1|2|[1]|[2]|[3]|[4]||1|2")
          [("timestamp", VTime 5)]) = 48%nat.
Proof.
  apply (sna_logging_columns 5 "SnALogging,GUIDED|1|2|[1]|[2]|[3]|[4]||1|2").
  reflexivity.
Defined.

(** * Where entries of the ERROR stream come from *)

(** X21.  A line whose severity is INFO reaches the ERROR stream through
    three branches only: CC_PARAMETER with one of its error patterns,
    RESUME with [aborted] or [failed] in its text, and OTHER with an error
    keyword.  No other decoder ever writes to the stream; the 32 other
    branches leave it as it is. *)
Theorem info_line_reaches_error_stream_by_three_branches
  (timestamp : Z) (severity_level : option string) (log_content : string)
  (log_data : gmap string (list record)) :
  is_alarm severity_level = false ->
  records "ERROR" (decode_line timestamp severity_level log_content log_data)
  <> records "ERROR" log_data ->
  (select_branch log_content = B_CC_PARAMETER
   /\ cc_is_error log_content = true
   /\ records "ERROR" (decode_line timestamp severity_level log_content log_data)
      = records "ERROR" (append_to_error_log timestamp log_content log_data))
  \/ (select_branch log_content = B_RESUME
      /\ (PyStr.contains "aborted" (PyStr.lower (snd (resume_split log_content)))
          || PyStr.contains "failed" (PyStr.lower (snd (resume_split log_content)))
          = true)
      /\ records "ERROR"
           (decode_line timestamp severity_level log_content log_data)
         = records "ERROR"
             (append_to_error_log timestamp
                ("RESUME ERROR: " ++ snd (resume_split log_content))%string
                log_data))
  \/ (select_branch log_content = B_OTHER
      /\ is_error_message log_content = true
      /\ records "ERROR"
           (decode_line timestamp severity_level log_content log_data)
         = records "ERROR" (append_to_error_log timestamp log_content log_data)).
Proof.
  intros A. unfold decode_line. rewrite A.
  destruct (select_branch log_content) eqn:B;
    cbv beta iota zeta delta [run_branch];
    try (intros H; exfalso; apply H; apply records_emit_ne; discriminate).
  - (* CC_PARAMETER *)
    destruct (cc_is_error log_content).
    + intros _. left. now repeat split.
    + intros H; exfalso; apply H; apply records_emit_ne; discriminate.
  - (* RESUME *)
    match goal with |- context [if ?c then _ else _] => destruct c eqn:C end.
    + intros _. right. left. split; [reflexivity|]. split; [reflexivity|].
      cbv beta iota delta [flag_error]. apply records_error_append_congr.
      apply records_append_ne. discriminate.
    + intros H; exfalso; apply H; apply records_append_ne; discriminate.
  - (* OTHER *)
    destruct (is_error_message log_content).
    + intros _. right. right. split; [reflexivity|]. split; [reflexivity|].
      cbv beta iota delta [flag_error]. apply records_error_append_congr.
      apply records_append_ne. discriminate.
    + intros H; exfalso; apply H; apply records_append_ne; discriminate.
Qed.

Lemma info_line_reaches_error_stream_by_three_branches_witness :
  (select_branch "link lost" = B_CC_PARAMETER
   /\ cc_is_error "link lost" = true
   /\ records "ERROR" (decode_line 5 (Some "INFO") "link lost" empty_log_data)
      = records "ERROR" (append_to_error_log 5 "link lost" empty_log_data))
  \/ (select_branch "link lost" = B_RESUME
      /\ (PyStr.contains "aborted" (PyStr.lower (snd (resume_split "link lost")))
          || PyStr.contains "failed" (PyStr.lower (snd (resume_split "link lost")))
          = true)
      /\ records "ERROR" (decode_line 5 (Some "INFO") "link lost" empty_log_data)
         = records "ERROR"
             (append_to_error_log 5
                ("RESUME ERROR: " ++ snd (resume_split "link lost"))%string
                empty_log_data))
  \/ (select_branch "link lost" = B_OTHER
      /\ is_error_message "link lost" = true
      /\ records "ERROR" (decode_line 5 (Some "INFO") "link lost" empty_log_data)
         = records "ERROR" (append_to_error_log 5 "link lost" empty_log_data)).
Proof.
  apply (info_line_reaches_error_stream_by_three_branches 5 (Some "INFO")
           "link lost" empty_log_data).
  - reflexivity.
  - vm_compute. discriminate.
Defined.

(** * The CPU decoder *)

Lemma parse_cpu_info_last data_part r :
  parse_cpu_info data_part = Some r ->
  exists v r0, r = dict_set "temp_celsius" v r0.
Proof.
  unfold parse_cpu_info.
  destruct (set_if_found "cpu_usage_percent" _ _ _) as [r1|]; [|discriminate].
  cbn [mbind option_bind].
  destruct (set_if_found "ram_usage_mb" _ _ _) as [r2|]; [|discriminate].
  cbn [mbind option_bind].
  match goal with
  | |- context [mbind _ ?o] => destruct o as [r3|]; [|discriminate]
  end.
  cbn [mbind option_bind].
  destruct (Re.search_run "Temp: " _ _ _) as [g|].
  - destruct (py_float g) as [v|]; [|discriminate].
    cbn [mbind option_bind]. intros [= <-]. eauto.
  - intros [= <-]. eauto.
Qed.

(** X22.  A CPU line whose numbers [float()] and [int()] accept always
    yields a record: [parse_cpu_info] assigns [temp_celsius] on every path,
    so its result is never empty and the test [if cpu_data] cannot fail.
    The record holds the timestamp and columns among the six of the
    decoder. *)
Theorem cpu_record_always_has_temperature
  (timestamp : Z) (data_part : string) (cpu_data : record) :
  parse_cpu_info data_part = Some cpu_data ->
  cpu_data <> []
  /\ dict_get "temp_celsius" cpu_data <> None
  /\ Forall (fun kv => In (fst kv) cpu_columns) cpu_data
  /\ decode_cpu timestamp data_part
     = Some (dict_update [("timestamp", VTime timestamp)] cpu_data).
Proof.
  intros H. destruct (parse_cpu_info_last _ _ H) as (v & r0 & E).
  assert (G : dict_get "temp_celsius" cpu_data <> None)
    by (rewrite E, dict_get_set_eq; discriminate).
  assert (N : cpu_data <> []) by (intros ->; now apply G).
  split; [exact N|]. split; [exact G|]. split.
  - apply (parse_cpu_info_keys (fun k => In k cpu_columns) data_part);
      [unfold cpu_columns; cbn [In]; repeat (first [left; reflexivity | right])..
      |exact H].
  - unfold decode_cpu. rewrite H. cbn [mbind option_bind].
    destruct cpu_data; [congruence|reflexivity].
Qed.

Lemma cpu_record_always_has_temperature_witness :
  [("cpu_usage_percent", VFloat (PyNum.float_of_decimal false 125 (-1)));
   ("temp_celsius", VNone)] <> []
  /\ dict_get "temp_celsius"
       [("cpu_usage_percent", VFloat (PyNum.float_of_decimal false 125 (-1)));
        ("temp_celsius", VNone)] <> None
  /\ Forall (fun kv => In (fst kv) cpu_columns)
       [("cpu_usage_percent", VFloat (PyNum.float_of_decimal false 125 (-1)));
        ("temp_celsius", VNone)]
  /\ decode_cpu 5 "CPU, CPU usage: 12.5%, Temp: N/A"
     = Some (dict_update [("timestamp", VTime 5)]
               [("cpu_usage_percent", VFloat (PyNum.float_of_decimal false 125 (-1)));
                ("temp_celsius", VNone)]).
Proof.
  apply (cpu_record_always_has_temperature 5 "CPU, CPU usage: 12.5%, Temp: N/A").
  vm_compute. reflexivity.
Defined.

(** * The kinds of [safe_clean_value] *)

(** X23.  A value coerced with a declared kind has that kind or is
    [None]: [float] gives a float, [int] an int, [string] the stripped
    text, which is then not empty, and [bool_numeric] 0 or 1.  Any other
    kind works as [auto], which gives an int, a float, a text or, unless
    booleans are turned into numbers, a boolean. *)
Theorem safe_clean_value_is_typed (value target_type : string) (flag : bool) :
  (target_type = "float" ->
   fst (safe_clean_value_w value target_type flag) = VNone
   \/ exists x, fst (safe_clean_value_w value target_type flag) = VFloat x)
  /\ (target_type = "int" ->
      fst (safe_clean_value_w value target_type flag) = VNone
      \/ exists z, fst (safe_clean_value_w value target_type flag) = VInt z)
  /\ (target_type = "string" ->
      fst (safe_clean_value_w value target_type flag) = VNone
      \/ (fst (safe_clean_value_w value target_type flag)
          = VStr (PyStr.strip value)
          /\ PyStr.strip value <> ""))
  /\ (target_type = "bool_numeric" ->
      fst (safe_clean_value_w value target_type flag) = VNone
      \/ fst (safe_clean_value_w value target_type flag) = VInt 0
      \/ fst (safe_clean_value_w value target_type flag) = VInt 1)
  /\ (target_type <> "float" -> target_type <> "int" ->
      target_type <> "string" -> target_type <> "bool_numeric" ->
      fst (safe_clean_value_w value target_type flag) = VNone
      \/ (exists z, fst (safe_clean_value_w value target_type flag) = VInt z)
      \/ (exists x, fst (safe_clean_value_w value target_type flag) = VFloat x)
      \/ (exists s, fst (safe_clean_value_w value target_type flag) = VStr s)
      \/ (flag = false
          /\ exists b, fst (safe_clean_value_w value target_type flag) = VBool b)).
Proof.
  unfold safe_clean_value_w.
  destruct (String.eqb value "");
    [cbn [fst]; repeat split; intros; now left|].
  destruct (null_text (PyStr.strip value)) eqn:N;
    [cbn [fst]; repeat split; intros; now left|].
  split; [intros ->|split; [intros ->|split; [intros ->|split; [intros ->|]]]].
  - change (String.eqb "float" "string") with false.
    change (String.eqb "float" "float") with true. cbv iota.
    destruct (PyNum.float_of_string _); cbn [fst]; eauto.
  - change (String.eqb "int" "string") with false.
    change (String.eqb "int" "float") with false.
    change (String.eqb "int" "int") with true. cbv iota.
    destruct (PyNum.int_of_string _); cbn [fst]; eauto.
  - change (String.eqb "string" "string") with true. cbv iota. cbn [fst].
    right. split; [reflexivity|]. intros E. rewrite E in N. discriminate.
  - change (String.eqb "bool_numeric" "string") with false.
    change (String.eqb "bool_numeric" "float") with false.
    change (String.eqb "bool_numeric" "int") with false.
    change (String.eqb "bool_numeric" "bool_numeric") with true. cbv iota.
    destruct (String.eqb _ "true"); [cbn [fst]; eauto|].
    destruct (String.eqb _ "false"); cbn [fst]; eauto.
  - intros H1 H2 H3 H4.
    destruct (String.eqb_spec target_type "string"); [contradiction|].
    destruct (String.eqb_spec target_type "float"); [contradiction|].
    destruct (String.eqb_spec target_type "int"); [contradiction|].
    destruct (String.eqb_spec target_type "bool_numeric"); [contradiction|].
    destruct (_ || _).
    + destruct flag; cbn [fst]; [right; left; eauto|].
      right; right; right; right. eauto.
    + destruct (PyStr.contains "." _).
      * destruct (PyNum.float_of_string _); cbn [fst];
          [right; right; left; eauto|right; right; right; left; eauto].
      * destruct (PyNum.int_of_string _); cbn [fst];
          [right; left; eauto|right; right; right; left; eauto].
Qed.

Lemma safe_clean_value_is_typed_witness :
  fst (safe_clean_value_w "12.5 m" "float" false) = VNone
  \/ exists x, fst (safe_clean_value_w "12.5 m" "float" false) = VFloat x.
Proof.
  apply (safe_clean_value_is_typed "12.5 m" "float" false). reflexivity.
Defined.

(** * The message decoders *)

Lemma message_after_stripped prefixes log_content :
  PyStr.strip (message_after prefixes log_content)
  = message_after prefixes log_content.
Proof.
  induction prefixes as [|p ps IH]; cbn [message_after]; [apply strip_idem|].
  destruct (PyStr.startswith p log_content); [apply strip_idem|exact IH].
Qed.

(** X24.  The message that a VEHICLE_COMMAND, SnAInfo or BOUNDARY_INTR
    record keeps has no blank at either end, and for the last two it is
    never empty: a line that is only the tag gives no record. *)
Theorem kept_messages_are_stripped
  (timestamp : Z) (log_content : string) (r : record) :
  (decode_vehicle_command timestamp log_content = Some r ->
   exists m, dict_get "message" r = Some (VStr m) /\ PyStr.strip m = m)
  /\ (decode_sna_info timestamp log_content = Some r ->
      exists m,
        dict_get "message" r = Some (VStr m) /\ PyStr.strip m = m /\ m <> "")
  /\ (decode_boundary_intr timestamp log_content = Some r ->
      exists m,
        dict_get "message" r = Some (VStr m) /\ PyStr.strip m = m /\ m <> "").
Proof.
  split; [|split].
  - unfold decode_vehicle_command. destruct (_ || _); [discriminate|].
    match goal with |- context [PyStr.is_empty ?m] =>
      assert (M : PyStr.strip m = m) by apply message_after_stripped;
      generalize dependent m end.
    intros message M. destruct (PyStr.is_empty message); [discriminate|].
    destruct (PyStr.startswith "Sent statustext: " message).
    + destruct (PyStr.contains ":" _).
      * destruct (PyNum.int_of_string _).
        -- destruct (PyStr.find ":" _); intros [= <-]; eexists;
             (split; [reflexivity|]); [apply strip_idem|exact M].
        -- intros [= <-]. eexists. split; [reflexivity|exact M].
      * intros [= <-]. eexists. split; [reflexivity|exact M].
    + intros [= <-]. eexists. split; [reflexivity|exact M].
  - unfold decode_sna_info. destruct (_ || _); [discriminate|].
    match goal with |- context [PyStr.is_empty ?m] =>
      assert (M : PyStr.strip m = m) by apply message_after_stripped;
      generalize dependent m end.
    intros message M. destruct message as [|c message]; [discriminate|].
    cbn [PyStr.is_empty]. intros [= <-]. eexists. split; [reflexivity|].
    split; [exact M|discriminate].
  - unfold decode_boundary_intr. destruct (_ || _); [discriminate|].
    match goal with |- context [PyStr.is_empty ?m] =>
      assert (M : PyStr.strip m = m) by apply message_after_stripped;
      generalize dependent m end.
    intros message M. destruct message as [|c message]; [discriminate|].
    cbn [PyStr.is_empty]. intros [= <-]. eexists. split; [reflexivity|].
    split; [exact M|discriminate].
Qed.

Lemma kept_messages_are_stripped_witness :
  exists m,
    dict_get "message"
      [ ("timestamp", VTime 5); ("message", VStr "fence breach at wp 3") ]
    = Some (VStr m)
    /\ PyStr.strip m = m /\ m <> "".
Proof.
  apply (kept_messages_are_stripped 5 "BOUNDARY_INTR,  fence breach at wp 3 "
           [ ("timestamp", VTime 5); ("message", VStr "fence breach at wp 3") ]).
  vm_compute. reflexivity.
Defined.

(** * The branches that keep every line *)

Lemma decode_line_with_record (b : branch) (category : string) (r : record)
  (timestamp : Z) (severity_level : option string) (log_content : string)
  (log_data : gmap string (list record)) :
  select_branch log_content = b ->
  category <> "ERROR" ->
  (forall added st,
      records category (run_branch b timestamp log_content added st)
      = records category st ++ [r]) ->
  records category (decode_line timestamp severity_level log_content log_data)
  = records category log_data ++ [r].
Proof.
  intros B N H. unfold decode_line. rewrite B, H.
  destruct (is_alarm severity_level); [|reflexivity].
  now rewrite records_error_append_ne.
Qed.

Lemma decode_version_some timestamp log_content :
  exists r, decode_version timestamp log_content = Some r.
Proof.
  unfold decode_version. destruct (_ && _); [eauto|].
  destruct (PyStr.contains "AP/FCS version" _); [eauto|].
  destruct (PyStr.contains "GCS App version" _); eauto.
Qed.

Lemma decode_guided_some timestamp log_content :
  exists r, decode_guided timestamp log_content = Some r.
Proof.
  unfold decode_guided.
  destruct (if PyStr.startswith "GUIDED_MISSION," log_content then _ else _)
    as [message_type guided_data].
  match goal with
  | |- context [let '(_, _) := ?p in _] => destruct p
  end.
  eauto.
Qed.

(** X25.  Eight branches keep every line they take: VERSION,
    GUIDED_MISSION, RESUME, MISSION_STATE_CHANGED, FLOWMETER_INFO, PUMP,
    NOZZLE and the fallback OTHER always add one row, which opens with the
    timestamp of the line, to their category, whatever follows the tag. *)
Theorem branches_that_keep_every_line
  (timestamp : Z) (severity_level : option string) (log_content : string)
  (log_data : gmap string (list record)) :
  In (select_branch log_content)
    [ B_VERSION; B_GUIDED; B_RESUME; B_MISSION_STATE_CHANGED; B_FLOWMETER_INFO;
      B_PUMP; B_NOZZLE; B_OTHER ] ->
  exists category r,
    category <> "ERROR" /\ stamped timestamp r
    /\ records category
         (decode_line timestamp severity_level log_content log_data)
       = records category log_data ++ [r].
Proof.
  pose proof (decoders_stamped timestamp log_content) as D.
  intros H. destruct (select_branch log_content) eqn:B;
    try (exfalso; cbn [In] in H; intuition discriminate); clear H.
  - destruct (decode_version_some timestamp log_content) as [r E].
    exists "VERSION", r. split; [discriminate|].
    split; [pose proof (D r); tauto|].
    apply (decode_line_with_record B_VERSION); [exact B|discriminate|].
    intros added st. cbv beta iota delta [run_branch]. rewrite E.
    apply records_append_eq.
  - destruct (decode_guided_some timestamp log_content) as [r E].
    exists "GUIDED_MISSION", r. split; [discriminate|].
    split; [pose proof (D r); tauto|].
    apply (decode_line_with_record B_GUIDED); [exact B|discriminate|].
    intros added st. cbv beta iota delta [run_branch]. rewrite E.
    apply records_append_eq.
  - exists "RESUME_MISSION", (decode_resume timestamp log_content).
    split; [discriminate|]. split; [pose proof (D []); tauto|].
    apply (decode_line_with_record B_RESUME); [exact B|discriminate|].
    intros added st. cbv beta iota zeta delta [run_branch].
    match goal with |- context [if ?c then _ else _] => destruct c end;
      [rewrite records_flag_error_ne by discriminate|];
      apply records_append_eq.
  - eexists "MISSION_STATE_CHANGED", _. split; [discriminate|].
    split; [eexists; reflexivity|].
    apply (decode_line_with_record B_MISSION_STATE_CHANGED);
      [exact B|discriminate|].
    intros added st. apply records_append_eq.
  - eexists "FLOWMETER_INFO", _. split; [discriminate|].
    split; [eexists; reflexivity|].
    apply (decode_line_with_record B_FLOWMETER_INFO); [exact B|discriminate|].
    intros added st. apply records_append_eq.
  - eexists "PUMP", _. split; [discriminate|].
    split; [eexists; reflexivity|].
    apply (decode_line_with_record B_PUMP); [exact B|discriminate|].
    intros added st. apply records_append_eq.
  - eexists "NOZZLE", _. split; [discriminate|].
    split; [eexists; reflexivity|].
    apply (decode_line_with_record B_NOZZLE); [exact B|discriminate|].
    intros added st. apply records_append_eq.
  - eexists "OTHER", _. split; [discriminate|].
    split; [eexists; reflexivity|].
    apply (decode_line_with_record B_OTHER); [exact B|discriminate|].
    intros added st. cbv beta iota zeta delta [run_branch].
    destruct (is_error_message log_content);
      [rewrite records_flag_error_ne by discriminate|];
      apply records_append_eq.
Qed.

Lemma branches_that_keep_every_line_witness :
  exists category r,
    category <> "ERROR" /\ stamped 5 r
    /\ records category
         (decode_line 5 (Some "INFO") "GUIDED_MISSION, something new"
            empty_log_data)
       = records category empty_log_data ++ [r].
Proof.
  apply (branches_that_keep_every_line 5 (Some "INFO")
           "GUIDED_MISSION, something new" empty_log_data).
  vm_compute. right. left. reflexivity.
Defined.

(** * The offset only moves the timestamps *)

Section Offset.
Variable delta : Z.
Implicit Types (r : record) (log_data : gmap string (list record)).

Lemma shift_dict_set timestamp k v r :
  stamped timestamp r -> String.eqb "timestamp" k = false ->
  dict_set k v (shift_record delta r) = shift_record delta (dict_set k v r).
Proof.
  intros [fields ->] E. cbn [shift_record dict_set].
  change (String.eqb "timestamp" "timestamp") with true. cbv iota.
  cbn [dict_set]. rewrite String.eqb_sym, E. cbn [shift_record].
  change (String.eqb "timestamp" "timestamp") with true. reflexivity.
Qed.

Lemma shift_expand timestamp field_name n values r :
  existsb (fun j => String.eqb "timestamp" (column field_name j)) (seq 1 n) = false ->
  stamped timestamp r ->
  expand field_name n values (shift_record delta r)
  = shift_record delta (expand field_name n values r).
Proof.
  unfold expand. generalize (seq 1 n). intros js. revert r.
  induction js as [|j js IH]; intros r H S; [reflexivity|].
  cbn [existsb] in H. apply orb_false_iff in H. destruct H as [Hj Hjs].
  cbn [fold_left]. rewrite (shift_dict_set timestamp) by assumption.
  apply IH; [exact Hjs|]. now apply dict_set_stamped.
Qed.

Lemma shift_sna_field timestamp r field_name present :
  sna_writes field_name "timestamp" = false ->
  stamped timestamp r ->
  sna_field (shift_record delta r) field_name present
  = shift_record delta (sna_field r field_name present).
Proof.
  unfold sna_writes, sna_field. intros H S.
  destruct (assoc field_name multi_value_fields_data) as [n|] eqn:A.
  - destruct present as [raw|]; [|now apply (shift_expand timestamp)].
    destruct (_ || _); [now apply (shift_expand timestamp)|].
    destruct (mem field_name array_fields);
      [apply (shift_dict_set timestamp)|apply (shift_expand timestamp)];
      try assumption.
    unfold multi_value_fields_data in A. cbn [assoc] in A.
    destruct (String.eqb_spec field_name "obstacle_sector") as [->|];
      [reflexivity|].
    destruct (String.eqb_spec field_name "obstacle_buffer") as [->|];
      [reflexivity|discriminate].
  - destruct present as [raw|].
    + destruct (_ || _).
      * destruct (mem field_name array_fields);
          now apply (shift_dict_set timestamp).
      * destruct (mem field_name array_fields);
          [now apply (shift_dict_set timestamp)|].
        destruct (mem field_name boolean_fields);
          [now apply (shift_dict_set timestamp)|].
        destruct (mem field_name numeric_string_fields);
          [now apply (shift_dict_set timestamp)|].
        destruct (String.eqb field_name "flight_mode");
          now apply (shift_dict_set timestamp).
    + destruct (mem field_name array_fields);
        now apply (shift_dict_set timestamp).
Qed.

Lemma shift_sna_fields timestamp names : forall i pipe_parts r,
  forallb (fun name => negb (sna_writes name "timestamp")) names = true ->
  stamped timestamp r ->
  sna_fields names i pipe_parts (shift_record delta r)
  = shift_record delta (sna_fields names i pipe_parts r).
Proof.
  induction names as [|name names IH]; intros i pipe_parts r H S; [reflexivity|].
  cbn [forallb] in H. apply andb_true_iff in H. destruct H as [Hn Hs].
  apply negb_true_iff in Hn. cbn [sna_fields].
  rewrite (shift_sna_field timestamp) by assumption.
  apply IH; [exact Hs|]. now apply sna_field_stamped.
Qed.

Lemma shift_dict_update timestamp r e :
  Forall (fun kv => String.eqb "timestamp" (fst kv) = false) e ->
  stamped timestamp r ->
  dict_update (shift_record delta r) e = shift_record delta (dict_update r e).
Proof.
  unfold dict_update. revert r.
  induction e as [|[k v] e IH]; intros r F S; [reflexivity|].
  inversion F; subst. cbn [fold_left].
  rewrite (shift_dict_set timestamp) by assumption.
  apply IH; [assumption|]. now apply dict_set_stamped.
Qed.

Lemma decode_sna_logging_shift timestamp log_content :
  decode_sna_logging (timestamp + delta) log_content
  = option_map (shift_record delta) (decode_sna_logging timestamp log_content).
Proof.
  unfold decode_sna_logging. destruct (PyStr.contains _ _); [reflexivity|].
  destruct (_ <=? _)%nat; [|reflexivity]. cbn [option_map]. f_equal.
  rewrite <- (shift_sna_fields timestamp);
    [reflexivity|vm_compute; reflexivity|eexists; reflexivity].
Qed.

Lemma decode_cpu_shift timestamp log_content :
  decode_cpu (timestamp + delta) log_content
  = option_map (shift_record delta) (decode_cpu timestamp log_content).
Proof.
  unfold decode_cpu.
  destruct (parse_cpu_info log_content) as [cpu_data|] eqn:E; [|reflexivity].
  cbn [mbind option_bind].
  apply (parse_cpu_info_keys (fun k => String.eqb "timestamp" k = false)) in E;
    try reflexivity.
  destruct cpu_data as [|kv rest] eqn:C; [reflexivity|]. rewrite <- C in *.
  cbn [option_map]. f_equal.
  rewrite <- (shift_dict_update timestamp);
    [reflexivity|exact E|eexists; reflexivity].
Qed.

Ltac shift_tac ts :=
  repeat first
    [ reflexivity
    | progress cbn [mbind option_bind option_map]
    | match goal with
      | |- context [match ?o with _ => _ end] =>
          lazymatch o with
          | context [ts] => fail
          | _ => destruct o
          end
      | |- context [mbind _ ?o] =>
          lazymatch o with
          | context [ts] => fail
          | _ => destruct o
          end
      end ].

Lemma decoders_shift timestamp log_content :
  let S := fun (decode : Z -> string -> option record) =>
             decode (timestamp + delta)%Z log_content
             = option_map (shift_record delta) (decode timestamp log_content) in
  S decode_mission_info /\ S decode_rc_channels /\ S decode_resume_state
  /\ S decode_serial_tcp_con /\ S decode_vehicle_command
  /\ S decode_schedulertask /\ S decode_key_value /\ S decode_ap_parameter_tiny
  /\ S decode_ga_get_param /\ S decode_mavlink_info /\ S decode_max_speed_esti
  /\ S decode_mavlink_active_port /\ S decode_version /\ S decode_sna_version
  /\ S decode_sna_receiving_data /\ S decode_sna_info /\ S decode_guided
  /\ S (fun t c => Some (decode_resume t c))
  /\ S decode_cc_parameter_perf /\ S decode_cc_parameter_db_perf
  /\ S decode_mission_state_changed /\ S decode_spray_info /\ S decode_flowmeter
  /\ S decode_flowmeter_info /\ S decode_pump /\ S decode_nozzle
  /\ S decode_boundary_intr.
Proof.
  cbv zeta beta.
  split; [unfold decode_mission_info; shift_tac timestamp|].
  split; [unfold decode_rc_channels; shift_tac timestamp|].
  split; [unfold decode_resume_state; shift_tac timestamp|].
  split; [unfold decode_serial_tcp_con; shift_tac timestamp|].
  split; [unfold decode_vehicle_command; shift_tac timestamp|].
  split; [unfold decode_schedulertask; shift_tac timestamp|].
  split; [unfold decode_key_value; shift_tac timestamp|].
  split; [unfold decode_ap_parameter_tiny; shift_tac timestamp|].
  split; [unfold decode_ga_get_param; shift_tac timestamp|].
  split; [unfold decode_mavlink_info; shift_tac timestamp|].
  split; [unfold decode_max_speed_esti; shift_tac timestamp|].
  split; [unfold decode_mavlink_active_port; shift_tac timestamp|].
  split; [unfold decode_version, version_record; shift_tac timestamp|].
  split; [unfold decode_sna_version, version_record; shift_tac timestamp|].
  split; [unfold decode_sna_receiving_data; shift_tac timestamp|].
  split; [unfold decode_sna_info; shift_tac timestamp|].
  split; [unfold decode_guided; shift_tac timestamp|].
  split; [unfold decode_resume; shift_tac timestamp|].
  split; [unfold decode_cc_parameter_perf; shift_tac timestamp|].
  split; [unfold decode_cc_parameter_db_perf; shift_tac timestamp|].
  split; [unfold decode_mission_state_changed; shift_tac timestamp|].
  split; [unfold decode_spray_info; shift_tac timestamp|].
  split; [unfold decode_flowmeter; shift_tac timestamp|].
  split; [unfold decode_flowmeter_info; shift_tac timestamp|].
  split; [unfold decode_pump; shift_tac timestamp|].
  split; [unfold decode_nozzle; shift_tac timestamp|].
  unfold decode_boundary_intr; shift_tac timestamp.
Qed.

Lemma shifted_append category r log_data0 log_data :
  shifted delta log_data0 log_data ->
  shifted delta (append_record category r log_data0)
    (append_record category (shift_record delta r) log_data).
Proof.
  intros R c. destruct (String.eqb_spec c category) as [->|N].
  - rewrite !records_append_eq, R, map_app. reflexivity.
  - rewrite !records_append_ne by assumption. apply R.
Qed.

Lemma shifted_emit category o log_data0 log_data :
  shifted delta log_data0 log_data ->
  shifted delta (emit category o log_data0)
    (emit category (option_map (shift_record delta) o) log_data).
Proof.
  intros R. destruct o as [r|]; cbn [emit option_map];
    [now apply shifted_append|exact R].
Qed.

Lemma shifted_error timestamp content log_data0 log_data :
  shifted delta log_data0 log_data ->
  shifted delta (append_to_error_log timestamp content log_data0)
    (append_to_error_log (timestamp + delta) content log_data).
Proof.
  intros R. unfold append_to_error_log.
  rewrite (R "ERROR"), List.length_map.
  destruct (List.length (records "ERROR" log_data0) =? 0)%nat.
  - apply (shifted_append "ERROR" (error_entry timestamp content)).
    apply (shifted_append "ERROR" error_separator).
    apply (shifted_append "ERROR" error_header). exact R.
  - apply (shifted_append "ERROR" (error_entry timestamp content)). exact R.
Qed.

Lemma shifted_flag_error added timestamp content log_data0 log_data :
  shifted delta log_data0 log_data ->
  shifted delta (flag_error added timestamp content log_data0)
    (flag_error added (timestamp + delta) content log_data).
Proof.
  intros R. destruct added; cbn [flag_error]; [exact R|now apply shifted_error].
Qed.

Lemma shifted_run_branch b timestamp log_content added log_data0 log_data :
  shifted delta log_data0 log_data ->
  shifted delta (run_branch b timestamp log_content added log_data0)
    (run_branch b (timestamp + delta) log_content added log_data).
Proof.
  intros R.
  pose proof (decoders_shift timestamp log_content) as D. cbv zeta beta in D.
  pose proof (decode_cpu_shift timestamp log_content) as D1.
  pose proof (decode_sna_logging_shift timestamp log_content) as D2.
  destruct D as (E01 & E02 & E03 & E04 & E05 & E06 & E07 & E08 & E09 & E10
                 & E11 & E12 & E13 & E14 & E15 & E16 & E17 & E18 & E19 & E20
                 & E21 & E22 & E23 & E24 & E25 & E26 & E27).
  destruct b; cbv beta iota zeta delta [run_branch];
    try (match goal with
         | |- shifted _ _ (emit _ ?o _) =>
             first [ rewrite E01 | rewrite E02 | rewrite E03 | rewrite E04
                   | rewrite E05 | rewrite E06 | rewrite E07 | rewrite E08
                   | rewrite E09 | rewrite E10 | rewrite E11 | rewrite E12
                   | rewrite E13 | rewrite E14 | rewrite E15 | rewrite E16
                   | rewrite E17 | rewrite E19 | rewrite E20 | rewrite E21
                   | rewrite E22 | rewrite E23 | rewrite E24 | rewrite E25
                   | rewrite E26 | rewrite E27 | rewrite D1 | rewrite D2 ]
         end; now apply shifted_emit).
  - (* CC_PARAMETER *)
    destruct (cc_is_error log_content); [now apply shifted_flag_error|].
    rewrite E07. now apply shifted_emit.
  - (* RESUME *)
    injection E18 as E18. rewrite E18.
    match goal with |- context [if ?c then _ else _] => destruct c end;
      [apply shifted_flag_error|]; now apply shifted_append.
  - (* OTHER *)
    destruct (is_error_message log_content);
      [apply shifted_flag_error|];
      apply (shifted_append "OTHER"
               [ ("timestamp", VTime timestamp); ("log_content", VStr log_content) ]);
      exact R.
Qed.

Lemma shifted_decode_line timestamp severity_level log_content log_data0 log_data :
  shifted delta log_data0 log_data ->
  shifted delta (decode_line timestamp severity_level log_content log_data0)
    (decode_line (timestamp + delta) severity_level log_content log_data).
Proof.
  intros R. unfold decode_line. apply shifted_run_branch.
  destruct (is_alarm severity_level); [now apply shifted_error|exact R].
Qed.

(** How the head of the loop reads a line with the offset and without. *)
Lemma segment_shift now line :
  Datetime.in_range now = true ->
  match segment now 0 line, segment now delta line with
  | Skipped, Skipped => True
  | Decodable t sev lc, Decodable t' sev' lc' =>
      t' = (t + delta)%Z /\ sev' = sev /\ lc' = lc
  | Skipped, Overflowed | Decodable _ _ _, Overflowed => True
  | _, _ => False
  end.
Proof.
  intros N. unfold segment.
  destruct (PyStr.is_empty (PyStr.strip line)); [exact I|].
  destruct (Re.match_timestamp (PyStr.strip line)) as [[ts_str after]|];
    [|exact I].
  unfold parse_timestamp.
  match goal with |- context [Datetime.add ?b 0] =>
    assert (B : Datetime.in_range b = true); [|generalize dependent b] end.
  { destruct (Datetime.strptime_micro ts_str) as [t|] eqn:E1;
      [now apply finish_in_range in E1|].
    destruct (Datetime.strptime_seconds ts_str) as [t|] eqn:E2;
      [now apply finish_in_range in E2|exact N]. }
  intros base B. rewrite (add_zero _ B). unfold Datetime.add.
  destruct (Datetime.in_range (base + delta)).
  - destruct (find_severity _) as [[sev lc]|]; [|exact I].
    destruct (PyStr.is_empty lc); [exact I|now repeat split].
  - destruct (find_severity _) as [[sev lc]|]; [|exact I].
    destruct (PyStr.is_empty lc); exact I.
Qed.

Lemma shifted_scan clock lines :
  (forall n, Datetime.in_range (clock n) = true) ->
  forall line_num log_data0 log_data log_data',
    shifted delta log_data0 log_data ->
    scan clock delta line_num lines log_data = Some log_data' ->
    exists log_data0',
      scan clock 0 line_num lines log_data0 = Some log_data0'
      /\ shifted delta log_data0' log_data'.
Proof.
  intros C. induction lines as [|line lines IH];
    intros line_num log_data0 log_data log_data' R.
  - intros [= <-]. now exists log_data0.
  - cbn [scan]. unfold process_line.
    pose proof (segment_shift (clock line_num) line (C line_num)) as Sg.
    destruct (segment (clock line_num) 0 line) as [| |t sev lc];
      destruct (segment (clock line_num) delta line) as [| |t' sev' lc'];
      try contradiction; try discriminate.
    + now apply IH.
    + destruct Sg as (-> & -> & ->). apply IH. now apply shifted_decode_line.
Qed.

Lemma shifted_dataframes log_data0 log_data :
  shifted delta log_data0 log_data ->
  dataframes log_data = shift_rows delta (dataframes log_data0).
Proof.
  intros R. unfold dataframes, shift_rows.
  induction categories as [|c cs IH]; [reflexivity|].
  cbn [map List.filter]. rewrite (R c), List.length_map.
  destruct (negb (List.length (records c log_data0) =? 0)%nat);
    cbn [map]; now rewrite IH.
Qed.

End Offset.

(** X26.  The offset only moves the timestamps.  Whenever
    [parse_log_file] returns a result with an offset, it returns one with
    the zero offset on the same lines and clock, and the two results have
    the same categories and the same records in the same order, equal field
    by field except that every leading timestamp is later by the offset.
    The offset never changes how a line is routed or what its values are. *)
Theorem offset_only_moves_timestamps
  (clock : nat -> Z) (offset : Z) (lines : list string)
  (out : list (string * list record)) :
  (forall n, Datetime.in_range (clock n) = true) ->
  parse_log_file clock offset lines = Some out ->
  exists out0,
    parse_log_file clock 0 lines = Some out0
    /\ out = shift_rows offset out0.
Proof.
  intros C. unfold parse_log_file, parse_log_data.
  destruct (scan clock offset 1 lines empty_log_data) as [log_data|] eqn:S;
    [|discriminate].
  cbn [option_map]. intros E.
  assert (O : out = dataframes log_data) by congruence. subst out.
  destruct (shifted_scan offset clock lines C 1%nat empty_log_data
              empty_log_data log_data) as (log_data0 & S0 & R); [|exact S|].
  { intros c. now rewrite records_empty. }
  exists (dataframes log_data0). rewrite S0. cbn [option_map].
  split; [reflexivity|]. now apply shifted_dataframes.
Qed.

Lemma offset_only_moves_timestamps_witness :
  exists out0,
    parse_log_file (fun _ => 0%Z) 0
      [ "2024-01-01 10:00:00.000,drone1,INFO,FOO_BAR,1,2,3" ] = Some out0
    /\ [ ("OTHER", [ [ ("timestamp", VTime 63839719800000000);
                       ("log_content", VStr "FOO_BAR,1,2,3") ] ]) ]
       = shift_rows default_offset out0.
Proof.
  apply (offset_only_moves_timestamps (fun _ => 0%Z) default_offset
           [ "2024-01-01 10:00:00.000,drone1,INFO,FOO_BAR,1,2,3" ]).
  - intros n. vm_compute. reflexivity.
  - vm_compute. reflexivity.
Defined.
